(** * Sensor control, generation and detection pipeline

    A shallow embedding of the LiDAR and ultrasonic control services, the
    LiDAR data collector with its sample generator, the occupancy and
    proximity detectors and the two streaming services of the device-side
    client, followed by the properties of the specification that concern
    them and by further properties of the code.

    Conventions of the embedding.

    - A Python [float] is a rational number ([Q]).  Every comparison of the
      source is a comparison of the rationals the floats denote; arithmetic
      is carried out without rounding error.  Decimal literals such as
      [0.1] stand for the decimal they spell.
    - A Python dict with free-form keys is a [gmap string _]; a dict whose
      keys are fixed by the code is a record, with [option] fields where
      the code tests for the presence of a key.
    - A method that mutates [self] takes the object and returns the new
      object.  A method that can raise returns the object as it stands at
      the moment of the [raise] together with the exception: Python does
      not undo the assignments made before an exception.
    - [time.time()] and the [random] module are inputs: a clock reading
      [now] (seconds) and one integer draw per call to the generator.
    - [threading.Thread(...).start()] is recorded in a counter of the
      object that owns the loop, and one iteration of a loop is a function.
    - [print] is not modelled. *)

From Stdlib Require Import QArith Qround Lqa ZArith Lia String Ascii List Bool.
From stdpp Require Import base option gmap strings pretty.
Import ListNotations.

Local Open Scope Z_scope.
Local Open Scope Q_scope.
Local Open Scope string_scope.

(** ** Python numbers *)

Module Py.

(** [x <= y] and [x < y] on floats, as booleans. *)
Definition leb (x y : Q) : bool := Qle_bool x y.
Definition ltb (x y : Q) : bool := negb (Qle_bool y x).

(** [min(a, b)] returns [a] unless [b < a]; [max(a, b)] returns [a]
    unless [b > a]. *)
Definition min (a b : Q) : Q := if ltb b a then b else a.
Definition max (a b : Q) : Q := if ltb a b then b else a.

(** [int(x)]: truncation toward zero. *)
Definition int (x : Q) : Z := Z.quot (Qnum x) (Zpos (Qden x)).

(** Rounding to the nearest integer, ties to the even one. *)
Definition round_half_even (x : Q) : Z :=
  let f := Qfloor x in
  match Qcompare (x - inject_Z f) (1 # 2) with
  | Lt => f
  | Gt => (f + 1)%Z
  | Eq => if Z.even f then f else (f + 1)%Z
  end.

(** [round(x, ndigits)]: the decimal with [ndigits] fractional digits
    nearest to [x]. *)
Definition round (x : Q) (ndigits : nat) : Q :=
  let scale := Pos.pow 10 (Pos.of_nat ndigits) in
  match ndigits with
  | O => inject_Z (round_half_even x)
  | S _ => Qmake (round_half_even (x * inject_Z (Zpos scale))) scale
  end.

(** [int(time.time() * 1000)]. *)
Definition millis (now : Q) : Z := int (now * 1000).

(** *** The [random] module

    Each call consumes one integer draw [k].  [random.random()] returns
    a multiple of [2^-53] in [[0, 1)]; [randbelow n] an index below [n].
    Every value the library can return is the image of some draw, and
    every draw gives a value the library can return. *)

Definition random (k : Z) : Q := Qmake (k mod 2 ^ 53) (2 ^ 53).

(** [random.uniform(a, b)] is [a + (b - a) * random()]. *)
Definition uniform (a b : Q) (k : Z) : Q := a + (b - a) * random k.

(** [random.randint(a, b)] for [a <= b]. *)
Definition randint (a b : Z) (k : Z) : Z := (a + k mod (b - a + 1))%Z.

(** [random.choice(seq)] for a non-empty [seq]; [d] is never returned
    then. *)
Definition choice {A} (d : A) (seq : list A) (k : Z) : A :=
  nth (Z.to_nat (k mod Z.of_nat (length seq))) seq d.

(** [str.lower()] on ASCII text. *)
Definition lower_ascii (c : ascii) : ascii :=
  let n := nat_of_ascii c in
  if (Nat.leb 65 n && Nat.leb n 90)%bool then ascii_of_nat (n + 32) else c.

Fixpoint lower (s : string) : string :=
  match s with
  | EmptyString => EmptyString
  | String c s' => String (lower_ascii c) (lower s')
  end.

(** A value stored in a telemetry dict: a number, a boolean or a
    string. *)
Inductive value :=
| VNum (q : Q)
| VBool (b : bool)
| VStr (s : string).

(** The number a value denotes in a comparison or in arithmetic;
    [None] where Python raises [TypeError]. *)
Definition as_num (v : value) : option Q :=
  match v with
  | VNum q => Some q
  | VBool b => Some (if b then 1 else 0)
  | VStr _ => None
  end.

(** A telemetry dict [{"ts": ..., "values": {...}}]; a missing key is
    [None]. *)
Record telemetry := Telemetry {
  ts : option Z;
  values : option (gmap string value)
}.

End Py.

(** ** The occupancy detector ([sensors/lidar/occupancy_detector.py]) *)

Module OccupancyDetector.

(** The attributes of an [OccupancyDetector].  [_telemetry_callback] is
    [true] when a callback is installed; the callback itself is the
    publisher, which returns normally on every input: an invocation is
    recorded in the list of published results a method returns.
    [_detection_thread] counts the polling threads started. *)
Record t := Detector {
  _detecting : bool;
  _telemetry_callback : bool;
  _detection_thread : nat;
  _detection_count : Z;
  _start_time : option Q;
  _detection_interval : Q;
  _current_occupancy : bool;
  _confidence_threshold : Q;
  _real_time_mode : bool
}.

(** [__init__]. *)
Definition init (telemetry_callback : bool) : t :=
  {| _detecting := false;
     _telemetry_callback := telemetry_callback;
     _detection_thread := 0;
     _detection_count := 0;
     _start_time := None;
     _detection_interval := 1 # 10;
     _current_occupancy := false;
     _confidence_threshold := 75 # 100;
     _real_time_mode := true |}.

Definition set_telemetry_callback (d : t) : t :=
  {| _detecting := _detecting d;
     _telemetry_callback := true;
     _detection_thread := _detection_thread d;
     _detection_count := _detection_count d;
     _start_time := _start_time d;
     _detection_interval := _detection_interval d;
     _current_occupancy := _current_occupancy d;
     _confidence_threshold := _confidence_threshold d;
     _real_time_mode := _real_time_mode d |}.

(** [start_detection]: the new detector and the [success] field. *)
Definition start_detection (d : t) (now : Q) : t * bool :=
  if _detecting d then (d, false)
  else
    ({| _detecting := true;
        _telemetry_callback := _telemetry_callback d;
        _detection_thread := S (_detection_thread d);
        _detection_count := 0;
        _start_time := Some now;
        _detection_interval := _detection_interval d;
        _current_occupancy := _current_occupancy d;
        _confidence_threshold := _confidence_threshold d;
        _real_time_mode := _real_time_mode d |}, true).

(** [stop_detection]: the new detector and the [success] field. *)
Definition stop_detection (d : t) : t * bool :=
  if negb (_detecting d) then (d, false)
  else
    ({| _detecting := false;
        _telemetry_callback := _telemetry_callback d;
        _detection_thread := _detection_thread d;
        _detection_count := _detection_count d;
        _start_time := _start_time d;
        _detection_interval := _detection_interval d;
        _current_occupancy := _current_occupancy d;
        _confidence_threshold := _confidence_threshold d;
        _real_time_mode := _real_time_mode d |}, true).

(** The draws one call of [process_telemetry_data] consumes, in the
    order of the calls to [random]. *)
Record draws := Draws {
  k_occupied : Z;
  k_confidence : Z;
  k_height : Z;
  k_width : Z;
  k_length : Z;
  k_distance : Z;
  k_density : Z
}.

(** [_analyze_point_cloud]; [None] when the comparison raises. *)
Definition _analyze_point_cloud (point_count : Py.value) (k : Z) : option bool :=
  pc ← Py.as_num point_count;
  if Py.ltb 280000 pc then Some (Py.choice false [true; true; false] k)
  else if Py.ltb pc 260000 then Some (Py.choice false [false; false; true] k)
  else Some (Py.choice false [true; false] k).

(** [valid_points / point_count if point_count > 0 else 0]. *)
Definition data_quality (point_count valid_points : Py.value) : option Q :=
  pc ← Py.as_num point_count;
  if Py.ltb 0 pc then vp ← Py.as_num valid_points; Some (vp / pc)
  else Some 0.

(** [_calculate_confidence]. *)
Definition _calculate_confidence (point_count valid_points : Py.value) (k : Z)
  : option Q :=
  dq ← data_quality point_count valid_points;
  let base_confidence := (7 # 10) + dq * (25 # 100) in
  let confidence := base_confidence + Py.uniform (- (5 # 100)) (5 # 100) k in
  Some (Py.round (Py.max (1 # 2) (Py.min (99 # 100) confidence)) 2).

(** [_generate_detailed_occupancy_data]. *)
Definition _generate_detailed_occupancy_data
    (occupancy_detected : bool) (confidence : Q)
    (point_count valid_points : Py.value) (r : draws) (now : Q)
  : option (gmap string Py.value) :=
  let occupancy_data : gmap string Py.value :=
    <["lidar.occupancy.confidence" := Py.VNum confidence]>
      (<["lidar.occupancy.detected" := Py.VBool occupancy_detected]> ∅) in
  let occupancy_data : gmap string Py.value :=
    if occupancy_detected then
      let object_height := Py.round (Py.uniform (14 # 10) (21 # 10) (k_height r)) 2 in
      let object_width := Py.round (Py.uniform (16 # 10) (22 # 10) (k_width r)) 2 in
      let object_length := Py.round (Py.uniform (38 # 10) (55 # 10) (k_length r)) 2 in
      let distance_from_sensor := Py.round (Py.uniform (15 # 10) 8 (k_distance r)) 1 in
      let base_density := 200 - distance_from_sensor * 15 in
      let point_density :=
        Z.max 50 (Py.int (base_density + Py.uniform (- 30) 30 (k_density r))) in
      <["lidar.occupancy.point_density" := Py.VNum (inject_Z point_density)]>
        (<["lidar.occupancy.distance_from_sensor" := Py.VNum distance_from_sensor]>
          (<["lidar.occupancy.object_length" := Py.VNum object_length]>
            (<["lidar.occupancy.object_width" := Py.VNum object_width]>
              (<["lidar.occupancy.object_height" := Py.VNum object_height]>
                occupancy_data))))
    else
      <["lidar.occupancy.point_density" := Py.VNum 0]>
        (<["lidar.occupancy.distance_from_sensor" := Py.VNum 0]>
          (<["lidar.occupancy.object_length" := Py.VNum 0]>
            (<["lidar.occupancy.object_width" := Py.VNum 0]>
              (<["lidar.occupancy.object_height" := Py.VNum 0]>
                occupancy_data)))) in
  dq ← data_quality point_count valid_points;
  Some
    (<["lidar.occupancy.analysis_timestamp" := Py.VNum (inject_Z (Py.millis now))]>
      (<["lidar.occupancy.data_quality" := Py.VNum (Py.round dq 3)]>
        (<["lidar.occupancy.valid_points" := valid_points]>
          (<["lidar.occupancy.point_count" := point_count]> occupancy_data)))).

(** The analysis inside the [try] of [process_telemetry_data]: the
    detection flag and the result dict, or [None] when an exception is
    raised (it is caught, and the method returns [None]). *)
Definition analyze (vals : gmap string Py.value) (ts : option Z)
    (r : draws) (now : Q) : option (bool * Py.telemetry) :=
  let point_count := default (Py.VNum 0) (vals !! "lidar.point_count") in
  let valid_points := default (Py.VNum 0) (vals !! "lidar.valid_points") in
  occupancy_detected ← _analyze_point_cloud point_count (k_occupied r);
  confidence ← _calculate_confidence point_count valid_points (k_confidence r);
  occupancy_details ←
    _generate_detailed_occupancy_data occupancy_detected confidence
      point_count valid_points r now;
  Some (occupancy_detected,
        Py.Telemetry (Some (default (Py.millis now) ts)) (Some occupancy_details)).

(** What one call of [process_telemetry_data] yields: the detector
    afterwards, the results handed to the callback, and the return
    value. *)
Record outcome := Outcome {
  detector : t;
  published : list Py.telemetry;
  result : option Py.telemetry
}.

Definition process_telemetry_data (d : t) (telemetry_data : Py.telemetry)
    (r : draws) (now : Q) : outcome :=
  if negb (_detecting d) then Outcome d [] None
  else
    match Py.values telemetry_data with
    | None => Outcome d [] None
    | Some vals =>
        match analyze vals (Py.ts telemetry_data) r now with
        | None => Outcome d [] None
        | Some (occupancy_detected, occupancy_result) =>
            let d' :=
              {| _detecting := _detecting d;
                 _telemetry_callback := _telemetry_callback d;
                 _detection_thread := _detection_thread d;
                 _detection_count := (_detection_count d + 1)%Z;
                 _start_time := _start_time d;
                 _detection_interval := _detection_interval d;
                 _current_occupancy := occupancy_detected;
                 _confidence_threshold := _confidence_threshold d;
                 _real_time_mode := _real_time_mode d |} in
            Outcome d'
              (if (_telemetry_callback d && occupancy_detected)%bool
               then [occupancy_result] else [])
              (Some occupancy_result)
        end
    end.

(** The [lidar.occupancy.detected] entry of a result. *)
Definition detected (res : option Py.telemetry) : bool :=
  match res with
  | Some (Py.Telemetry _ (Some vals)) =>
      match vals !! "lidar.occupancy.detected" with
      | Some (Py.VBool b) => b
      | _ => false
      end
  | _ => false
  end.

(** The hook called on the samples of a sequence, one after the other:
    the detector at the end, the value returned for each sample and the
    results handed to the callback, in order. *)
Fixpoint process_all (d : t) (samples : list (Py.telemetry * draws * Q))
  : t * list (option Py.telemetry) * list Py.telemetry :=
  match samples with
  | [] => (d, [], [])
  | (telemetry_data, r, now) :: samples' =>
      let o := process_telemetry_data d telemetry_data r now in
      let '(d', results, pub) := process_all (detector o) samples' in
      (d', result o :: results, (published o ++ pub)%list)
  end.

(** The draws of the fallback of [_detect_occupancy], in the order of
    the calls to [random]. *)
Record fallback_draws := FallbackDraws {
  k_fallback_occupied : Z;
  k_fallback_confidence : Z;
  k_fallback_points : Z;
  k_fallback_valid : Z
}.

(** [_detect_occupancy].  [collector_reading] is what
    [self._data_collector.get_current_telemetry()] returns, and [None]
    when no collector is set; the result is [None] when an exception is
    raised. *)
Definition _detect_occupancy (collector_reading : option (option Py.telemetry))
    (r : draws) (rf : fallback_draws) (now : Q) : option Py.telemetry :=
  let current_time := Py.millis now in
  let fallback :=
    let occupancy_detected :=
      Py.choice false [true; false; false; false] (k_fallback_occupied rf) in
    let confidence :=
      Py.round (Py.uniform (7 # 10) (95 # 100) (k_fallback_confidence rf)) 2 in
    let fallback_point_count := Py.randint 250000 300000 (k_fallback_points rf) in
    let fallback_valid_points :=
      Py.int (inject_Z fallback_point_count
              * Py.uniform (92 # 100) (98 # 100) (k_fallback_valid rf)) in
    occupancy_details ←
      _generate_detailed_occupancy_data occupancy_detected confidence
        (Py.VNum (inject_Z fallback_point_count))
        (Py.VNum (inject_Z fallback_valid_points)) r now;
    Some (Py.Telemetry (Some current_time) (Some occupancy_details)) in
  match collector_reading with
  | Some (Some (Py.Telemetry _ (Some vals))) =>
      let point_count := default (Py.VNum 0) (vals !! "lidar.point_count") in
      let valid_points := default (Py.VNum 0) (vals !! "lidar.valid_points") in
      occupancy_detected ← _analyze_point_cloud point_count (k_occupied r);
      confidence ← _calculate_confidence point_count valid_points (k_confidence r);
      occupancy_details ←
        _generate_detailed_occupancy_data occupancy_detected confidence
          point_count valid_points r now;
      Some (Py.Telemetry (Some current_time) (Some occupancy_details))
  | _ => fallback
  end.

(** One iteration of [_detection_loop], its [while] test included.  An
    exception is caught by the loop; the [result] of the outcome is the
    value [_detect_occupancy] returned. *)
Definition detection_loop_iteration (d : t)
    (collector_reading : option (option Py.telemetry))
    (r : draws) (rf : fallback_draws) (now : Q) : outcome :=
  if negb (_detecting d) then Outcome d [] None
  else
    match _detect_occupancy collector_reading r rf now with
    | None => Outcome d [] None
    | Some occupancy_result =>
        if _telemetry_callback d then
          let occupancy_detected := detected (Some occupancy_result) in
          let d' :=
            {| _detecting := _detecting d;
               _telemetry_callback := _telemetry_callback d;
               _detection_thread := _detection_thread d;
               _detection_count := (_detection_count d + 1)%Z;
               _start_time := _start_time d;
               _detection_interval := _detection_interval d;
               _current_occupancy := occupancy_detected;
               _confidence_threshold := _confidence_threshold d;
               _real_time_mode := _real_time_mode d |} in
          Outcome d' (if occupancy_detected then [occupancy_result] else [])
            (Some occupancy_result)
        else Outcome d [] (Some occupancy_result)
    end.

End OccupancyDetector.

(** ** The LiDAR data collector ([sensors/lidar/lidar_collector.py]) *)

Module LidarDataCollector.

(** A [range_filter] dict. *)
Record range_filter_t := RangeFilter {
  min_range_m : Q;
  max_range_m : Q
}.

(** The keys of [self._parameters] the collector reads; the dict starts
    empty, and [None] is a key that is absent. *)
Record parameters := Parameters {
  p_scan_rate_hz : option Q;
  p_resolution : option string;
  p_range_filter : option range_filter_t
}.

Definition no_parameters : parameters := Parameters None None None.

(** [dict.update]: the keys of [q] replace those of [p]. *)
Definition parameters_update (p q : parameters) : parameters :=
  {| p_scan_rate_hz := from_option Some (p_scan_rate_hz p) (p_scan_rate_hz q);
     p_resolution := from_option Some (p_resolution p) (p_resolution q);
     p_range_filter := from_option Some (p_range_filter p) (p_range_filter q) |}.

(** The attributes of a [LidarDataCollector].  [_collection_thread]
    counts the generation loops started.  [files] is the content of
    [data/temp], a JSON array per file name.  The occupancy detector the
    collector refers to is kept here; the calls made on that detector
    from elsewhere act on this field. *)
Record t := Collector {
  _collecting : bool;
  _parameters : parameters;
  _collection_thread : nat;
  _current_telemetry : option Py.telemetry;
  _file_path : option string;
  _telemetry_entries : list Py.telemetry;
  _start_epoch : option Z;
  _occupancy_detector : option OccupancyDetector.t;
  files : gmap string (list Py.telemetry)
}.

Definition _base_point_count : Z := 275000.
Definition _point_count_variance : Z := 15000.
Definition _temperature_base : Q := 35.
Definition _temperature_variance : Q := 5.

(** [__init__]. *)
Definition init : t :=
  {| _collecting := false;
     _parameters := no_parameters;
     _collection_thread := 0;
     _current_telemetry := None;
     _file_path := None;
     _telemetry_entries := [];
     _start_epoch := None;
     _occupancy_detector := None;
     files := ∅ |}.

Definition set_occupancy_detector (c : t) (d : OccupancyDetector.t) : t :=
  {| _collecting := _collecting c;
     _parameters := _parameters c;
     _collection_thread := _collection_thread c;
     _current_telemetry := _current_telemetry c;
     _file_path := _file_path c;
     _telemetry_entries := _telemetry_entries c;
     _start_epoch := _start_epoch c;
     _occupancy_detector := Some d;
     files := files c |}.

(** [start_collection]: nothing happens when a session is running;
    otherwise the parameters are copied, the session file is created
    with an empty array and the generation loop is started. *)
Definition start_collection (c : t) (params : parameters) (now : Q) : t :=
  if _collecting c then c
  else
    let start_epoch := Py.int now in
    let filename := "lidar_" +:+ pretty start_epoch +:+ ".json" in
    {| _collecting := true;
       _parameters := params;
       _collection_thread := S (_collection_thread c);
       _current_telemetry := _current_telemetry c;
       _file_path := Some filename;
       _telemetry_entries := _telemetry_entries c;
       _start_epoch := Some start_epoch;
       _occupancy_detector := _occupancy_detector c;
       files := <[filename := []]> (files c) |}.

Definition stop_collection (c : t) : t :=
  if negb (_collecting c) then c
  else
    {| _collecting := false;
       _parameters := _parameters c;
       _collection_thread := _collection_thread c;
       _current_telemetry := _current_telemetry c;
       _file_path := _file_path c;
       _telemetry_entries := _telemetry_entries c;
       _start_epoch := _start_epoch c;
       _occupancy_detector := _occupancy_detector c;
       files := files c |}.

Definition update_parameters (c : t) (params : parameters) : t :=
  {| _collecting := _collecting c;
     _parameters := parameters_update (_parameters c) params;
     _collection_thread := _collection_thread c;
     _current_telemetry := _current_telemetry c;
     _file_path := _file_path c;
     _telemetry_entries := _telemetry_entries c;
     _start_epoch := _start_epoch c;
     _occupancy_detector := _occupancy_detector c;
     files := files c |}.

(** [get_current_telemetry]. *)
Definition get_current_telemetry (c : t) : option Py.telemetry :=
  if (negb (_collecting c) || negb (bool_decide (is_Some (_current_telemetry c))))%bool
  then None
  else _current_telemetry c.

(** The draws one call of [_generate_telemetry_data] consumes, in the
    order of the calls to [random]. *)
Record draws := Draws {
  k_point_count : Z;
  k_valid_points : Z;
  k_max_range : Z;
  k_min_range : Z;
  k_reflectivity : Z;
  k_frequency : Z;
  k_temperature : Z;
  k_status : Z
}.

Definition default_range_filter : range_filter_t := RangeFilter (5 # 10) 30.

(** The range values of a sample before they are rounded for the
    report. *)
Definition generated_max_range (rf : range_filter_t) (k : Z) : Q :=
  let max_range_variance := Py.min 1 (max_range_m rf * (5 # 100)) in
  let max_range := max_range_m rf + Py.uniform (- max_range_variance) 0 k in
  Py.min max_range (max_range_m rf).

Definition generated_min_range (rf : range_filter_t) (k : Z) : Q :=
  let min_range_variance := Py.min (5 # 100) (min_range_m rf * (1 # 10)) in
  let min_range := min_range_m rf + Py.uniform 0 min_range_variance k in
  Py.max min_range (min_range_m rf).

(** [_generate_telemetry_data]. *)
Definition _generate_telemetry_data (c : t) (r : draws) (now : Q) : Py.telemetry :=
  let current_time := Py.millis now in
  let resolution := default "medium" (p_resolution (_parameters c)) in
  let rf := default default_range_filter (p_range_filter (_parameters c)) in
  let scan_rate := default 10 (p_scan_rate_hz (_parameters c)) in
  let '(base_points, variance) :=
    if String.eqb resolution "high"
    then ((_base_point_count + 20000)%Z, _point_count_variance)
    else if String.eqb resolution "low"
    then ((_base_point_count - 20000)%Z, (_point_count_variance / 2)%Z)
    else (_base_point_count, _point_count_variance) in
  let point_count :=
    Py.randint (base_points - variance) (base_points + variance) (k_point_count r) in
  let valid_points :=
    Py.randint (Py.int (inject_Z point_count * (92 # 100)))
               (Py.int (inject_Z point_count * (98 # 100))) (k_valid_points r) in
  let max_range := generated_max_range rf (k_max_range r) in
  let min_range := generated_min_range rf (k_min_range r) in
  let avg_reflectivity :=
    Py.round (Py.uniform (65 # 100) (85 # 100) (k_reflectivity r)) 2 in
  let actual_scan_frequency :=
    scan_rate + Py.uniform (- (2 # 10)) (2 # 10) (k_frequency r) in
  let temperature :=
    _temperature_base
    + Py.uniform (- _temperature_variance) _temperature_variance (k_temperature r) in
  let status :=
    Py.choice "operational"
      ["operational"; "operational"; "operational"; "warming_up"; "calibrating"]
      (k_status r) in
  Py.Telemetry (Some current_time)
    (Some
      (<["lidar.status" := Py.VStr status]>
        (<["lidar.temperature" := Py.VNum (Py.round temperature 1)]>
          (<["lidar.scan_frequency" := Py.VNum (Py.round actual_scan_frequency 2)]>
            (<["lidar.avg_reflectivity" := Py.VNum avg_reflectivity]>
              (<["lidar.min_range" := Py.VNum (Py.round min_range 2)]>
                (<["lidar.max_range" := Py.VNum (Py.round max_range 1)]>
                  (<["lidar.valid_points" := Py.VNum (inject_Z valid_points)]>
                    (<["lidar.point_count" := Py.VNum (inject_Z point_count)]> ∅))))))))).

(** [_save_telemetry_to_file]: the array of the session file, read,
    extended and written back. *)
Definition _save_telemetry_to_file (c : t) (telemetry_data : Py.telemetry) : t :=
  match _file_path c with
  | None => c
  | Some path =>
      let existing_data := default [] (files c !! path) in
      {| _collecting := _collecting c;
         _parameters := _parameters c;
         _collection_thread := _collection_thread c;
         _current_telemetry := _current_telemetry c;
         _file_path := _file_path c;
         _telemetry_entries := _telemetry_entries c;
         _start_epoch := _start_epoch c;
         _occupancy_detector := _occupancy_detector c;
         files := <[path := (existing_data ++ [telemetry_data])%list]> (files c) |}
  end.

(** One iteration of [_collection_loop], its [while] test included: the
    new collector and what the occupancy detector published. *)
Definition collection_tick (c : t) (r : draws) (rd : OccupancyDetector.draws)
    (now : Q) : t * list Py.telemetry :=
  if negb (_collecting c) then (c, [])
  else
    let telemetry_data := _generate_telemetry_data c r now in
    let c1 :=
      {| _collecting := _collecting c;
         _parameters := _parameters c;
         _collection_thread := _collection_thread c;
         _current_telemetry := Some telemetry_data;
         _file_path := _file_path c;
         _telemetry_entries := (_telemetry_entries c ++ [telemetry_data])%list;
         _start_epoch := _start_epoch c;
         _occupancy_detector := _occupancy_detector c;
         files := files c |} in
    let c2 := _save_telemetry_to_file c1 telemetry_data in
    match _occupancy_detector c2 with
    | None => (c2, [])
    | Some d =>
        let o := OccupancyDetector.process_telemetry_data d telemetry_data rd now in
        (set_occupancy_detector c2 (OccupancyDetector.detector o),
         OccupancyDetector.published o)
    end.

(** The pause that ends an iteration of [_collection_loop]:
    [1.0 / scan_rate if scan_rate > 0 else 0.1]. *)
Definition sleep_interval (c : t) : Q :=
  let scan_rate := default 10 (p_scan_rate_hz (_parameters c)) in
  if Py.ltb 0 scan_rate then 1 / scan_rate else 1 # 10.

End LidarDataCollector.

(** ** The LiDAR streaming service
       ([sensors/lidar/lidar_telemetry_streaming.py]) *)

Module LidarTelemetryStreamingService.

(** The attributes the control service acts on.  [_streaming_thread]
    counts the publish loops started. *)
Record t := Streaming {
  _streaming : bool;
  _telemetry_callback : bool;
  _streaming_thread : nat;
  _stream_count : Z;
  _start_time : option Q;
  _streaming_interval : Q
}.

Definition init (telemetry_callback : bool) : t :=
  {| _streaming := false;
     _telemetry_callback := telemetry_callback;
     _streaming_thread := 0;
     _stream_count := 0;
     _start_time := None;
     _streaming_interval := 1 |}.

(** [start_streaming]: the new service and the [success] field. *)
Definition start_streaming (s : t) (streaming_interval : Q) (now : Q) : t * bool :=
  if _streaming s then (s, false)
  else if negb (_telemetry_callback s) then (s, false)
  else
    ({| _streaming := true;
        _telemetry_callback := _telemetry_callback s;
        _streaming_thread := S (_streaming_thread s);
        _stream_count := 0;
        _start_time := Some now;
        _streaming_interval := streaming_interval |}, true).

(** [stop_streaming]: the new service and the [success] field. *)
Definition stop_streaming (s : t) : t * bool :=
  if negb (_streaming s) then (s, false)
  else
    ({| _streaming := false;
        _telemetry_callback := _telemetry_callback s;
        _streaming_thread := _streaming_thread s;
        _stream_count := _stream_count s;
        _start_time := _start_time s;
        _streaming_interval := _streaming_interval s |}, true).

(** [update_streaming_interval]: the new service and the value
    returned. *)
Definition update_streaming_interval (s : t) (interval : Q) : t * bool :=
  if (Py.leb (1 # 10) interval && Py.leb interval 60)%bool
  then
    ({| _streaming := _streaming s;
        _telemetry_callback := _telemetry_callback s;
        _streaming_thread := _streaming_thread s;
        _stream_count := _stream_count s;
        _start_time := _start_time s;
        _streaming_interval := interval |}, true)
  else (s, false).

(** One iteration of [_streaming_loop], its [while] test included: the
    new service and what was handed to the callback.  [collector] is the
    collector the service refers to, [None] when none is set.  The copy
    sent to the database is not modelled. *)
Definition streaming_loop_iteration (s : t) (collector : option LidarDataCollector.t)
  : t * list Py.telemetry :=
  if negb (_streaming s) then (s, [])
  else
    match collector with
    | Some c =>
        match LidarDataCollector.get_current_telemetry c with
        | Some telemetry_data =>
            if _telemetry_callback s
            then
              ({| _streaming := _streaming s;
                  _telemetry_callback := _telemetry_callback s;
                  _streaming_thread := _streaming_thread s;
                  _stream_count := (_stream_count s + 1)%Z;
                  _start_time := _start_time s;
                  _streaming_interval := _streaming_interval s |},
               [telemetry_data])
            else (s, [])
        | None => (s, [])
        end
    | None => (s, [])
    end.

End LidarTelemetryStreamingService.

(** ** Methods that mutate and raise

    A computation on an object of type [S] that returns an [A] or raises
    an [E]; the object it returns is the one left behind in both cases. *)

Module Exc.

Inductive res (E A : Type) :=
| Return (a : A)
| Raise (e : E).
Arguments Return {E A} a.
Arguments Raise {E A} e.

Definition M (S E A : Type) : Type := S -> S * res E A.

Definition ret {S E A} (a : A) : M S E A := fun s => (s, Return a).
Definition raise {S E A} (e : E) : M S E A := fun s => (s, Raise e).
Definition get {S E} : M S E S := fun s => (s, Return s).
Definition modify {S E} (f : S -> S) : M S E unit := fun s => (f s, Return tt).

Definition bind {S E A B} (c : M S E A) (k : A -> M S E B) : M S E B :=
  fun s =>
    match c s with
    | (s', Return a) => k a s'
    | (s', Raise e) => (s', Raise e)
    end.

Definition raised {E A} (r : res E A) : bool :=
  match r with
  | Return _ => false
  | Raise _ => true
  end.

End Exc.

Declare Scope exc_scope.
Delimit Scope exc_scope with exc.
Notation "x <- c ;; k" := (Exc.bind c (fun x => k))
  (at level 100, c at next level, right associativity) : exc_scope.
Notation "c ;; k" := (Exc.bind c (fun _ => k))
  (at level 100, right associativity) : exc_scope.

(** ** The LiDAR control service
       ([sensors/lidar/lidar_control_service.py]) *)

Module LidarControlService.

Import LidarDataCollector.

(** The [_state] dict. *)
Record state := State {
  active : bool;
  scan_rate_hz : Q;
  resolution : string;
  range_filter : range_filter_t;
  temperature : Q;
  status : string;
  last_started : option Z;
  last_stopped : option Z;
  total_scans : Z;
  error_count : Z
}.

(** The service with the two objects it refers to; the calls made on
    these objects from elsewhere act on the fields here. *)
Record t := Service {
  _state : state;
  _telemetry_streaming_service : option LidarTelemetryStreamingService.t;
  _data_collector : option LidarDataCollector.t
}.

Definition default_state : state :=
  {| active := false;
     scan_rate_hz := 10;
     resolution := "medium";
     range_filter := RangeFilter (5 # 10) 30;
     temperature := 35;
     status := "idle";
     last_started := None;
     last_stopped := None;
     total_scans := 0;
     error_count := 0 |}.

(** [__init__]. *)
Definition init : t := Service default_state None None.

Definition set_telemetry_streaming_service (svc : t)
    (s : LidarTelemetryStreamingService.t) : t :=
  Service (_state svc) (Some s) (_data_collector svc).

Definition set_data_collector (svc : t) (c : LidarDataCollector.t) : t :=
  Service (_state svc) (_telemetry_streaming_service svc) (Some c).

Definition with_state (f : state -> state) (svc : t) : t :=
  Service (f (_state svc)) (_telemetry_streaming_service svc) (_data_collector svc).

(** Assignments to one key of [_state]. *)
Definition set_active (b : bool) (s : state) : state :=
  State b (scan_rate_hz s) (resolution s) (range_filter s) (temperature s)
    (status s) (last_started s) (last_stopped s) (total_scans s) (error_count s).
Definition set_scan_rate_hz (q : Q) (s : state) : state :=
  State (active s) q (resolution s) (range_filter s) (temperature s)
    (status s) (last_started s) (last_stopped s) (total_scans s) (error_count s).
Definition set_resolution (r : string) (s : state) : state :=
  State (active s) (scan_rate_hz s) r (range_filter s) (temperature s)
    (status s) (last_started s) (last_stopped s) (total_scans s) (error_count s).
Definition set_range_filter (rf : range_filter_t) (s : state) : state :=
  State (active s) (scan_rate_hz s) (resolution s) rf (temperature s)
    (status s) (last_started s) (last_stopped s) (total_scans s) (error_count s).
Definition set_status (st : string) (s : state) : state :=
  State (active s) (scan_rate_hz s) (resolution s) (range_filter s) (temperature s)
    st (last_started s) (last_stopped s) (total_scans s) (error_count s).
Definition set_last_started (ts : option Z) (s : state) : state :=
  State (active s) (scan_rate_hz s) (resolution s) (range_filter s) (temperature s)
    (status s) ts (last_stopped s) (total_scans s) (error_count s).
Definition set_last_stopped (ts : option Z) (s : state) : state :=
  State (active s) (scan_rate_hz s) (resolution s) (range_filter s) (temperature s)
    (status s) (last_started s) ts (total_scans s) (error_count s).
Definition set_error_count (n : Z) (s : state) : state :=
  State (active s) (scan_rate_hz s) (resolution s) (range_filter s) (temperature s)
    (status s) (last_started s) (last_stopped s) (total_scans s) n.

(** The value under [range_filter] in a configuration: a dict with
    either bound present or absent, or something that is not a dict. *)
Inductive range_filter_arg :=
| RangeDict (min_range max_range : option Q)
| NotADict.

(** A configuration dict.  [c_other_keys] tells whether the dict holds
    keys the service does not read: they make the dict non-empty. *)
Record config := Config {
  c_scan_rate_hz : option Q;
  c_resolution : option string;
  c_range_filter : option range_filter_arg;
  c_other_keys : bool
}.

(** The truth value of a configuration dict: it is not empty. *)
Definition config_nonempty (cfg : config) : bool :=
  (bool_decide (is_Some (c_scan_rate_hz cfg))
   || bool_decide (is_Some (c_resolution cfg))
   || bool_decide (is_Some (c_range_filter cfg))
   || c_other_keys cfg)%bool.

(** The [ValueError]s of [_apply_configuration]. *)
Inductive ValueError :=
| Invalid_scan_rate (scan_rate : Q)
| Invalid_resolution (resolution : string)
| Invalid_range_filter (min_range max_range : Q)
| Range_filter_not_dict.

(** The [applied_config] dict. *)
Record applied_config := Applied {
  a_scan_rate_hz : option Q;
  a_resolution : option string;
  a_range_filter : option range_filter_t
}.

(** What the collector copies from the state it is handed. *)
Definition parameters_of (s : state) : parameters :=
  Parameters (Some (scan_rate_hz s)) (Some (resolution s)) (Some (range_filter s)).

Local Open Scope exc_scope.

Definition apply_scan_rate (cfg : config) : Exc.M t ValueError (option Q) :=
  match c_scan_rate_hz cfg with
  | Some scan_rate =>
      if (Py.leb 1 scan_rate && Py.leb scan_rate 50)%bool
      then Exc.modify (with_state (set_scan_rate_hz scan_rate)) ;;
           Exc.ret (Some scan_rate)
      else Exc.raise (Invalid_scan_rate scan_rate)
  | None => Exc.ret None
  end.

Definition apply_resolution (cfg : config) : Exc.M t ValueError (option string) :=
  match c_resolution cfg with
  | Some r =>
      let resolution := Py.lower r in
      if bool_decide (resolution ∈ ["high"; "medium"; "low"])
      then Exc.modify (with_state (set_resolution resolution)) ;;
           Exc.ret (Some resolution)
      else Exc.raise (Invalid_resolution resolution)
  | None => Exc.ret None
  end.

Definition apply_range_filter (cfg : config)
  : Exc.M t ValueError (option range_filter_t) :=
  match c_range_filter cfg with
  | Some (RangeDict mn mx) =>
      svc <- Exc.get ;;
      let min_range := default (min_range_m (range_filter (_state svc))) mn in
      let max_range := default (max_range_m (range_filter (_state svc))) mx in
      if (Py.leb (1 # 10) min_range && Py.leb min_range max_range
          && Py.leb max_range 100)%bool
      then Exc.modify (with_state (set_range_filter (RangeFilter min_range max_range))) ;;
           Exc.ret (Some (RangeFilter min_range max_range))
      else Exc.raise (Invalid_range_filter min_range max_range)
  | Some NotADict => Exc.raise Range_filter_not_dict
  | None => Exc.ret None
  end.

(** The last step of [_apply_configuration]: an active service hands
    its state to the collector. *)
Definition push_parameters (svc : t) : t :=
  match _data_collector svc with
  | Some c =>
      if active (_state svc)
      then set_data_collector svc (update_parameters c (parameters_of (_state svc)))
      else svc
  | None => svc
  end.

(** [_apply_configuration]. *)
Definition _apply_configuration (cfg : config) : Exc.M t ValueError applied_config :=
  a_rate <- apply_scan_rate cfg ;;
  a_res <- apply_resolution cfg ;;
  a_rf <- apply_range_filter cfg ;;
  Exc.modify push_parameters ;;
  Exc.ret (Applied a_rate a_res a_rf).

(** [apply_config]: the dict holds the arguments that are not [None]. *)
Definition apply_config (scan_rate_hz : option Q) (resolution : option string)
    (range_filter : option range_filter_arg) : Exc.M t ValueError applied_config :=
  _apply_configuration (Config scan_rate_hz resolution range_filter false).

(** [current_state]: a copy of the dict. *)
Definition current_state (svc : t) : state := _state svc.

(** What [start], [stop] and [reset] return: the copy of the state, or
    the dict built in the [except] branch. *)
Inductive reply :=
| Current (s : state)
| Failed (active : bool) (status : string) (error : ValueError).

Definition reply_active (r : reply) : bool :=
  match r with
  | Current s => active s
  | Failed a _ _ => a
  end.

(** The body of the [try] of [start]. *)
Definition start_body (cfg : option config) (now : Q) : Exc.M t ValueError state :=
  match cfg with
  | Some c => if config_nonempty c then _apply_configuration c ;; Exc.ret tt
              else Exc.ret tt
  | None => Exc.ret tt
  end ;;
  Exc.modify (with_state (fun s =>
    set_error_count 0
      (set_last_started (Some (Py.millis now))
        (set_status "operational" (set_active true s))))) ;;
  Exc.modify (fun svc =>
    match _telemetry_streaming_service svc with
    | Some s =>
        set_telemetry_streaming_service svc
          (fst (LidarTelemetryStreamingService.start_streaming s 1 now))
    | None => svc
    end) ;;
  Exc.modify (fun svc =>
    match _data_collector svc with
    | Some c =>
        set_data_collector svc (start_collection c (parameters_of (_state svc)) now)
    | None => svc
    end) ;;
  svc <- Exc.get ;;
  Exc.ret (current_state svc).

(** [start]. *)
Definition start (svc : t) (cfg : option config) (now : Q) : t * reply :=
  match start_body cfg now svc with
  | (svc', Exc.Return s) => (svc', Current s)
  | (svc', Exc.Raise e) =>
      (with_state (fun s => set_error_count (error_count s + 1)%Z
                              (set_status "error" s)) svc',
       Failed false "error" e)
  end.

(** [stop]; nothing in the [try] raises. *)
Definition stop (svc : t) (now : Q) : t * reply :=
  let svc1 :=
    match _data_collector svc with
    | Some c => set_data_collector svc (stop_collection c)
    | None => svc
    end in
  let svc2 :=
    match _telemetry_streaming_service svc1 with
    | Some s =>
        set_telemetry_streaming_service svc1
          (fst (LidarTelemetryStreamingService.stop_streaming s))
    | None => svc1
    end in
  let svc3 :=
    with_state (fun s =>
      set_last_stopped (Some (Py.millis now))
        (set_status "idle" (set_active false s))) svc2 in
  (svc3, Current (current_state svc3)).

(** [reset]: [_state.update] leaves the [temperature] key alone. *)
Definition reset (svc : t) (now : Q) : t * reply :=
  let svc1 := if active (_state svc) then fst (stop svc now) else svc in
  let svc2 :=
    with_state (fun s =>
      {| active := false;
         scan_rate_hz := 10;
         resolution := "medium";
         range_filter := RangeFilter (5 # 10) 30;
         temperature := temperature s;
         status := "idle";
         last_started := None;
         last_stopped := None;
         total_scans := 0;
         error_count := 0 |}) svc1 in
  (svc2, Current (current_state svc2)).

(** [increment_scan_count] and [update_temperature]. *)
Definition increment_scan_count (svc : t) : t :=
  with_state (fun s =>
    State (active s) (scan_rate_hz s) (resolution s) (range_filter s) (temperature s)
      (status s) (last_started s) (last_stopped s) (total_scans s + 1)%Z
      (error_count s)) svc.

Definition update_temperature (svc : t) (temperature : Q) : t :=
  with_state (fun s =>
    State (active s) (scan_rate_hz s) (resolution s) (range_filter s) temperature
      (status s) (last_started s) (last_stopped s) (total_scans s)
      (error_count s)) svc.

(** The dict [estimate_lidar_capture_session] returns. *)
Record estimate := Estimate {
  estimated_scans : Z;
  estimated_total_points : Z;
  estimated_points_per_scan : Z;
  e_scan_rate_hz : Q;
  scan_interval_seconds : Q;
  estimated_telemetry_files : Z;
  estimated_point_cloud_files : Z;
  estimated_telemetry_size_mb : Q;
  estimated_point_cloud_size_mb : Q;
  capture_efficiency : Q
}.

(** [estimate_lidar_capture_session]; [scan_rate_hz or ...] takes the
    rate of the state when the argument is [None] or zero, and the
    result is [None] when the division by the rate raises
    [ZeroDivisionError]. *)
Definition estimate_lidar_capture_session (svc : t)
    (capture_duration_seconds : Z) (scan_rate_hz : option Q) : option estimate :=
  let effective_scan_rate :=
    match scan_rate_hz with
    | Some q => if Qeq_bool q 0 then LidarControlService.scan_rate_hz (_state svc) else q
    | None => LidarControlService.scan_rate_hz (_state svc)
    end in
  let estimated_scans :=
    Py.int (inject_Z capture_duration_seconds * effective_scan_rate) in
  let estimated_points_per_scan := 275000%Z in
  let estimated_total_points := (estimated_scans * estimated_points_per_scan)%Z in
  let telemetry_size_per_file := 2048%Z in
  let pcd_size_per_file := (estimated_points_per_scan * 50)%Z in
  if Qeq_bool effective_scan_rate 0 then None
  else
    Some
      {| estimated_scans := estimated_scans;
         estimated_total_points := estimated_total_points;
         estimated_points_per_scan := estimated_points_per_scan;
         e_scan_rate_hz := effective_scan_rate;
         scan_interval_seconds := 1 / effective_scan_rate;
         estimated_telemetry_files := estimated_scans;
         estimated_point_cloud_files := estimated_scans;
         estimated_telemetry_size_mb :=
           inject_Z (estimated_scans * telemetry_size_per_file)
           / inject_Z (1024 * 1024);
         estimated_point_cloud_size_mb :=
           inject_Z (estimated_scans * pcd_size_per_file) / inject_Z (1024 * 1024);
         capture_efficiency := 100 |}.

End LidarControlService.

(** ** The ultrasonic control service
       ([sensors/ultrasonic/ultrasonic_service.py]) *)

Module UltrasonicControlService.

(** The [_config] dict. *)
Record config_t := ConfigT {
  sensors_enabled : Z;
  sample_rate_hz : Q;
  max_range_cm : Q;
  min_range_cm : Q;
  temperature_compensation : bool;
  noise_filtering : bool
}.

Record t := Service {
  _active : bool;
  _config : config_t;
  _start_time : option Q;
  _status : string
}.

Definition default_config : config_t :=
  {| sensors_enabled := 4;
     sample_rate_hz := 10;
     max_range_cm := 400;
     min_range_cm := 5;
     temperature_compensation := true;
     noise_filtering := true |}.

(** [__init__]. *)
Definition init : t := Service false default_config None "initialized".

Definition with_config (f : config_t -> config_t) (svc : t) : t :=
  Service (_active svc) (f (_config svc)) (_start_time svc) (_status svc).

Definition set_status (st : string) (svc : t) : t :=
  Service (_active svc) (_config svc) (_start_time svc) st.

(** Assignments to one key of [_config]. *)
Definition set_sensors_enabled (n : Z) (c : config_t) : config_t :=
  ConfigT n (sample_rate_hz c) (max_range_cm c) (min_range_cm c)
    (temperature_compensation c) (noise_filtering c).
Definition set_sample_rate_hz (q : Q) (c : config_t) : config_t :=
  ConfigT (sensors_enabled c) q (max_range_cm c) (min_range_cm c)
    (temperature_compensation c) (noise_filtering c).
Definition set_max_range_cm (q : Q) (c : config_t) : config_t :=
  ConfigT (sensors_enabled c) (sample_rate_hz c) q (min_range_cm c)
    (temperature_compensation c) (noise_filtering c).
Definition set_min_range_cm (q : Q) (c : config_t) : config_t :=
  ConfigT (sensors_enabled c) (sample_rate_hz c) (max_range_cm c) q
    (temperature_compensation c) (noise_filtering c).
Definition set_temperature_compensation (b : bool) (c : config_t) : config_t :=
  ConfigT (sensors_enabled c) (sample_rate_hz c) (max_range_cm c) (min_range_cm c)
    b (noise_filtering c).
Definition set_noise_filtering (b : bool) (c : config_t) : config_t :=
  ConfigT (sensors_enabled c) (sample_rate_hz c) (max_range_cm c) (min_range_cm c)
    (temperature_compensation c) b.

(** A configuration dict; [u_other_keys] as for the LiDAR service. *)
Record config := Config {
  u_sensors_enabled : option Q;
  u_sample_rate_hz : option Q;
  u_max_range_cm : option Q;
  u_min_range_cm : option Q;
  u_temperature_compensation : option bool;
  u_noise_filtering : option bool;
  u_other_keys : bool
}.

Definition config_nonempty (cfg : config) : bool :=
  (bool_decide (is_Some (u_sensors_enabled cfg))
   || bool_decide (is_Some (u_sample_rate_hz cfg))
   || bool_decide (is_Some (u_max_range_cm cfg))
   || bool_decide (is_Some (u_min_range_cm cfg))
   || bool_decide (is_Some (u_temperature_compensation cfg))
   || bool_decide (is_Some (u_noise_filtering cfg))
   || u_other_keys cfg)%bool.

(** The [ValueError]s of [_apply_config]. *)
Inductive ValueError :=
| Bad_sensors_enabled (n : Z)
| Bad_sample_rate_hz (q : Q)
| Bad_max_range_cm (q : Q)
| Bad_min_range_cm (q : Q)
| Min_not_below_max.

Local Open Scope exc_scope.

(** One [if key in config] block of [_apply_config] that validates. *)
Definition apply_checked {A} (field : option A) (valid : A -> bool)
    (assign : A -> config_t -> config_t) (error : A -> ValueError)
  : Exc.M t ValueError unit :=
  match field with
  | Some v =>
      if valid v then Exc.modify (with_config (assign v))
      else Exc.raise (error v)
  | None => Exc.ret tt
  end.

(** One [if key in config] block that does not. *)
Definition apply_flag (field : option bool)
    (assign : bool -> config_t -> config_t) : Exc.M t ValueError unit :=
  match field with
  | Some b => Exc.modify (with_config (assign b))
  | None => Exc.ret tt
  end.

(** [_apply_config]. *)
Definition _apply_config (cfg : config) : Exc.M t ValueError config_t :=
  apply_checked (Py.int <$> u_sensors_enabled cfg)
    (fun n => (Z.leb 1 n && Z.leb n 4)%bool)
    set_sensors_enabled Bad_sensors_enabled ;;
  apply_checked (u_sample_rate_hz cfg)
    (fun q => (Py.leb (1 # 10) q && Py.leb q 100)%bool)
    set_sample_rate_hz Bad_sample_rate_hz ;;
  apply_checked (u_max_range_cm cfg)
    (fun q => (Py.leb 10 q && Py.leb q 500)%bool)
    set_max_range_cm Bad_max_range_cm ;;
  apply_checked (u_min_range_cm cfg)
    (fun q => (Py.leb 1 q && Py.leb q 50)%bool)
    set_min_range_cm Bad_min_range_cm ;;
  apply_flag (u_temperature_compensation cfg) set_temperature_compensation ;;
  apply_flag (u_noise_filtering cfg) set_noise_filtering ;;
  svc <- Exc.get ;;
  if Py.leb (max_range_cm (_config svc)) (min_range_cm (_config svc))
  then Exc.raise Min_not_below_max
  else Exc.ret (_config svc).

(** [apply_config], called with keyword arguments. *)
Definition apply_config (cfg : config) : Exc.M t ValueError config_t :=
  _apply_config cfg.

(** The dicts [start], [stop] and [reset] return, one constructor per
    [return]. *)
Inductive reply :=
| Already_active (config : config_t)
| Started (config : config_t) (start_time : Q)
| Start_failed (error : ValueError)
| Not_active
| Stopped (uptime_seconds : Q)
| Reset_done (config : config_t) (was_active : bool).

(** The [success] and [active] entries of a reply. *)
Definition success (r : reply) : bool :=
  match r with
  | Already_active _ => false
  | Started _ _ => true
  | Start_failed _ => false
  | Not_active => false
  | Stopped _ => true
  | Reset_done _ _ => true
  end.

Definition reply_active (r : reply) : bool :=
  match r with
  | Already_active _ => true
  | Started _ _ => true
  | Start_failed _ => false
  | Not_active => false
  | Stopped _ => false
  | Reset_done _ _ => false
  end.

(** [start]. *)
Definition start (svc : t) (cfg : option config) (now : Q) : t * reply :=
  if _active svc then (svc, Already_active (_config svc))
  else
    let applied :=
      match cfg with
      | Some c => if config_nonempty c then (_apply_config c ;; Exc.ret tt) svc
                  else (svc, Exc.Return tt)
      | None => (svc, Exc.Return tt)
      end in
    match applied with
    | (svc', Exc.Return _) =>
        (Service true (_config svc') (Some now) "operational",
         Started (_config svc') now)
    | (svc', Exc.Raise e) => (set_status "error" svc', Start_failed e)
    end.

(** [stop]. *)
Definition stop (svc : t) (now : Q) : t * reply :=
  if negb (_active svc) then (svc, Not_active)
  else
    let uptime := match _start_time svc with
                  | Some start_time =>
                      if Qeq_bool start_time 0 then 0 else now - start_time
                  | None => 0
                  end in
    (Service false (_config svc) (_start_time svc) "stopped",
     Stopped (Py.round uptime 1)).

(** [reset]. *)
Definition reset (svc : t) (now : Q) : t * reply :=
  let was_active := _active svc in
  let svc1 := if _active svc then fst (stop svc now) else svc in
  (Service (_active svc1) default_config (_start_time svc1) "reset",
   Reset_done default_config was_active).

(** The dicts [estimate_ultrasonic_capture_session] returns: the one
    with the [error] key, and the estimate. *)
Record estimate := Estimate {
  estimated_samples : Z;
  estimated_distance_readings : Z;
  e_sensors_enabled : Z;
  e_sample_rate_hz : Q;
  sample_interval_seconds : Q;
  estimated_telemetry_files : Z;
  estimated_telemetry_size_mb : Q;
  capture_efficiency : Q
}.

Inductive estimate_reply :=
| Estimate_error (sample_rate_hz : Q)
| Estimated (e : estimate).

(** [estimate_ultrasonic_capture_session]. *)
Definition estimate_ultrasonic_capture_session (svc : t) (sample_rate_hz : Q)
    (capture_duration_seconds : Z) : estimate_reply :=
  if negb (Py.leb (1 # 10) sample_rate_hz && Py.leb sample_rate_hz 100)
  then Estimate_error sample_rate_hz
  else
    let estimated_samples :=
      Py.int (inject_Z capture_duration_seconds * sample_rate_hz) in
    let sensors_enabled := UltrasonicControlService.sensors_enabled (_config svc) in
    let estimated_distance_readings := (estimated_samples * sensors_enabled)%Z in
    let telemetry_size_per_file := 1024%Z in
    let estimated_total_size_mb :=
      inject_Z (estimated_samples * telemetry_size_per_file) / inject_Z (1024 * 1024) in
    Estimated
      {| estimated_samples := estimated_samples;
         estimated_distance_readings := estimated_distance_readings;
         e_sensors_enabled := sensors_enabled;
         e_sample_rate_hz := sample_rate_hz;
         sample_interval_seconds := 1 / sample_rate_hz;
         estimated_telemetry_files := estimated_samples;
         estimated_telemetry_size_mb := Py.round estimated_total_size_mb 3;
         capture_efficiency := 100 |}.

End UltrasonicControlService.

(** ** The proximity detector
       ([sensors/ultrasonic/proximity_detector.py]) *)

Module ProximityDetector.

(** The attributes of a [ProximityDetector]; [_telemetry_callback] and
    [_detection_thread] as for the occupancy detector. *)
Record t := Detector {
  _detecting : bool;
  _telemetry_callback : bool;
  _detection_thread : nat;
  _detection_count : Z;
  _start_time : option Q;
  _detection_interval : Q;
  _sensor_thresholds : gmap Z Q;
  _confidence_threshold : Q;
  _alert_duration_tracking : gmap string Q;
  _real_time_mode : bool
}.

(** [__init__]. *)
Definition init (telemetry_callback : bool) : t :=
  {| _detecting := false;
     _telemetry_callback := telemetry_callback;
     _detection_thread := 0;
     _detection_count := 0;
     _start_time := None;
     _detection_interval := 5 # 10;
     _sensor_thresholds := <[4%Z := 50]> (<[3%Z := 50]> (<[2%Z := 50]> (<[1%Z := 50]> ∅)));
     _confidence_threshold := 8 # 10;
     _alert_duration_tracking := ∅;
     _real_time_mode := true |}.

Definition set_sensor_thresholds (m : gmap Z Q) (d : t) : t :=
  Detector (_detecting d) (_telemetry_callback d) (_detection_thread d)
    (_detection_count d) (_start_time d) (_detection_interval d)
    m (_confidence_threshold d) (_alert_duration_tracking d) (_real_time_mode d).

Definition set_confidence_threshold (q : Q) (d : t) : t :=
  Detector (_detecting d) (_telemetry_callback d) (_detection_thread d)
    (_detection_count d) (_start_time d) (_detection_interval d)
    (_sensor_thresholds d) q (_alert_duration_tracking d) (_real_time_mode d).

Definition set_alert_duration_tracking (m : gmap string Q) (d : t) : t :=
  Detector (_detecting d) (_telemetry_callback d) (_detection_thread d)
    (_detection_count d) (_start_time d) (_detection_interval d)
    (_sensor_thresholds d) (_confidence_threshold d) m (_real_time_mode d).

Definition set_detection_count (n : Z) (d : t) : t :=
  Detector (_detecting d) (_telemetry_callback d) (_detection_thread d)
    n (_start_time d) (_detection_interval d)
    (_sensor_thresholds d) (_confidence_threshold d)
    (_alert_duration_tracking d) (_real_time_mode d).

(** [start_detection]: the new detector and the [success] field. *)
Definition start_detection (d : t) (now : Q) : t * bool :=
  if _detecting d then (d, false)
  else
    ({| _detecting := true;
        _telemetry_callback := _telemetry_callback d;
        _detection_thread := S (_detection_thread d);
        _detection_count := 0;
        _start_time := Some now;
        _detection_interval := _detection_interval d;
        _sensor_thresholds := _sensor_thresholds d;
        _confidence_threshold := _confidence_threshold d;
        _alert_duration_tracking := ∅;
        _real_time_mode := _real_time_mode d |}, true).

(** [stop_detection]: the new detector and the [success] field. *)
Definition stop_detection (d : t) : t * bool :=
  if negb (_detecting d) then (d, false)
  else
    ({| _detecting := false;
        _telemetry_callback := _telemetry_callback d;
        _detection_thread := _detection_thread d;
        _detection_count := _detection_count d;
        _start_time := _start_time d;
        _detection_interval := _detection_interval d;
        _sensor_thresholds := _sensor_thresholds d;
        _confidence_threshold := _confidence_threshold d;
        _alert_duration_tracking := _alert_duration_tracking d;
        _real_time_mode := _real_time_mode d |}, true).

(** [update_sensor_threshold], for a [sensor_id] that is an [int] as the
    signature annotates it. *)
Definition update_sensor_threshold (d : t) (sensor_id : Z) (threshold_cm : Q)
  : t * bool :=
  if (Z.leb 1 sensor_id && Z.leb sensor_id 4
      && Py.leb 5 threshold_cm && Py.leb threshold_cm 200)%bool
  then (set_sensor_thresholds (<[sensor_id := threshold_cm]> (_sensor_thresholds d)) d,
        true)
  else (d, false).

(** [update_confidence_threshold]. *)
Definition update_confidence_threshold (d : t) (confidence : Q) : t * bool :=
  if (Py.leb 0 confidence && Py.leb confidence 1)%bool
  then (set_confidence_threshold confidence d, true)
  else (d, false).

(** The alert dict of [_analyze_proximity]. *)
Record alert := Alert {
  sensor_id : Z;
  distance_cm : Q;
  threshold_cm : Q;
  duration_ms : Z;
  object_approaching : bool;
  confidence : Q
}.

(** A comparison with a value that is not a number. *)
Inductive TypeError := Not_a_number (v : Py.value).

Definition number (v : Py.value) : Exc.M t TypeError Q :=
  match Py.as_num v with
  | Some q => Exc.ret q
  | None => Exc.raise (Not_a_number v)
  end.

Definition sensor_key (sensor_id : Z) : string := "sensor_" +:+ pretty sensor_id.

Local Open Scope exc_scope.

(** [_analyze_proximity]; [k] is the draw of [random.choice]. *)
Definition _analyze_proximity (sensor_id : Z) (distance confidence : Py.value)
    (k : Z) (now : Q) : Exc.M t TypeError (option alert) :=
  conf <- number confidence ;;
  d <- Exc.get ;;
  if Py.ltb conf (_confidence_threshold d) then Exc.ret None
  else
    let threshold := default 50 (_sensor_thresholds d !! sensor_id) in
    dist <- number distance ;;
    if Py.leb dist threshold then
      let current_time := now in
      duration_ms <-
        match _alert_duration_tracking d !! sensor_key sensor_id with
        | None =>
            Exc.modify (set_alert_duration_tracking
              (<[sensor_key sensor_id := current_time]> (_alert_duration_tracking d))) ;;
            Exc.ret 0%Z
        | Some start_time =>
            Exc.ret (Py.int ((current_time - start_time) * 1000))
        end ;;
      let object_approaching := Py.choice false [true; false] k in
      Exc.ret (Some (Alert sensor_id dist threshold duration_ms object_approaching conf))
    else
      match _alert_duration_tracking d !! sensor_key sensor_id with
      | Some _ =>
          Exc.modify (set_alert_duration_tracking
            (delete (sensor_key sensor_id) (_alert_duration_tracking d))) ;;
          Exc.ret None
      | None => Exc.ret None
      end.

Definition distance_key (sensor_id : Z) : string :=
  "ultrasonic.sensor_" +:+ pretty sensor_id +:+ ".distance_cm".
Definition confidence_key (sensor_id : Z) : string :=
  "ultrasonic.sensor_" +:+ pretty sensor_id +:+ ".confidence".

(** The readings of one channel, with the defaults of [dict.get]. *)
Definition distance_of (vals : gmap string Py.value) (sensor_id : Z) : Py.value :=
  default (Py.VNum 999) (vals !! distance_key sensor_id).
Definition confidence_of (vals : gmap string Py.value) (sensor_id : Z) : Py.value :=
  default (Py.VNum 0) (vals !! confidence_key sensor_id).

(** The [for sensor_id in ...] loop of [process_telemetry_data];
    [r sensor_id] is the draw the analysis of that channel consumes. *)
Fixpoint analyze_sensors (ids : list Z) (vals : gmap string Py.value)
    (r : Z -> Z) (now : Q) (proximity_alerts : list alert)
  : Exc.M t TypeError (list alert) :=
  match ids with
  | [] => Exc.ret proximity_alerts
  | sensor_id :: ids' =>
      alert_data <-
        _analyze_proximity sensor_id (distance_of vals sensor_id)
          (confidence_of vals sensor_id) (r sensor_id) now ;;
      analyze_sensors ids' vals r now
        match alert_data with
        | Some a => (proximity_alerts ++ [a])%list
        | None => proximity_alerts
        end
  end.

(** [min(proximity_alerts, key=lambda x: x["distance_cm"])] on a list
    that is not empty: the first alert of least distance. *)
Definition closest (first : alert) (rest : list alert) : alert :=
  fold_left
    (fun best x => if Py.ltb (distance_cm x) (distance_cm best) then x else best)
    rest first.

(** The result dict built from the closest alert. *)
Definition proximity_result (ts : Z) (closest_alert : alert) : Py.telemetry :=
  Py.Telemetry (Some ts)
    (Some
      (<["ultrasonic.proximity_alert.object_approaching"
           := Py.VBool (object_approaching closest_alert)]>
        (<["ultrasonic.proximity_alert.duration_ms"
             := Py.VNum (inject_Z (duration_ms closest_alert))]>
          (<["ultrasonic.proximity_alert.threshold_cm"
               := Py.VNum (threshold_cm closest_alert)]>
            (<["ultrasonic.proximity_alert.distance_cm"
                 := Py.VNum (distance_cm closest_alert)]>
              (<["ultrasonic.proximity_alert.sensor_id"
                   := Py.VNum (inject_Z (sensor_id closest_alert))]> ∅)))))).

(** What one call of [process_telemetry_data] yields, as for the
    occupancy detector. *)
Record outcome := Outcome {
  detector : t;
  published : list Py.telemetry;
  result : option Py.telemetry
}.

Definition process_telemetry_data (d : t) (telemetry_data : Py.telemetry)
    (r : Z -> Z) (now : Q) : outcome :=
  if negb (_detecting d) then Outcome d [] None
  else
    match Py.values telemetry_data with
    | None => Outcome d [] None
    | Some vals =>
        match analyze_sensors [1; 2; 3; 4]%Z vals r now [] d with
        | (d', Exc.Raise _) => Outcome d' [] None
        | (d', Exc.Return []) => Outcome d' [] None
        | (d', Exc.Return (a :: rest)) =>
            let closest_alert := closest a rest in
            let res :=
              proximity_result (default (Py.millis now) (Py.ts telemetry_data))
                closest_alert in
            Outcome (set_detection_count (_detection_count d' + 1)%Z d')
              (if _telemetry_callback d' then [res] else [])
              (Some res)
        end
    end.

(** A result reports a detection when there is one: the method returns
    a result only for an alert. *)
Definition detected (res : option Py.telemetry) : bool :=
  bool_decide (is_Some res).

(** The hook called on the samples of a sequence, as for the occupancy
    detector. *)
Fixpoint process_all (d : t) (samples : list (Py.telemetry * (Z -> Z) * Q))
  : t * list (option Py.telemetry) * list Py.telemetry :=
  match samples with
  | [] => (d, [], [])
  | (telemetry_data, r, now) :: samples' =>
      let o := process_telemetry_data d telemetry_data r now in
      let '(d', results, pub) := process_all (detector o) samples' in
      (d', result o :: results, (published o ++ pub)%list)
  end.

End ProximityDetector.

(** ** The ultrasonic streaming service
       ([sensors/ultrasonic/ultrasonic_streaming.py]) *)

Module UltrasonicStreamingService.

(** The [_sensors_config] dict; the [noise_filtering] key is absent
    until [update_sensor_config] writes it. *)
Record sensors_config := SensorsConfig {
  sensors_enabled : Z;
  min_range_cm : Q;
  max_range_cm : Q;
  temperature_compensation : bool;
  noise_filtering : option bool
}.

(** The attributes of an [UltrasonicStreamingService]; the proximity
    detector it refers to is kept here, as the occupancy detector is in
    the LiDAR collector. *)
Record t := Service {
  _streaming : bool;
  _telemetry_callback : bool;
  _streaming_thread : nat;
  _stream_count : Z;
  _start_time : option Q;
  _proximity_detector : option ProximityDetector.t;
  _streaming_interval : Q;
  _sensors_config : sensors_config
}.

(** [__init__]. *)
Definition init (telemetry_callback : bool) : t :=
  {| _streaming := false;
     _telemetry_callback := telemetry_callback;
     _streaming_thread := 0;
     _stream_count := 0;
     _start_time := None;
     _proximity_detector := None;
     _streaming_interval := 2;
     _sensors_config := SensorsConfig 4 5 400 true None |}.

Definition set_proximity_detector (s : t) (d : ProximityDetector.t) : t :=
  Service (_streaming s) (_telemetry_callback s) (_streaming_thread s)
    (_stream_count s) (_start_time s) (Some d) (_streaming_interval s)
    (_sensors_config s).

Definition set_sensors_config (cfg : sensors_config) (s : t) : t :=
  Service (_streaming s) (_telemetry_callback s) (_streaming_thread s)
    (_stream_count s) (_start_time s) (_proximity_detector s)
    (_streaming_interval s) cfg.

(** [start_streaming]: the new service and the [success] field. *)
Definition start_streaming (s : t) (streaming_interval : Q) (now : Q) : t * bool :=
  if _streaming s then (s, false)
  else
    (Service true (_telemetry_callback s) (S (_streaming_thread s)) 0 (Some now)
       (_proximity_detector s) streaming_interval (_sensors_config s), true).

(** [stop_streaming]: the new service and the [success] field. *)
Definition stop_streaming (s : t) : t * bool :=
  if negb (_streaming s) then (s, false)
  else
    (Service false (_telemetry_callback s) (_streaming_thread s) (_stream_count s)
       (_start_time s) (_proximity_detector s) (_streaming_interval s)
       (_sensors_config s), true).

(** A configuration dict handed to [update_sensor_config]. *)
Record config := Config {
  u_sensors_enabled : option Q;
  u_max_range_cm : option Q;
  u_min_range_cm : option Q;
  u_temperature_compensation : option bool;
  u_noise_filtering : option bool
}.

(** [update_sensor_config]: a value out of its bounds is passed over. *)
Definition update_sensor_config (s : t) (cfg : config) : t :=
  let c0 := _sensors_config s in
  let c1 :=
    match u_sensors_enabled cfg with
    | Some v =>
        let sensors_enabled := Py.int v in
        if (Z.leb 1 sensors_enabled && Z.leb sensors_enabled 4)%bool
        then SensorsConfig sensors_enabled (min_range_cm c0) (max_range_cm c0)
               (temperature_compensation c0) (noise_filtering c0)
        else c0
    | None => c0
    end in
  let c2 :=
    match u_max_range_cm cfg with
    | Some max_range =>
        if (Py.leb 10 max_range && Py.leb max_range 500)%bool
        then SensorsConfig (sensors_enabled c1) (min_range_cm c1) max_range
               (temperature_compensation c1) (noise_filtering c1)
        else c1
    | None => c1
    end in
  let c3 :=
    match u_min_range_cm cfg with
    | Some min_range =>
        if (Py.leb 1 min_range && Py.leb min_range 50)%bool
        then SensorsConfig (sensors_enabled c2) min_range (max_range_cm c2)
               (temperature_compensation c2) (noise_filtering c2)
        else c2
    | None => c2
    end in
  let c4 :=
    match u_temperature_compensation cfg with
    | Some b => SensorsConfig (sensors_enabled c3) (min_range_cm c3) (max_range_cm c3)
                  b (noise_filtering c3)
    | None => c3
    end in
  let c5 :=
    match u_noise_filtering cfg with
    | Some b => SensorsConfig (sensors_enabled c4) (min_range_cm c4) (max_range_cm c4)
                  (temperature_compensation c4) (Some b)
    | None => c4
    end in
  set_sensors_config c5 s.

(** The confidence drawn for a distance: closer objects come with a
    higher confidence. *)
Definition generated_confidence (distance : Q) (k : Z) : Q :=
  if Py.ltb distance 50 then Py.round (Py.uniform (95 # 100) (99 # 100) k) 2
  else if Py.ltb distance 150 then Py.round (Py.uniform (90 # 100) (97 # 100) k) 2
  else if Py.ltb distance 300 then Py.round (Py.uniform (85 # 100) (94 # 100) k) 2
  else Py.round (Py.uniform (80 # 100) (91 # 100) k) 2.

Definition temperature_key (sensor_id : Z) : string :=
  "ultrasonic.sensor_" +:+ pretty sensor_id +:+ ".temperature_compensated".

(** The three entries a sensor adds to the values of a sample. *)
Definition sensor_entries (sensor_id : Z) (distance confidence : Q)
    (temp_compensated : bool) (vals : gmap string Py.value)
  : gmap string Py.value :=
  <[temperature_key sensor_id := Py.VBool temp_compensated]>
    (<[ProximityDetector.confidence_key sensor_id := Py.VNum confidence]>
      (<[ProximityDetector.distance_key sensor_id := Py.VNum distance]> vals)).

(** [_generate_ultrasonic_telemetry]; [kd sensor_id] and [kc sensor_id]
    are the draws for the distance and the confidence of a sensor. *)
Definition _generate_ultrasonic_telemetry (s : t) (kd kc : Z -> Z) (now : Q)
  : Py.telemetry :=
  let current_time := Py.millis now in
  let cfg := _sensors_config s in
  Py.Telemetry (Some current_time)
    (Some
      (fold_left
         (fun vals sensor_id =>
            let distance :=
              Py.round (Py.uniform (min_range_cm cfg) (max_range_cm cfg) (kd sensor_id)) 1 in
            let confidence := generated_confidence distance (kc sensor_id) in
            sensor_entries sensor_id distance confidence
              (temperature_compensation cfg) vals)
         (seqZ 1 (sensors_enabled cfg)) ∅)).

(** [get_current_telemetry]. *)
Definition get_current_telemetry (s : t) (kd kc : Z -> Z) (now : Q) : Py.telemetry :=
  _generate_ultrasonic_telemetry s kd kc now.

(** What one iteration of [_streaming_loop] yields: the service
    afterwards, the samples handed to the callback of the service, and
    the alerts handed to the callback of the proximity detector. *)
Record outcome := Outcome {
  service : t;
  streamed : list Py.telemetry;
  alerts : list Py.telemetry
}.

(** One iteration of [_streaming_loop], its [while] test included; [r]
    holds the draws of the proximity analysis, [now] is the clock when
    the sample is generated and [later] when it is analysed.  The copies
    written to the database and to the telemetry file are not modelled. *)
Definition streaming_loop_iteration (s : t) (kd kc r : Z -> Z) (now later : Q)
  : outcome :=
  if negb (_streaming s) then Outcome s [] []
  else
    let telemetry_data := _generate_ultrasonic_telemetry s kd kc now in
    if _telemetry_callback s then
      let '(detector, published) :=
        match _proximity_detector s with
        | Some d =>
            let o := ProximityDetector.process_telemetry_data d telemetry_data r later in
            (Some (ProximityDetector.detector o), ProximityDetector.published o)
        | None => (None, [])
        end in
      Outcome
        (Service (_streaming s) (_telemetry_callback s) (_streaming_thread s)
           (_stream_count s + 1)%Z (_start_time s) detector (_streaming_interval s)
           (_sensors_config s))
        [telemetry_data] published
    else Outcome s [] [].

End UltrasonicStreamingService.

(** ** The ultrasonic package ([sensors/ultrasonic/__init__.py]) *)

Module Ultrasonic.

(** [get_ultrasonic_telemetry_data]: [k_temp] is the draw of the
    temperature compensation, [kd] and [kc] those of the sensors. *)
Definition get_ultrasonic_telemetry_data (k_temp : Z) (kd kc : Z -> Z) (now : Q)
  : Py.telemetry :=
  let current_time := Py.millis now in
  let temp_compensation_enabled := Py.choice false [true; true; true; false] k_temp in
  Py.Telemetry (Some current_time)
    (Some
      (fold_left
         (fun vals sensor_id =>
            let distance := Py.round (Py.uniform 5 400 (kd sensor_id)) 1 in
            let confidence :=
              UltrasonicStreamingService.generated_confidence distance (kc sensor_id) in
            UltrasonicStreamingService.sensor_entries sensor_id distance confidence
              temp_compensation_enabled vals)
         [1; 2; 3; 4]%Z ∅)).

(** One iteration of [ProximityDetector._detection_loop], its [while]
    test included: the sample comes from [get_ultrasonic_telemetry_data]
    at [now] and is analysed at [later]. *)
Definition detection_loop_iteration (d : ProximityDetector.t)
    (k_temp : Z) (kd kc r : Z -> Z) (now later : Q) : ProximityDetector.outcome :=
  if negb (ProximityDetector._detecting d) then ProximityDetector.Outcome d [] None
  else
    ProximityDetector.process_telemetry_data d
      (get_ultrasonic_telemetry_data k_temp kd kc now) r later.

End Ultrasonic.

(** ** The LiDAR package ([sensors/lidar/__init__.py]) *)

Module Lidar.

(** [get_lidar_data_collector] and [get_lidar_control_service] on their
    first call: a new collector, and a new control service that refers
    to it. *)
Definition get_lidar_data_collector : LidarDataCollector.t := LidarDataCollector.init.

Definition get_lidar_control_service : LidarControlService.t :=
  LidarControlService.set_data_collector LidarControlService.init
    get_lidar_data_collector.

End Lidar.

(** * Vocabulary of the properties *)

(** [d'] is [d] up to the duration tracking: what the analysis of a
    channel may change. *)
Definition proximity_frame (d d' : ProximityDetector.t) : Prop :=
  d' = ProximityDetector.set_alert_duration_tracking
         (ProximityDetector._alert_duration_tracking d') d.

(** The numbers a sample gives for a channel. *)
Definition distance_number (vals : gmap string Py.value) (sensor_id : Z) : Q :=
  default 0 (Py.as_num (ProximityDetector.distance_of vals sensor_id)).
Definition confidence_number (vals : gmap string Py.value) (sensor_id : Z) : Q :=
  default 0 (Py.as_num (ProximityDetector.confidence_of vals sensor_id)).

(** The threshold configured for a channel. *)
Definition threshold_of (d : ProximityDetector.t) (sensor_id : Z) : Q :=
  default 50 (ProximityDetector._sensor_thresholds d !! sensor_id).

(** A channel alerts: its distance is at or below its threshold and its
    confidence at or above the confidence threshold. *)
Definition alerting (d : ProximityDetector.t) (vals : gmap string Py.value)
    (sensor_id : Z) : bool :=
  (Py.leb (distance_number vals sensor_id) (threshold_of d sensor_id)
   && Py.leb (ProximityDetector._confidence_threshold d)
        (confidence_number vals sensor_id))%bool.

(** The entry a result holds under a key of its values. *)
Definition result_entry (res : Py.telemetry) (key : string) : option Py.value :=
  match Py.values res with
  | Some vals => vals !! key
  | None => None
  end.

(** The keys of a proximity result. *)
Definition proximity_result_keys : list string :=
  ["ultrasonic.proximity_alert.sensor_id";
   "ultrasonic.proximity_alert.distance_cm";
   "ultrasonic.proximity_alert.threshold_cm";
   "ultrasonic.proximity_alert.duration_ms";
   "ultrasonic.proximity_alert.object_approaching"].

(** A proximity result reports one channel: it carries the timestamp, the
    channel's number, distance and threshold, a duration and an
    approaching flag, and no entry under any other key. *)
Definition reports_channel (res : Py.telemetry) (ts sensor_id : Z)
    (distance threshold : Q) : Prop :=
  Py.ts res = Some ts
  /\ result_entry res "ultrasonic.proximity_alert.sensor_id"
     = Some (Py.VNum (inject_Z sensor_id))
  /\ result_entry res "ultrasonic.proximity_alert.distance_cm"
     = Some (Py.VNum distance)
  /\ result_entry res "ultrasonic.proximity_alert.threshold_cm"
     = Some (Py.VNum threshold)
  /\ (exists ms, result_entry res "ultrasonic.proximity_alert.duration_ms"
                 = Some (Py.VNum (inject_Z ms)))
  /\ (exists approaching,
        result_entry res "ultrasonic.proximity_alert.object_approaching"
        = Some (Py.VBool approaching))
  /\ forall key, is_Some (result_entry res key) -> key ∈ proximity_result_keys.

(** Every reading of the four channels is a number. *)
Definition numeric_sample (vals : gmap string Py.value) : Prop :=
  forall sensor_id, In sensor_id [1; 2; 3; 4]%Z ->
    is_Some (Py.as_num (ProximityDetector.distance_of vals sensor_id))
    /\ is_Some (Py.as_num (ProximityDetector.confidence_of vals sensor_id)).

(** The analysis of numeric readings of a channel, and the duration an
    analysis reports ([None] when it reports no alert). *)
Definition analyze_channel (d : ProximityDetector.t) (sensor_id : Z)
    (distance confidence : Q) (k : Z) (now : Q) :=
  ProximityDetector._analyze_proximity sensor_id
    (Py.VNum distance) (Py.VNum confidence) k now d.

Definition duration_of
    (out : ProximityDetector.t
           * Exc.res ProximityDetector.TypeError (option ProximityDetector.alert))
  : option Z :=
  match snd out with
  | Exc.Return (Some a) => Some (ProximityDetector.duration_ms a)
  | _ => None
  end.

(** The tracking entry of a channel. *)
Definition tracked (d : ProximityDetector.t) (sensor_id : Z) : option Q :=
  ProximityDetector._alert_duration_tracking d
    !! ProximityDetector.sensor_key sensor_id.

(** The calls made on a collector and the iterations of its loop, and
    the collector they lead to. *)
Inductive collector_event :=
| Start_collection (params : LidarDataCollector.parameters) (now : Q)
| Stop_collection
| Update_parameters (params : LidarDataCollector.parameters)
| Set_occupancy_detector (d : OccupancyDetector.t)
| Loop_iteration (r : LidarDataCollector.draws) (rd : OccupancyDetector.draws) (now : Q).

Definition collector_step (c : LidarDataCollector.t) (ev : collector_event)
  : LidarDataCollector.t :=
  match ev with
  | Start_collection params now => LidarDataCollector.start_collection c params now
  | Stop_collection => LidarDataCollector.stop_collection c
  | Update_parameters params => LidarDataCollector.update_parameters c params
  | Set_occupancy_detector d => LidarDataCollector.set_occupancy_detector c d
  | Loop_iteration r rd now => fst (LidarDataCollector.collection_tick c r rd now)
  end.

Definition collector_run (events : list collector_event) : LidarDataCollector.t :=
  fold_left collector_step events LidarDataCollector.init.

(** The validated fields of a LiDAR configuration, in the order in which
    [_apply_configuration] reads them, and the validity of each. *)
Inductive lidar_field := Scan_rate | Resolution | Range_filter.

Definition lidar_scan_rate_valid (cfg : LidarControlService.config) : bool :=
  match LidarControlService.c_scan_rate_hz cfg with
  | Some q => (Py.leb 1 q && Py.leb q 50)%bool
  | None => true
  end.

Definition lidar_resolution_valid (cfg : LidarControlService.config) : bool :=
  match LidarControlService.c_resolution cfg with
  | Some r => bool_decide (Py.lower r ∈ ["high"; "medium"; "low"])
  | None => true
  end.

(** The bounds a range filter stands for: a bound that is absent is the
    bound of the state. *)
Definition effective_min (s : LidarControlService.state) (mn : option Q) : Q :=
  default (LidarDataCollector.min_range_m (LidarControlService.range_filter s)) mn.
Definition effective_max (s : LidarControlService.state) (mx : option Q) : Q :=
  default (LidarDataCollector.max_range_m (LidarControlService.range_filter s)) mx.

Definition lidar_range_filter_valid (s : LidarControlService.state)
    (cfg : LidarControlService.config) : bool :=
  match LidarControlService.c_range_filter cfg with
  | Some (LidarControlService.RangeDict mn mx) =>
      (Py.leb 0.1 (effective_min s mn)
       && Py.leb (effective_min s mn) (effective_max s mx)
       && Py.leb (effective_max s mx) 100)%bool
  | Some LidarControlService.NotADict => false
  | None => true
  end.

(** The first field of a configuration that is not valid. *)
Definition lidar_first_invalid (s : LidarControlService.state)
    (cfg : LidarControlService.config) : option lidar_field :=
  if negb (lidar_scan_rate_valid cfg) then Some Scan_rate
  else if negb (lidar_resolution_valid cfg) then Some Resolution
  else if negb (lidar_range_filter_valid s cfg) then Some Range_filter
  else None.

Definition lidar_merge_scan_rate (cfg : LidarControlService.config)
    (s : LidarControlService.state) : LidarControlService.state :=
  match LidarControlService.c_scan_rate_hz cfg with
  | Some q => LidarControlService.set_scan_rate_hz q s
  | None => s
  end.

Definition lidar_merge_resolution (cfg : LidarControlService.config)
    (s : LidarControlService.state) : LidarControlService.state :=
  match LidarControlService.c_resolution cfg with
  | Some r => LidarControlService.set_resolution (Py.lower r) s
  | None => s
  end.

(** The state with the fields of [cfg] that come before [f] merged. *)
Definition lidar_merged_before (f : lidar_field) (cfg : LidarControlService.config)
    (s : LidarControlService.state) : LidarControlService.state :=
  match f with
  | Scan_rate => s
  | Resolution => lidar_merge_scan_rate cfg s
  | Range_filter => lidar_merge_resolution cfg (lidar_merge_scan_rate cfg s)
  end.

(** The same for the ultrasonic service. *)
Inductive ultrasonic_field := Sensors_enabled | Sample_rate | Max_range | Min_range.

Definition ultrasonic_valid (f : ultrasonic_field)
    (cfg : UltrasonicControlService.config) : bool :=
  match f with
  | Sensors_enabled =>
      match UltrasonicControlService.u_sensors_enabled cfg with
      | Some q => (Z.leb 1 (Py.int q) && Z.leb (Py.int q) 4)%bool
      | None => true
      end
  | Sample_rate =>
      match UltrasonicControlService.u_sample_rate_hz cfg with
      | Some q => (Py.leb 0.1 q && Py.leb q 100)%bool
      | None => true
      end
  | Max_range =>
      match UltrasonicControlService.u_max_range_cm cfg with
      | Some q => (Py.leb 10 q && Py.leb q 500)%bool
      | None => true
      end
  | Min_range =>
      match UltrasonicControlService.u_min_range_cm cfg with
      | Some q => (Py.leb 1 q && Py.leb q 50)%bool
      | None => true
      end
  end.

Definition ultrasonic_first_invalid (cfg : UltrasonicControlService.config)
  : option ultrasonic_field :=
  if negb (ultrasonic_valid Sensors_enabled cfg) then Some Sensors_enabled
  else if negb (ultrasonic_valid Sample_rate cfg) then Some Sample_rate
  else if negb (ultrasonic_valid Max_range cfg) then Some Max_range
  else if negb (ultrasonic_valid Min_range cfg) then Some Min_range
  else None.

Definition ultrasonic_merge (f : ultrasonic_field)
    (cfg : UltrasonicControlService.config) (c : UltrasonicControlService.config_t)
  : UltrasonicControlService.config_t :=
  match f with
  | Sensors_enabled =>
      match UltrasonicControlService.u_sensors_enabled cfg with
      | Some q => UltrasonicControlService.set_sensors_enabled (Py.int q) c
      | None => c
      end
  | Sample_rate =>
      match UltrasonicControlService.u_sample_rate_hz cfg with
      | Some q => UltrasonicControlService.set_sample_rate_hz q c
      | None => c
      end
  | Max_range =>
      match UltrasonicControlService.u_max_range_cm cfg with
      | Some q => UltrasonicControlService.set_max_range_cm q c
      | None => c
      end
  | Min_range =>
      match UltrasonicControlService.u_min_range_cm cfg with
      | Some q => UltrasonicControlService.set_min_range_cm q c
      | None => c
      end
  end.

Definition ultrasonic_merged_before (f : ultrasonic_field)
    (cfg : UltrasonicControlService.config) (c : UltrasonicControlService.config_t)
  : UltrasonicControlService.config_t :=
  match f with
  | Sensors_enabled => c
  | Sample_rate => ultrasonic_merge Sensors_enabled cfg c
  | Max_range => ultrasonic_merge Sample_rate cfg (ultrasonic_merge Sensors_enabled cfg c)
  | Min_range =>
      ultrasonic_merge Max_range cfg
        (ultrasonic_merge Sample_rate cfg (ultrasonic_merge Sensors_enabled cfg c))
  end.

(** The generation loop of [c'] is that of [c]: no loop was started or
    stopped in between. *)
Definition same_generation_loop (c c' : LidarDataCollector.t) : Prop :=
  LidarDataCollector._collection_thread c' = LidarDataCollector._collection_thread c
  /\ LidarDataCollector._collecting c' = LidarDataCollector._collecting c.

(** The range filter of [cfg] merged into a state, the state with every
    field of [cfg] merged, and the state [start] goes on with once the
    configuration it was given is applied: an empty dict, like [None], is
    passed over. *)
Definition lidar_merge_range_filter (cfg : LidarControlService.config)
    (s : LidarControlService.state) : LidarControlService.state :=
  match LidarControlService.c_range_filter cfg with
  | Some (LidarControlService.RangeDict mn mx) =>
      LidarControlService.set_range_filter
        (LidarDataCollector.RangeFilter (effective_min s mn) (effective_max s mx)) s
  | _ => s
  end.

Definition lidar_merged (cfg : LidarControlService.config)
    (s : LidarControlService.state) : LidarControlService.state :=
  lidar_merge_range_filter cfg (lidar_merge_resolution cfg (lidar_merge_scan_rate cfg s)).

Definition lidar_start_config (cfg : option LidarControlService.config)
    (s : LidarControlService.state) : LidarControlService.state :=
  match cfg with
  | Some c => if LidarControlService.config_nonempty c then lidar_merged c s else s
  | None => s
  end.

(** A configuration handed to [start] that [_apply_configuration] turns
    down. *)
Definition lidar_start_rejects (s : LidarControlService.state)
    (cfg : option LidarControlService.config) : bool :=
  match cfg with
  | Some c =>
      (LidarControlService.config_nonempty c
       && bool_decide (is_Some (lidar_first_invalid s c)))%bool
  | None => false
  end.

(** The calls made on a proximity detector, and the detector they lead
    to from a new one. *)
Inductive proximity_event :=
| Start_detection (now : Q)
| Stop_detection
| Update_sensor_threshold (sensor_id : Z) (threshold_cm : Q)
| Update_confidence_threshold (confidence : Q)
| Process_telemetry_data (telemetry_data : Py.telemetry) (r : Z -> Z) (now : Q).

Definition proximity_step (d : ProximityDetector.t) (ev : proximity_event)
  : ProximityDetector.t :=
  match ev with
  | Start_detection now => fst (ProximityDetector.start_detection d now)
  | Stop_detection => fst (ProximityDetector.stop_detection d)
  | Update_sensor_threshold sensor_id threshold_cm =>
      fst (ProximityDetector.update_sensor_threshold d sensor_id threshold_cm)
  | Update_confidence_threshold confidence =>
      fst (ProximityDetector.update_confidence_threshold d confidence)
  | Process_telemetry_data telemetry_data r now =>
      ProximityDetector.detector
        (ProximityDetector.process_telemetry_data d telemetry_data r now)
  end.

Definition proximity_run (telemetry_callback : bool) (events : list proximity_event)
  : ProximityDetector.t :=
  fold_left proximity_step events (ProximityDetector.init telemetry_callback).

(** The number of samples for which a result was returned. *)
Definition results_returned (results : list (option Py.telemetry)) : Z :=
  Z.of_nat
    (length
       (List.filter (fun res => match res with Some _ => true | None => false end)
          results)).

(** What happens to an occupancy detector: a sample is handed to
    [process_telemetry_data], or the loop that [start_detection]
    launched makes a round. *)
Inductive occupancy_activity :=
| Occupancy_sample (telemetry_data : Py.telemetry) (r : OccupancyDetector.draws)
    (now : Q)
| Occupancy_round (collector_reading : option (option Py.telemetry))
    (r : OccupancyDetector.draws) (rf : OccupancyDetector.fallback_draws) (now : Q).

(** The activities of a sequence, one after the other: the detector at
    the end, the values [process_telemetry_data] returned, and the values
    the rounds of the loop got from [_detect_occupancy]. *)
Fixpoint occupancy_session (d : OccupancyDetector.t)
    (activities : list occupancy_activity)
  : OccupancyDetector.t * list (option Py.telemetry) * list (option Py.telemetry) :=
  match activities with
  | [] => (d, [], [])
  | Occupancy_sample telemetry_data r now :: rest =>
      let o := OccupancyDetector.process_telemetry_data d telemetry_data r now in
      let '(d', returned, polled) :=
        occupancy_session (OccupancyDetector.detector o) rest in
      (d', OccupancyDetector.result o :: returned, polled)
  | Occupancy_round collector_reading r rf now :: rest =>
      let o :=
        OccupancyDetector.detection_loop_iteration d collector_reading r rf now in
      let '(d', returned, polled) :=
        occupancy_session (OccupancyDetector.detector o) rest in
      (d', returned, OccupancyDetector.result o :: polled)
  end.

(** The same for a proximity detector, whose loop hands the sample it
    draws to [process_telemetry_data]: the values returned for the
    samples handed in, and the values returned in the rounds. *)
Inductive proximity_activity :=
| Proximity_sample (telemetry_data : Py.telemetry) (r : Z -> Z) (now : Q)
| Proximity_round (k_temp : Z) (kd kc r : Z -> Z) (now later : Q).

Fixpoint proximity_session (d : ProximityDetector.t)
    (activities : list proximity_activity)
  : ProximityDetector.t * list (option Py.telemetry) * list (option Py.telemetry) :=
  match activities with
  | [] => (d, [], [])
  | Proximity_sample telemetry_data r now :: rest =>
      let o := ProximityDetector.process_telemetry_data d telemetry_data r now in
      let '(d', returned, polled) :=
        proximity_session (ProximityDetector.detector o) rest in
      (d', ProximityDetector.result o :: returned, polled)
  | Proximity_round k_temp kd kc r now later :: rest =>
      let o := Ultrasonic.detection_loop_iteration d k_temp kd kc r now later in
      let '(d', returned, polled) :=
        proximity_session (ProximityDetector.detector o) rest in
      (d', returned, ProximityDetector.result o :: polled)
  end.

(** What the update methods of a proximity detector maintain: the four
    sensors have a threshold from 5 to 200, the confidence threshold lies
    from 0 to 1, and the duration tracking has entries for the four
    sensors only. *)
Definition proximity_configured (d : ProximityDetector.t) : Prop :=
  (forall sensor_id,
      is_Some (ProximityDetector._sensor_thresholds d !! sensor_id)
      <-> (1 <= sensor_id <= 4)%Z)
  /\ (forall sensor_id,
         5 <= threshold_of d sensor_id /\ threshold_of d sensor_id <= 200)
  /\ (0 <= ProximityDetector._confidence_threshold d
      /\ ProximityDetector._confidence_threshold d <= 1)
  /\ (forall key start,
         ProximityDetector._alert_duration_tracking d !! key = Some start ->
         exists sensor_id,
           In sensor_id [1; 2; 3; 4]%Z
           /\ key = ProximityDetector.sensor_key sensor_id).

(** The session file of a collector keeps up with its samples: a
    collector that is collecting has a session file, and the array in
    that file is the tail of [_telemetry_entries]; before the first
    session there is neither a file nor a sample. *)
Definition session_logged (c : LidarDataCollector.t) : Prop :=
  (LidarDataCollector._collecting c = true ->
   is_Some (LidarDataCollector._file_path c))
  /\ match LidarDataCollector._file_path c with
     | None => LidarDataCollector._telemetry_entries c = []
     | Some path =>
         exists earlier session,
           LidarDataCollector.files c !! path = Some session
           /\ LidarDataCollector._telemetry_entries c = (earlier ++ session)%list
     end.

(** A configuration the LiDAR service accepts field by field. *)
Definition lidar_configured (s : LidarControlService.state) : Prop :=
  (1 <= LidarControlService.scan_rate_hz s /\ LidarControlService.scan_rate_hz s <= 50)
  /\ LidarControlService.resolution s ∈ ["high"; "medium"; "low"]
  /\ 0.1 <= LidarDataCollector.min_range_m (LidarControlService.range_filter s)
  /\ LidarDataCollector.min_range_m (LidarControlService.range_filter s)
     <= LidarDataCollector.max_range_m (LidarControlService.range_filter s)
  /\ LidarDataCollector.max_range_m (LidarControlService.range_filter s) <= 100.

(** The calls made on the LiDAR control service, the rounds of the loop
    of its collector and the attachment of an occupancy detector to
    that collector; and the service they lead to from the one
    [get_lidar_control_service] builds. *)
Inductive lidar_event :=
| Lidar_start (config : option LidarControlService.config) (now : Q)
| Lidar_stop (now : Q)
| Lidar_reset (now : Q)
| Lidar_apply_config (scan_rate_hz : option Q) (resolution : option string)
    (range_filter : option LidarControlService.range_filter_arg)
| Lidar_increment_scan_count
| Lidar_update_temperature (temperature : Q)
| Lidar_collector_round (r : LidarDataCollector.draws) (rd : OccupancyDetector.draws)
    (now : Q)
| Lidar_set_occupancy_detector (d : OccupancyDetector.t).

(** A call made on the collector the service refers to. *)
Definition on_collector (f : LidarDataCollector.t -> LidarDataCollector.t)
    (svc : LidarControlService.t) : LidarControlService.t :=
  match LidarControlService._data_collector svc with
  | Some c => LidarControlService.set_data_collector svc (f c)
  | None => svc
  end.

Definition lidar_step (svc : LidarControlService.t) (ev : lidar_event)
  : LidarControlService.t :=
  match ev with
  | Lidar_start config now => fst (LidarControlService.start svc config now)
  | Lidar_stop now => fst (LidarControlService.stop svc now)
  | Lidar_reset now => fst (LidarControlService.reset svc now)
  | Lidar_apply_config scan_rate_hz resolution range_filter =>
      fst (LidarControlService.apply_config scan_rate_hz resolution range_filter svc)
  | Lidar_increment_scan_count => LidarControlService.increment_scan_count svc
  | Lidar_update_temperature temperature =>
      LidarControlService.update_temperature svc temperature
  | Lidar_collector_round r rd now =>
      on_collector (fun c => fst (LidarDataCollector.collection_tick c r rd now)) svc
  | Lidar_set_occupancy_detector d =>
      on_collector (fun c => LidarDataCollector.set_occupancy_detector c d) svc
  end.

Definition lidar_run (events : list lidar_event) : LidarControlService.t :=
  fold_left lidar_step events Lidar.get_lidar_control_service.

(** The collector follows the service: it collects exactly while the
    service is active, and while it collects its parameters are a copy
    of a configuration the service accepts. *)
Definition collector_follows (svc : LidarControlService.t) : Prop :=
  exists c,
    LidarControlService._data_collector svc = Some c
    /\ LidarDataCollector._collecting c
       = LidarControlService.active (LidarControlService._state svc)
    /\ (LidarDataCollector._collecting c = true ->
        exists s,
          lidar_configured s
          /\ LidarDataCollector._parameters c = LidarControlService.parameters_of s).

(** The bounds [_apply_config] checks field by field. *)
Definition ultrasonic_configured (c : UltrasonicControlService.config_t) : Prop :=
  (1 <= UltrasonicControlService.sensors_enabled c <= 4)%Z
  /\ (0.1 <= UltrasonicControlService.sample_rate_hz c
      /\ UltrasonicControlService.sample_rate_hz c <= 100)
  /\ (10 <= UltrasonicControlService.max_range_cm c
      /\ UltrasonicControlService.max_range_cm c <= 500)
  /\ (1 <= UltrasonicControlService.min_range_cm c
      /\ UltrasonicControlService.min_range_cm c <= 50).

(** The calls made on the ultrasonic control service, and the service
    they lead to from a new one. *)
Inductive ultrasonic_event :=
| Ultrasonic_start (config : option UltrasonicControlService.config) (now : Q)
| Ultrasonic_stop (now : Q)
| Ultrasonic_reset (now : Q)
| Ultrasonic_apply_config (config : UltrasonicControlService.config).

Definition ultrasonic_step (svc : UltrasonicControlService.t) (ev : ultrasonic_event)
  : UltrasonicControlService.t :=
  match ev with
  | Ultrasonic_start config now => fst (UltrasonicControlService.start svc config now)
  | Ultrasonic_stop now => fst (UltrasonicControlService.stop svc now)
  | Ultrasonic_reset now => fst (UltrasonicControlService.reset svc now)
  | Ultrasonic_apply_config config =>
      fst (UltrasonicControlService.apply_config config svc)
  end.

Definition ultrasonic_run (events : list ultrasonic_event) : UltrasonicControlService.t :=
  fold_left ultrasonic_step events UltrasonicControlService.init.

(** The bounds [update_sensor_config] checks field by field. *)
Definition sensors_configured (cfg : UltrasonicStreamingService.sensors_config) : Prop :=
  (1 <= UltrasonicStreamingService.sensors_enabled cfg <= 4)%Z
  /\ (10 <= UltrasonicStreamingService.max_range_cm cfg
      /\ UltrasonicStreamingService.max_range_cm cfg <= 500)
  /\ (1 <= UltrasonicStreamingService.min_range_cm cfg
      /\ UltrasonicStreamingService.min_range_cm cfg <= 50).

(** The calls made on the ultrasonic streaming service and the rounds of
    its loop, and the service they lead to from a new one. *)
Inductive streaming_event :=
| Streaming_start (streaming_interval now : Q)
| Streaming_stop
| Streaming_update_sensor_config (config : UltrasonicStreamingService.config)
| Streaming_set_proximity_detector (d : ProximityDetector.t)
| Streaming_round (kd kc r : Z -> Z) (now later : Q).

Definition streaming_step (s : UltrasonicStreamingService.t) (ev : streaming_event)
  : UltrasonicStreamingService.t :=
  match ev with
  | Streaming_start streaming_interval now =>
      fst (UltrasonicStreamingService.start_streaming s streaming_interval now)
  | Streaming_stop => fst (UltrasonicStreamingService.stop_streaming s)
  | Streaming_update_sensor_config config =>
      UltrasonicStreamingService.update_sensor_config s config
  | Streaming_set_proximity_detector d =>
      UltrasonicStreamingService.set_proximity_detector s d
  | Streaming_round kd kc r now later =>
      UltrasonicStreamingService.service
        (UltrasonicStreamingService.streaming_loop_iteration s kd kc r now later)
  end.

Definition streaming_run (telemetry_callback : bool) (events : list streaming_event)
  : UltrasonicStreamingService.t :=
  fold_left streaming_step events (UltrasonicStreamingService.init telemetry_callback).

(** The distance the streaming service draws for a sensor. *)
Definition streamed_distance (s : UltrasonicStreamingService.t) (kd : Z -> Z)
    (sensor_id : Z) : Q :=
  let cfg := UltrasonicStreamingService._sensors_config s in
  Py.round
    (Py.uniform (UltrasonicStreamingService.min_range_cm cfg)
       (UltrasonicStreamingService.max_range_cm cfg) (kd sensor_id)) 1.

(** The values of a sample with readings for the sensors of [ids]:
    the loop of the two generators of ultrasonic samples. *)
Definition sensor_values (ids : list Z) (distance : Z -> Q) (kc : Z -> Z)
    (temp_compensated : bool) : gmap string Py.value :=
  fold_left
    (fun vals sensor_id =>
       UltrasonicStreamingService.sensor_entries sensor_id (distance sensor_id)
         (UltrasonicStreamingService.generated_confidence (distance sensor_id)
            (kc sensor_id))
         temp_compensated vals)
    ids ∅.

(** The calls made on the LiDAR streaming service and the rounds of its
    loop, and the service they lead to from a new one.  A round reads
    the collector the service refers to, if any. *)
Inductive lidar_streaming_event :=
| Lidar_streaming_start (streaming_interval now : Q)
| Lidar_streaming_stop
| Lidar_streaming_update_interval (interval : Q)
| Lidar_streaming_round (collector : option LidarDataCollector.t).

Definition lidar_streaming_step (s : LidarTelemetryStreamingService.t)
    (ev : lidar_streaming_event) : LidarTelemetryStreamingService.t :=
  match ev with
  | Lidar_streaming_start streaming_interval now =>
      fst (LidarTelemetryStreamingService.start_streaming s streaming_interval now)
  | Lidar_streaming_stop => fst (LidarTelemetryStreamingService.stop_streaming s)
  | Lidar_streaming_update_interval interval =>
      fst (LidarTelemetryStreamingService.update_streaming_interval s interval)
  | Lidar_streaming_round collector =>
      fst (LidarTelemetryStreamingService.streaming_loop_iteration s collector)
  end.

Definition lidar_streaming_run (telemetry_callback : bool)
    (events : list lidar_streaming_event) : LidarTelemetryStreamingService.t :=
  fold_left lidar_streaming_step events
    (LidarTelemetryStreamingService.init telemetry_callback).

(** * Properties *)

(** ** Comparisons and rounding *)

Lemma leb_le (x y : Q) : Py.leb x y = true <-> x <= y.
Proof. apply Qle_bool_iff. Qed.

Lemma leb_gt (x y : Q) : Py.leb x y = false <-> y < x.
Proof.
  unfold Py.leb. split; intros H.
  - apply Qnot_le_lt. intros Hle. apply Qle_bool_iff in Hle. congruence.
  - destruct (Qle_bool x y) eqn:E; [|reflexivity].
    apply Qle_bool_iff in E. exfalso. exact (Qlt_not_le _ _ H E).
Qed.

Lemma ltb_lt (x y : Q) : Py.ltb x y = true <-> x < y.
Proof.
  unfold Py.ltb. rewrite negb_true_iff. apply (leb_gt y x).
Qed.

Lemma ltb_ge (x y : Q) : Py.ltb x y = false <-> y <= x.
Proof.
  unfold Py.ltb. rewrite negb_false_iff. apply (leb_le y x).
Qed.

(** ** Detection that is not active *)

(** C10. While detection is not active, [process_telemetry_data] of either
    detector returns [None] for every sample, hands nothing to the
    callback and leaves the detector as it was; detection is not active
    on a new detector and after [stop_detection]. *)
Theorem inactive_detector_ignores_samples :
  (forall (d : OccupancyDetector.t) tel r now,
      OccupancyDetector._detecting d = false ->
      OccupancyDetector.process_telemetry_data d tel r now
      = OccupancyDetector.Outcome d [] None)
  /\ (forall (d : ProximityDetector.t) tel r now,
      ProximityDetector._detecting d = false ->
      ProximityDetector.process_telemetry_data d tel r now
      = ProximityDetector.Outcome d [] None)
  /\ (forall cb, OccupancyDetector._detecting (OccupancyDetector.init cb) = false)
  /\ (forall cb, ProximityDetector._detecting (ProximityDetector.init cb) = false)
  /\ (forall d, OccupancyDetector._detecting (fst (OccupancyDetector.stop_detection d)) = false)
  /\ (forall d, ProximityDetector._detecting (fst (ProximityDetector.stop_detection d)) = false).
Proof.
  repeat split.
  - intros d tel r now H. unfold OccupancyDetector.process_telemetry_data.
    now rewrite H.
  - intros d tel r now H. unfold ProximityDetector.process_telemetry_data.
    now rewrite H.
  - intros d. unfold OccupancyDetector.stop_detection.
    destruct (OccupancyDetector._detecting d) eqn:E; simpl; auto.
  - intros d. unfold ProximityDetector.stop_detection.
    destruct (ProximityDetector._detecting d) eqn:E; simpl; auto.
Qed.

Lemma inactive_detector_ignores_samples_witness :
  OccupancyDetector.process_telemetry_data (OccupancyDetector.init true)
    (Py.Telemetry (Some 1%Z) (Some ∅)) (OccupancyDetector.Draws 2 0 0 0 0 0 0) 1
  = OccupancyDetector.Outcome (OccupancyDetector.init true) [] None
  /\ ProximityDetector.process_telemetry_data (ProximityDetector.init true)
       (Py.Telemetry (Some 1%Z) (Some ∅)) (fun _ => 0%Z) 1
     = ProximityDetector.Outcome (ProximityDetector.init true) [] None.
Proof.
  split.
  - apply (proj1 inactive_detector_ignores_samples). reflexivity.
  - apply (proj1 (proj2 inactive_detector_ignores_samples)). reflexivity.
Defined.

(** ** The callback and the detection flag *)

Lemma occupancy_analyze_detected vals ts r now b res :
  OccupancyDetector.analyze vals ts r now = Some (b, res) ->
  OccupancyDetector.detected (Some res) = b.
Proof.
  unfold OccupancyDetector.analyze.
  destruct (OccupancyDetector._analyze_point_cloud _ _) as [b'|]; [|discriminate].
  cbn [mbind option_bind].
  destruct (OccupancyDetector._calculate_confidence _ _ _) as [c|]; [|discriminate].
  cbn [mbind option_bind].
  unfold OccupancyDetector._generate_detailed_occupancy_data.
  destruct (OccupancyDetector.data_quality _ _) as [dq|]; [|discriminate].
  cbn [mbind option_bind].
  intros H. injection H as <- <-.
  unfold OccupancyDetector.detected.
  destruct b'; repeat (rewrite lookup_insert_ne by discriminate);
    rewrite lookup_insert_eq; reflexivity.
Qed.

Lemma occupancy_process_published d tel r now :
  let o := OccupancyDetector.process_telemetry_data d tel r now in
  OccupancyDetector.published o
  = (if (OccupancyDetector._telemetry_callback d
         && OccupancyDetector.detected (OccupancyDetector.result o))%bool
     then match OccupancyDetector.result o with Some res => [res] | None => [] end
     else [])
  /\ OccupancyDetector._telemetry_callback (OccupancyDetector.detector o)
     = OccupancyDetector._telemetry_callback d.
Proof.
  unfold OccupancyDetector.process_telemetry_data.
  destruct (OccupancyDetector._detecting d); cbn -[OccupancyDetector.detected];
    [|split; [now rewrite andb_false_r | reflexivity]].
  destruct (Py.values tel) as [vals|]; cbn -[OccupancyDetector.detected];
    [|split; [now rewrite andb_false_r | reflexivity]].
  destruct (OccupancyDetector.analyze vals (Py.ts tel) r now) as [[b res]|] eqn:E;
    cbn -[OccupancyDetector.detected];
    [|split; [now rewrite andb_false_r | reflexivity]].
  rewrite (occupancy_analyze_detected _ _ _ _ _ _ E).
  split; [|reflexivity].
  destruct (OccupancyDetector._telemetry_callback d), b; reflexivity.
Qed.

Lemma proximity_frame_refl d : proximity_frame d d.
Proof. destruct d; reflexivity. Qed.

Lemma proximity_frame_trans d1 d2 d3 :
  proximity_frame d1 d2 -> proximity_frame d2 d3 -> proximity_frame d1 d3.
Proof.
  unfold proximity_frame. intros H12 H23. rewrite H23 at 1. rewrite H12.
  reflexivity.
Qed.

Lemma proximity_frame_set m d :
  proximity_frame d (ProximityDetector.set_alert_duration_tracking m d).
Proof. reflexivity. Qed.

Lemma analyze_proximity_frame sensor_id distance confidence k now d :
  proximity_frame d
    (fst (ProximityDetector._analyze_proximity sensor_id distance confidence k now d)).
Proof.
  unfold ProximityDetector._analyze_proximity, ProximityDetector.number,
    Exc.bind, Exc.get, Exc.ret, Exc.raise, Exc.modify.
  destruct (Py.as_num confidence) as [conf|]; cbn; [|apply proximity_frame_refl].
  destruct (Py.ltb conf _); cbn; [apply proximity_frame_refl|].
  destruct (Py.as_num distance) as [dist|]; cbn; [|apply proximity_frame_refl].
  destruct (Py.leb dist _); cbn;
    destruct (ProximityDetector._alert_duration_tracking d !! _); cbn;
    first [apply proximity_frame_refl | apply proximity_frame_set].
Qed.

Lemma analyze_sensors_frame ids vals r now acc d :
  proximity_frame d (fst (ProximityDetector.analyze_sensors ids vals r now acc d)).
Proof.
  revert acc d. induction ids as [|i ids IH]; intros acc d; cbn.
  - apply proximity_frame_refl.
  - unfold Exc.bind.
    pose proof (analyze_proximity_frame i (ProximityDetector.distance_of vals i)
                  (ProximityDetector.confidence_of vals i) (r i) now d) as H1.
    destruct (ProximityDetector._analyze_proximity _ _ _ _ _ d) as [d1 [a|e]]; cbn in *.
    + eapply proximity_frame_trans; [exact H1 | apply IH].
    + exact H1.
Qed.

Lemma proximity_frame_callback d d' :
  proximity_frame d d' ->
  ProximityDetector._telemetry_callback d' = ProximityDetector._telemetry_callback d.
Proof. intros ->. reflexivity. Qed.

Lemma proximity_process_published d tel r now :
  let o := ProximityDetector.process_telemetry_data d tel r now in
  ProximityDetector.published o
  = (if (ProximityDetector._telemetry_callback d
         && ProximityDetector.detected (ProximityDetector.result o))%bool
     then match ProximityDetector.result o with Some res => [res] | None => [] end
     else [])
  /\ ProximityDetector._telemetry_callback (ProximityDetector.detector o)
     = ProximityDetector._telemetry_callback d.
Proof.
  unfold ProximityDetector.process_telemetry_data.
  destruct (ProximityDetector._detecting d); cbn -[ProximityDetector.analyze_sensors];
    [|split; [now rewrite andb_false_r | reflexivity]].
  destruct (Py.values tel) as [vals|]; cbn -[ProximityDetector.analyze_sensors];
    [|split; [now rewrite andb_false_r | reflexivity]].
  pose proof (analyze_sensors_frame [1; 2; 3; 4]%Z vals r now [] d) as HF.
  apply proximity_frame_callback in HF.
  destruct (ProximityDetector.analyze_sensors _ vals r now [] d) as [d' [[|a rest]|e]];
    cbn in *; rewrite ?HF;
    try (split; [now rewrite andb_false_r | reflexivity]).
  split; [|reflexivity].
  destruct (ProximityDetector._telemetry_callback d); reflexivity.
Qed.

Lemma occupancy_process_all_count d samples :
  OccupancyDetector._telemetry_callback d = true ->
  length (snd (OccupancyDetector.process_all d samples))
  = length (List.filter OccupancyDetector.detected
              (snd (fst (OccupancyDetector.process_all d samples)))).
Proof.
  revert d. induction samples as [|[[tel r] now] samples IH]; intros d Hcb.
  - reflexivity.
  - cbn [OccupancyDetector.process_all].
    destruct (occupancy_process_published d tel r now) as [Hpub Hcb'].
    cbv zeta in Hpub, Hcb'.
    specialize (IH _ (eq_trans Hcb' Hcb)).
    destruct (OccupancyDetector.process_all _ samples) as [[d' results] pub].
    cbn [fst snd] in *. rewrite length_app, Hpub, Hcb, IH. cbn [andb List.filter].
    destruct (OccupancyDetector.detected _) eqn:E; [|reflexivity].
    destruct (OccupancyDetector.result _); [reflexivity | discriminate].
Qed.

Lemma proximity_process_all_count d samples :
  ProximityDetector._telemetry_callback d = true ->
  length (snd (ProximityDetector.process_all d samples))
  = length (List.filter ProximityDetector.detected
              (snd (fst (ProximityDetector.process_all d samples)))).
Proof.
  revert d. induction samples as [|[[tel r] now] samples IH]; intros d Hcb.
  - reflexivity.
  - cbn [ProximityDetector.process_all].
    destruct (proximity_process_published d tel r now) as [Hpub Hcb'].
    cbv zeta in Hpub, Hcb'.
    specialize (IH _ (eq_trans Hcb' Hcb)).
    destruct (ProximityDetector.process_all _ samples) as [[d' results] pub].
    cbn [fst snd] in *. rewrite length_app, Hpub, Hcb, IH. cbn [andb List.filter].
    destruct (ProximityDetector.detected _) eqn:E; [|reflexivity].
    destruct (ProximityDetector.result _); [reflexivity | discriminate].
Qed.

Lemma filter_true_false_true {A} (f : A -> bool) (l : list A) :
  map f l = [true; false; true] -> length (List.filter f l) = 2%nat.
Proof.
  destruct l as [|a [|b [|c [|? ?]]]]; try discriminate.
  cbn. intros H. injection H as -> -> ->. reflexivity.
Qed.

Lemma occupancy_process_all_silent d samples :
  OccupancyDetector._telemetry_callback d = false ->
  snd (OccupancyDetector.process_all d samples) = [].
Proof.
  revert d. induction samples as [|[[tel r] now] samples IH]; intros d Hcb.
  - reflexivity.
  - cbn [OccupancyDetector.process_all].
    destruct (occupancy_process_published d tel r now) as [Hpub Hcb'].
    cbv zeta in Hpub, Hcb'.
    specialize (IH _ (eq_trans Hcb' Hcb)).
    destruct (OccupancyDetector.process_all _ samples) as [[d' results] pub].
    cbn [fst snd] in *. rewrite Hpub, Hcb, IH. reflexivity.
Qed.

Lemma proximity_process_all_silent d samples :
  ProximityDetector._telemetry_callback d = false ->
  snd (ProximityDetector.process_all d samples) = [].
Proof.
  revert d. induction samples as [|[[tel r] now] samples IH]; intros d Hcb.
  - reflexivity.
  - cbn [ProximityDetector.process_all].
    destruct (proximity_process_published d tel r now) as [Hpub Hcb'].
    cbv zeta in Hpub, Hcb'.
    specialize (IH _ (eq_trans Hcb' Hcb)).
    destruct (ProximityDetector.process_all _ samples) as [[d' results] pub].
    cbn [fst snd] in *. rewrite Hpub, Hcb, IH. reflexivity.
Qed.

(** C4, as amended. A call of [process_telemetry_data] of either
    detector hands its result to the publish callback exactly when a
    callback is installed and the result reports a detection; what it
    hands over is that result, once.  With a callback installed the
    number of callback invocations over a sequence of samples is the
    number of results that report a detection: two for the outcomes
    true, false, true.  A detector without a callback, which is what the
    constructor builds by default, invokes nothing whatever the outcomes
    are. *)
Theorem callback_exactly_on_detection :
  (forall d tel r now,
      let o := OccupancyDetector.process_telemetry_data d tel r now in
      (OccupancyDetector.published o <> []
       <-> OccupancyDetector._telemetry_callback d = true
           /\ OccupancyDetector.detected (OccupancyDetector.result o) = true)
      /\ (OccupancyDetector.published o <> [] ->
          exists res, OccupancyDetector.result o = Some res
                      /\ OccupancyDetector.published o = [res]))
  /\ (forall d tel r now,
      let o := ProximityDetector.process_telemetry_data d tel r now in
      (ProximityDetector.published o <> []
       <-> ProximityDetector._telemetry_callback d = true
           /\ ProximityDetector.detected (ProximityDetector.result o) = true)
      /\ (ProximityDetector.published o <> [] ->
          exists res, ProximityDetector.result o = Some res
                      /\ ProximityDetector.published o = [res]))
  /\ (forall d samples,
      let results := snd (fst (OccupancyDetector.process_all d samples)) in
      let invocations := snd (OccupancyDetector.process_all d samples) in
      length invocations
      = (if OccupancyDetector._telemetry_callback d
         then length (List.filter OccupancyDetector.detected results)
         else 0%nat)
      /\ (map OccupancyDetector.detected results = [true; false; true] ->
          length invocations
          = if OccupancyDetector._telemetry_callback d then 2%nat else 0%nat))
  /\ (forall d samples,
      let results := snd (fst (ProximityDetector.process_all d samples)) in
      let invocations := snd (ProximityDetector.process_all d samples) in
      length invocations
      = (if ProximityDetector._telemetry_callback d
         then length (List.filter ProximityDetector.detected results)
         else 0%nat)
      /\ (map ProximityDetector.detected results = [true; false; true] ->
          length invocations
          = if ProximityDetector._telemetry_callback d then 2%nat else 0%nat)).
Proof.
  split; [|split; [|split]].
  - intros d tel r now o.
    destruct (occupancy_process_published d tel r now) as [Hpub _].
    fold o in Hpub. rewrite Hpub.
    destruct (OccupancyDetector._telemetry_callback d); cbn [andb].
    + destruct (OccupancyDetector.detected (OccupancyDetector.result o)) eqn:Hd.
      * destruct (OccupancyDetector.result o) as [res|] eqn:E; [|discriminate Hd].
        split; [split; [auto | discriminate] | eauto].
      * split; [split; [congruence | intros [_ H]; discriminate H] | congruence].
    + split; [split; [congruence | intros [H _]; discriminate H] | congruence].
  - intros d tel r now o.
    destruct (proximity_process_published d tel r now) as [Hpub _].
    fold o in Hpub. rewrite Hpub.
    destruct (ProximityDetector._telemetry_callback d); cbn [andb].
    + destruct (ProximityDetector.detected (ProximityDetector.result o)) eqn:Hd.
      * destruct (ProximityDetector.result o) as [res|] eqn:E; [|discriminate Hd].
        split; [split; [auto | discriminate] | eauto].
      * split; [split; [congruence | intros [_ H]; discriminate H] | congruence].
    + split; [split; [congruence | intros [H _]; discriminate H] | congruence].
  - intros d samples results invocations.
    destruct (OccupancyDetector._telemetry_callback d) eqn:Hcb.
    + pose proof (occupancy_process_all_count d samples Hcb) as H.
      fold results invocations in H. split; [exact H|].
      intros Hm. rewrite H. now apply filter_true_false_true.
    + pose proof (occupancy_process_all_silent d samples Hcb) as H.
      fold invocations in H. rewrite H. split; [reflexivity | reflexivity].
  - intros d samples results invocations.
    destruct (ProximityDetector._telemetry_callback d) eqn:Hcb.
    + pose proof (proximity_process_all_count d samples Hcb) as H.
      fold results invocations in H. split; [exact H|].
      intros Hm. rewrite H. now apply filter_true_false_true.
    + pose proof (proximity_process_all_silent d samples Hcb) as H.
      fold invocations in H. rewrite H. split; [reflexivity | reflexivity].
Qed.

Lemma callback_exactly_on_detection_witness :
  let occupancy := fst (OccupancyDetector.start_detection (OccupancyDetector.init true) 0) in
  let scan :=
    Py.Telemetry (Some 1%Z)
      (Some (<["lidar.valid_points" := Py.VNum 240000]>
              (<["lidar.point_count" := Py.VNum 250000]> ∅))) in
  let occupied := OccupancyDetector.Draws 2 0 0 0 0 0 0 in
  let empty := OccupancyDetector.Draws 0 0 0 0 0 0 0 in
  let proximity := fst (ProximityDetector.start_detection (ProximityDetector.init true) 0) in
  let reading (distance : Q) :=
    Py.Telemetry (Some 1%Z)
      (Some (<[ProximityDetector.confidence_key 1 := Py.VNum 0.9]>
              (<[ProximityDetector.distance_key 1 := Py.VNum distance]> ∅))) in
  length (snd (OccupancyDetector.process_all occupancy
                 [(scan, occupied, 1); (scan, empty, 2); (scan, occupied, 3)])) = 2%nat
  /\ length (snd (ProximityDetector.process_all proximity
                 [(reading 40, fun _ => 0%Z, 1); (reading 60, fun _ => 0%Z, 2);
                  (reading 40, fun _ => 0%Z, 3)])) = 2%nat.
Proof.
  cbv zeta. split.
  - apply (proj2 (proj1 (proj2 (proj2 callback_exactly_on_detection))
                    (fst (OccupancyDetector.start_detection
                            (OccupancyDetector.init true) 0)) _)).
    vm_compute. reflexivity.
  - apply (proj2 (proj2 (proj2 (proj2 callback_exactly_on_detection))
                    (fst (ProximityDetector.start_detection
                            (ProximityDetector.init true) 0)) _)).
    vm_compute. reflexivity.
Defined.

(** C4, the claim as stated fails: a detector built without a publish
    callback, as the constructor does by default, returns results with
    the outcomes true, false, true and invokes no callback at all. *)
Lemma callback_missing_counterexample :
  let occupancy :=
    fst (OccupancyDetector.start_detection (OccupancyDetector.init false) 0) in
  let scan :=
    Py.Telemetry (Some 1%Z)
      (Some (<["lidar.valid_points" := Py.VNum 240000]>
              (<["lidar.point_count" := Py.VNum 250000]> ∅))) in
  let occupied := OccupancyDetector.Draws 2 0 0 0 0 0 0 in
  let empty := OccupancyDetector.Draws 0 0 0 0 0 0 0 in
  let proximity :=
    fst (ProximityDetector.start_detection (ProximityDetector.init false) 0) in
  let reading (distance : Q) :=
    Py.Telemetry (Some 1%Z)
      (Some (<[ProximityDetector.confidence_key 1 := Py.VNum 0.9]>
              (<[ProximityDetector.distance_key 1 := Py.VNum distance]> ∅))) in
  let lidar_session :=
    OccupancyDetector.process_all occupancy
      [(scan, occupied, 1); (scan, empty, 2); (scan, occupied, 3)] in
  let ultrasonic_session :=
    ProximityDetector.process_all proximity
      [(reading 40, fun _ => 0%Z, 1); (reading 60, fun _ => 0%Z, 2);
       (reading 40, fun _ => 0%Z, 3)] in
  map OccupancyDetector.detected (snd (fst lidar_session)) = [true; false; true]
  /\ length (snd lidar_session) = 0%nat
  /\ map ProximityDetector.detected (snd (fst ultrasonic_session)) = [true; false; true]
  /\ length (snd ultrasonic_session) = 0%nat.
Proof.
  cbv zeta. repeat split; vm_compute; reflexivity.
Qed.

(** ** The proximity analysis *)

Lemma analyze_proximity_numeric i dv cv dist conf k now d :
  Py.as_num dv = Some dist ->
  Py.as_num cv = Some conf ->
  let out := ProximityDetector._analyze_proximity i dv cv k now d in
  if (Py.leb dist (threshold_of d i)
      && Py.leb (ProximityDetector._confidence_threshold d) conf)%bool
  then exists a, snd out = Exc.Return (Some a)
                 /\ ProximityDetector.sensor_id a = i
                 /\ ProximityDetector.distance_cm a = dist
                 /\ ProximityDetector.threshold_cm a = threshold_of d i
                 /\ ProximityDetector.confidence a = conf
  else snd out = Exc.Return None.
Proof.
  intros Hd Hc.
  unfold ProximityDetector._analyze_proximity, ProximityDetector.number,
    Exc.bind, Exc.get, Exc.ret, Exc.raise, Exc.modify, threshold_of, Py.ltb, Py.leb.
  rewrite Hc. cbn.
  destruct (Qle_bool (ProximityDetector._confidence_threshold d) conf); cbn;
    [|now rewrite andb_false_r].
  rewrite Hd, andb_true_r. cbn.
  destruct (Qle_bool dist _); cbn.
  - destruct (ProximityDetector._alert_duration_tracking d !! _); cbn;
      eexists; repeat split; reflexivity.
  - destruct (ProximityDetector._alert_duration_tracking d !! _); reflexivity.
Qed.

Lemma proximity_frame_threshold d d' i :
  proximity_frame d d' -> threshold_of d' i = threshold_of d i.
Proof. intros ->. reflexivity. Qed.

Lemma proximity_frame_alerting d d' vals i :
  proximity_frame d d' -> alerting d' vals i = alerting d vals i.
Proof. intros ->. reflexivity. Qed.

Lemma analyze_sensors_numeric ids vals r now acc d :
  (forall i, In i ids ->
     is_Some (Py.as_num (ProximityDetector.distance_of vals i))
     /\ is_Some (Py.as_num (ProximityDetector.confidence_of vals i))) ->
  exists new,
    snd (ProximityDetector.analyze_sensors ids vals r now acc d)
    = Exc.Return (acc ++ new)%list
    /\ map ProximityDetector.sensor_id new = List.filter (alerting d vals) ids
    /\ Forall (fun a => ProximityDetector.distance_cm a
                        = distance_number vals (ProximityDetector.sensor_id a)) new.
Proof.
  revert acc d. induction ids as [|i ids IH]; intros acc d Hnum.
  - exists []. cbn. rewrite app_nil_r. auto.
  - destruct (Hnum i (or_introl eq_refl)) as [[dist Hd] [conf Hc]].
    pose proof (analyze_proximity_numeric i _ _ dist conf (r i) now d Hd Hc) as H1.
    pose proof (analyze_proximity_frame i (ProximityDetector.distance_of vals i)
                  (ProximityDetector.confidence_of vals i) (r i) now d) as HF.
    cbv zeta in H1.
    cbn [ProximityDetector.analyze_sensors]. unfold Exc.bind at 1.
    destruct (ProximityDetector._analyze_proximity _ _ _ _ _ d) as [d1 res1].
    cbn [fst snd] in *.
    assert (Ha : alerting d vals i
                 = (Py.leb dist (threshold_of d i)
                    && Py.leb (ProximityDetector._confidence_threshold d) conf)%bool).
    { unfold alerting, distance_number, confidence_number. now rewrite Hd, Hc. }
    rewrite <- Ha in H1.
    assert (Hfilter : forall j, alerting d1 vals j = alerting d vals j)
      by (intros j; now apply proximity_frame_alerting).
    cbn [List.filter].
    destruct (alerting d vals i).
    + destruct H1 as (a & -> & Hid & Hdist & _ & _).
      destruct (IH (acc ++ [a])%list d1 (fun j Hj => Hnum j (or_intror Hj)))
        as (new & Hres & Hids & Hall).
      exists (a :: new). rewrite Hres, <- app_assoc. cbn. split; [reflexivity|].
      split.
      * rewrite Hid, Hids. f_equal. apply filter_ext. intros j. apply Hfilter.
      * constructor; [|exact Hall].
        rewrite Hdist, Hid. unfold distance_number. now rewrite Hd.
    + rewrite H1.
      destruct (IH acc d1 (fun j Hj => Hnum j (or_intror Hj)))
        as (new & Hres & Hids & Hall).
      exists new. rewrite Hres. split; [reflexivity|]. split; [|exact Hall].
      rewrite Hids. apply filter_ext. intros j. apply Hfilter.
Qed.

Lemma closest_least first rest :
  In (ProximityDetector.closest first rest) (first :: rest)
  /\ forall x, In x (first :: rest) ->
       ProximityDetector.distance_cm (ProximityDetector.closest first rest)
       <= ProximityDetector.distance_cm x.
Proof.
  unfold ProximityDetector.closest.
  revert first. induction rest as [|y rest IH]; intros first.
  - cbn. split; [auto|]. intros x [<-|[]]. apply Qle_refl.
  - cbn [fold_left].
    destruct (Py.ltb (ProximityDetector.distance_cm y)
                (ProximityDetector.distance_cm first)) eqn:E.
    + destruct (IH y) as [Hin Hle]. split.
      * destruct Hin as [<-|Hin]; [right; left; reflexivity | right; right; exact Hin].
      * intros x [<-|[<-|Hx]].
        -- apply ltb_lt in E. eapply Qle_trans; [apply (Hle y); now left|].
           now apply Qlt_le_weak.
        -- apply Hle. now left.
        -- apply Hle. now right.
    + destruct (IH first) as [Hin Hle]. split.
      * destruct Hin as [<-|Hin]; [left; reflexivity | right; right; exact Hin].
      * intros x [<-|[<-|Hx]].
        -- apply Hle. now left.
        -- apply ltb_ge in E. eapply Qle_trans; [apply (Hle first); now left|].
           exact E.
        -- apply Hle. now right.
Qed.

Lemma analyze_sensors_thresholds ids vals r now acc d :
  (forall i, In i ids ->
     is_Some (Py.as_num (ProximityDetector.distance_of vals i))
     /\ is_Some (Py.as_num (ProximityDetector.confidence_of vals i))) ->
  exists new,
    snd (ProximityDetector.analyze_sensors ids vals r now acc d)
    = Exc.Return (acc ++ new)%list
    /\ Forall (fun a => ProximityDetector.threshold_cm a
                        = threshold_of d (ProximityDetector.sensor_id a)) new.
Proof.
  revert acc d. induction ids as [|i ids IH]; intros acc d Hnum.
  - exists []. cbn. rewrite app_nil_r. auto.
  - destruct (Hnum i (or_introl eq_refl)) as [[dist Hd] [conf Hc]].
    pose proof (analyze_proximity_numeric i _ _ dist conf (r i) now d Hd Hc) as H1.
    pose proof (analyze_proximity_frame i (ProximityDetector.distance_of vals i)
                  (ProximityDetector.confidence_of vals i) (r i) now d) as HF.
    cbv zeta in H1.
    cbn [ProximityDetector.analyze_sensors]. unfold Exc.bind at 1.
    destruct (ProximityDetector._analyze_proximity _ _ _ _ _ d) as [d1 res1].
    cbn [fst snd] in *.
    assert (Hthr : forall a : ProximityDetector.alert,
               ProximityDetector.threshold_cm a
               = threshold_of d1 (ProximityDetector.sensor_id a) ->
               ProximityDetector.threshold_cm a
               = threshold_of d (ProximityDetector.sensor_id a)).
    { intros a Ha. rewrite Ha. now apply proximity_frame_threshold. }
    destruct (Py.leb dist (threshold_of d i)
              && Py.leb (ProximityDetector._confidence_threshold d) conf)%bool.
    + destruct H1 as (a & -> & Hid & _ & Ht & _).
      destruct (IH (acc ++ [a])%list d1 (fun j Hj => Hnum j (or_intror Hj)))
        as (new & Hres & Hall).
      exists (a :: new). rewrite Hres, <- app_assoc. cbn. split; [reflexivity|].
      constructor; [now rewrite Ht, Hid|].
      eapply List.Forall_impl; [|exact Hall]. exact Hthr.
    + rewrite H1.
      destruct (IH acc d1 (fun j Hj => Hnum j (or_intror Hj)))
        as (new & Hres & Hall).
      exists new. rewrite Hres. split; [reflexivity|].
      eapply List.Forall_impl; [|exact Hall]. exact Hthr.
Qed.

Lemma proximity_result_entries ts a :
  reports_channel (ProximityDetector.proximity_result ts a) ts
    (ProximityDetector.sensor_id a) (ProximityDetector.distance_cm a)
    (ProximityDetector.threshold_cm a).
Proof.
  unfold reports_channel, result_entry, ProximityDetector.proximity_result.
  cbn [Py.ts Py.values].
  split; [reflexivity|].
  split; [repeat (rewrite lookup_insert_ne by discriminate); apply lookup_insert_eq|].
  split; [repeat (rewrite lookup_insert_ne by discriminate); apply lookup_insert_eq|].
  split; [repeat (rewrite lookup_insert_ne by discriminate); apply lookup_insert_eq|].
  split; [eexists; repeat (rewrite lookup_insert_ne by discriminate);
          apply lookup_insert_eq|].
  split; [eexists; apply lookup_insert_eq|].
  intros key. unfold proximity_result_keys.
  rewrite !lookup_insert_is_Some, lookup_empty, !elem_of_cons.
  intros H.
  repeat (destruct H as [<-|[_ H]]; [auto 10|]).
  destruct H; discriminate.
Qed.

(** C5. A channel of the proximity detector is classified as alerting
    exactly when its distance is at or below the threshold configured for
    it and its confidence is at or above the confidence threshold; and
    the result for a sample on which channels alert reports one of them,
    of least distance among the alerting channels (no result when none
    alerts): the result carries the sample's timestamp (the current time
    in milliseconds when the sample has none), that channel's number, its
    distance as the sample gives it, the threshold configured for it, a
    duration and an approaching flag, and nothing about any other
    channel. *)
Theorem proximity_alert_classification :
  (forall d sensor_id (distance confidence : Q) k now,
      (exists a,
          snd (ProximityDetector._analyze_proximity sensor_id
                 (Py.VNum distance) (Py.VNum confidence) k now d)
          = Exc.Return (Some a))
      <-> (distance <= threshold_of d sensor_id
           /\ ProximityDetector._confidence_threshold d <= confidence))
  /\ (forall d tel vals r now,
      ProximityDetector._detecting d = true ->
      Py.values tel = Some vals ->
      numeric_sample vals ->
      match ProximityDetector.result
              (ProximityDetector.process_telemetry_data d tel r now) with
      | None => forall i, In i [1; 2; 3; 4]%Z -> alerting d vals i = false
      | Some res =>
          exists a,
            res = ProximityDetector.proximity_result
                    (default (Py.millis now) (Py.ts tel)) a
            /\ In (ProximityDetector.sensor_id a) [1; 2; 3; 4]%Z
            /\ alerting d vals (ProximityDetector.sensor_id a) = true
            /\ ProximityDetector.distance_cm a
               = distance_number vals (ProximityDetector.sensor_id a)
            /\ (forall i, In i [1; 2; 3; 4]%Z -> alerting d vals i = true ->
                  ProximityDetector.distance_cm a <= distance_number vals i)
            /\ reports_channel res (default (Py.millis now) (Py.ts tel))
                 (ProximityDetector.sensor_id a)
                 (distance_number vals (ProximityDetector.sensor_id a))
                 (threshold_of d (ProximityDetector.sensor_id a))
      end).
Proof.
  split.
  - intros d i dist conf k now.
    pose proof (analyze_proximity_numeric i (Py.VNum dist) (Py.VNum conf) dist conf
                  k now d eq_refl eq_refl) as H.
    cbv zeta in H.
    destruct (Py.leb dist (threshold_of d i)) eqn:E1;
      destruct (Py.leb (ProximityDetector._confidence_threshold d) conf) eqn:E2;
      cbn [andb] in H.
    + apply leb_le in E1, E2. split; [auto|]. intros _.
      destruct H as (a & Ha & _). eauto.
    + apply leb_gt in E2. split.
      * intros [a Ha]. rewrite H in Ha. discriminate.
      * intros [_ Hle]. exfalso. exact (Qlt_not_le _ _ E2 Hle).
    + apply leb_gt in E1. split.
      * intros [a Ha]. rewrite H in Ha. discriminate.
      * intros [Hle _]. exfalso. exact (Qlt_not_le _ _ E1 Hle).
    + apply leb_gt in E1. split.
      * intros [a Ha]. rewrite H in Ha. discriminate.
      * intros [Hle _]. exfalso. exact (Qlt_not_le _ _ E1 Hle).
  - intros d tel vals r now Hdet Hvals Hnum.
    unfold ProximityDetector.process_telemetry_data. rewrite Hdet, Hvals.
    cbn [negb].
    destruct (analyze_sensors_numeric [1; 2; 3; 4]%Z vals r now [] d Hnum)
      as (new & Hres & Hids & Hall).
    destruct (analyze_sensors_thresholds [1; 2; 3; 4]%Z vals r now [] d Hnum)
      as (new' & Hres' & Hthr).
    destruct (ProximityDetector.analyze_sensors _ vals r now [] d) as [d' res].
    cbn [snd app] in Hres, Hres'. subst res.
    injection Hres' as <-.
    destruct new as [|a rest]; cbn [ProximityDetector.result].
    + intros i Hi. cbn [map] in Hids.
      destruct (alerting d vals i) eqn:E; [|reflexivity].
      assert (Hin : In i (List.filter (alerting d vals) [1; 2; 3; 4]%Z))
        by (apply filter_In; auto).
      rewrite <- Hids in Hin. destruct Hin.
    + destruct (closest_least a rest) as [Hin Hle].
      set (c := ProximityDetector.closest a rest) in *.
      exists c. split; [reflexivity|].
      assert (Hc : In (ProximityDetector.sensor_id c)
                     (List.filter (alerting d vals) [1; 2; 3; 4]%Z)).
      { rewrite <- Hids. now apply in_map. }
      apply filter_In in Hc. destruct Hc as [Hc1 Hc2].
      rewrite List.Forall_forall in Hall, Hthr.
      split; [exact Hc1|]. split; [exact Hc2|].
      split; [now apply Hall|]. split.
      * intros i Hi Ha.
        assert (Hi' : In i (map ProximityDetector.sensor_id (a :: rest))).
        { rewrite Hids. apply filter_In. auto. }
        apply in_map_iff in Hi'. destruct Hi' as (x & <- & Hx).
        rewrite <- (Hall x Hx). now apply Hle.
      * rewrite <- (Hall c Hin), <- (Hthr c Hin).
        apply proximity_result_entries.
Qed.

Lemma proximity_alert_classification_witness :
  let d := fst (ProximityDetector.start_detection (ProximityDetector.init true) 0) in
  let vals : gmap string Py.value :=
    <[ProximityDetector.confidence_key 3 := Py.VNum 0.95]>
      (<[ProximityDetector.distance_key 3 := Py.VNum 20]>
        (<[ProximityDetector.confidence_key 1 := Py.VNum 0.9]>
          (<[ProximityDetector.distance_key 1 := Py.VNum 40]> ∅))) in
  match ProximityDetector.result
          (ProximityDetector.process_telemetry_data d
             (Py.Telemetry (Some 7%Z) (Some vals)) (fun _ => 0%Z) 1) with
  | None => forall i, In i [1; 2; 3; 4]%Z -> alerting d vals i = false
  | Some res =>
      exists a,
        res = ProximityDetector.proximity_result 7 a
        /\ In (ProximityDetector.sensor_id a) [1; 2; 3; 4]%Z
        /\ alerting d vals (ProximityDetector.sensor_id a) = true
        /\ ProximityDetector.distance_cm a
           = distance_number vals (ProximityDetector.sensor_id a)
        /\ (forall i, In i [1; 2; 3; 4]%Z -> alerting d vals i = true ->
              ProximityDetector.distance_cm a <= distance_number vals i)
        /\ reports_channel res 7 (ProximityDetector.sensor_id a)
             (distance_number vals (ProximityDetector.sensor_id a))
             (threshold_of d (ProximityDetector.sensor_id a))
  end.
Proof.
  cbv zeta.
  apply (proj2 proximity_alert_classification
           (fst (ProximityDetector.start_detection (ProximityDetector.init true) 0))
           (Py.Telemetry (Some 7%Z) _) _ (fun _ => 0%Z) 1).
  - reflexivity.
  - reflexivity.
  - intros i Hi. cbn in Hi.
    destruct Hi as [<-|[<-|[<-|[<-|[]]]]]; split; vm_compute; eauto.
Defined.

(** ** Alert durations *)

Lemma int_nonneg (x : Q) : 0 <= x -> Py.int x = Qfloor x.
Proof.
  intros H. unfold Py.int, Qfloor. destruct x as [n p]. cbn.
  apply Z.quot_div_nonneg; [|lia].
  unfold Qle in H. cbn in H. lia.
Qed.

Lemma int_mono (x y : Q) : 0 <= x -> x <= y -> (Py.int x <= Py.int y)%Z.
Proof.
  intros Hx Hxy. rewrite !int_nonneg by (try assumption; eapply Qle_trans; eassumption).
  now apply Qfloor_resp_le.
Qed.

Lemma int_strict (x y : Q) : 0 <= x -> x + 1 <= y -> (Py.int x < Py.int y)%Z.
Proof.
  intros Hx Hxy.
  assert (Hy : 0 <= y) by lra.
  rewrite !int_nonneg by assumption.
  pose proof (Qfloor_le x) as H1. pose proof (Qlt_floor y) as H2.
  rewrite Zlt_Qlt. rewrite inject_Z_plus in H2.
  change (inject_Z 1) with 1 in H2. lra.
Qed.

Lemma elapsed_mono (s t1 t2 : Q) :
  s <= t1 -> t1 <= t2 ->
  (Py.int ((t1 - s) * 1000) <= Py.int ((t2 - s) * 1000))%Z.
Proof. intros H1 H2. apply int_mono; lra. Qed.

Lemma elapsed_strict (s t1 t2 : Q) :
  s <= t1 -> t1 + (1 # 1000) <= t2 ->
  (Py.int ((t1 - s) * 1000) < Py.int ((t2 - s) * 1000))%Z.
Proof. intros H1 H2. apply int_strict; lra. Qed.

Lemma analyze_channel_alert d i dist conf k now :
  dist <= threshold_of d i ->
  ProximityDetector._confidence_threshold d <= conf ->
  analyze_channel d i dist conf k now
  = match tracked d i with
    | None =>
        (ProximityDetector.set_alert_duration_tracking
           (<[ProximityDetector.sensor_key i := now]>
              (ProximityDetector._alert_duration_tracking d)) d,
         Exc.Return (Some (ProximityDetector.Alert i dist (threshold_of d i) 0
                             (Py.choice false [true; false] k) conf)))
    | Some s =>
        (d, Exc.Return (Some (ProximityDetector.Alert i dist (threshold_of d i)
                                (Py.int ((now - s) * 1000))
                                (Py.choice false [true; false] k) conf)))
    end.
Proof.
  intros Hd Hc. apply leb_le in Hd, Hc.
  unfold analyze_channel, ProximityDetector._analyze_proximity, ProximityDetector.number,
    Exc.bind, Exc.get, Exc.ret, Exc.raise, Exc.modify, tracked, Py.ltb.
  cbn [Py.as_num]. unfold threshold_of, Py.leb in *. rewrite Hc, Hd. cbn [negb].
  destruct (ProximityDetector._alert_duration_tracking d !! _); reflexivity.
Qed.

Lemma analyze_channel_clear d i dist conf k now :
  threshold_of d i < dist ->
  ProximityDetector._confidence_threshold d <= conf ->
  analyze_channel d i dist conf k now
  = (ProximityDetector.set_alert_duration_tracking
       (delete (ProximityDetector.sensor_key i)
          (ProximityDetector._alert_duration_tracking d)) d,
     Exc.Return None).
Proof.
  intros Hd Hc. apply leb_gt in Hd. apply leb_le in Hc.
  unfold analyze_channel, ProximityDetector._analyze_proximity, ProximityDetector.number,
    Exc.bind, Exc.get, Exc.ret, Exc.raise, Exc.modify, Py.ltb.
  cbn [Py.as_num]. unfold threshold_of, Py.leb in *. rewrite Hc, Hd. cbn [negb].
  destruct (ProximityDetector._alert_duration_tracking d !! _) eqn:E; cbn.
  - reflexivity.
  - rewrite delete_id by exact E. destruct d; reflexivity.
Qed.

Lemma analyze_channel_low_confidence d i dist conf k now :
  conf < ProximityDetector._confidence_threshold d ->
  analyze_channel d i dist conf k now = (d, Exc.Return None).
Proof.
  intros Hc. apply ltb_lt in Hc.
  unfold analyze_channel, ProximityDetector._analyze_proximity, ProximityDetector.number,
    Exc.bind, Exc.get, Exc.ret, Exc.raise, Exc.modify.
  cbn [Py.as_num]. now rewrite Hc.
Qed.

Lemma proximity_frame_confidence d d' :
  proximity_frame d d' ->
  ProximityDetector._confidence_threshold d' = ProximityDetector._confidence_threshold d.
Proof. intros ->. reflexivity. Qed.

Lemma analyze_channel_frame d i dist conf k now :
  proximity_frame d (fst (analyze_channel d i dist conf k now)).
Proof. apply analyze_proximity_frame. Qed.

Lemma first_crossing d i dist conf k now :
  dist <= threshold_of d i ->
  ProximityDetector._confidence_threshold d <= conf ->
  tracked d i = None ->
  let out := analyze_channel d i dist conf k now in
  duration_of out = Some 0%Z /\ tracked (fst out) i = Some now.
Proof.
  intros Hd Hc Ht out. subst out.
  rewrite (analyze_channel_alert d i dist conf k now Hd Hc), Ht.
  split; [reflexivity|]. unfold tracked. cbn. apply lookup_insert_eq.
Qed.

Lemma later_crossing d i dist conf k now s :
  dist <= threshold_of d i ->
  ProximityDetector._confidence_threshold d <= conf ->
  tracked d i = Some s ->
  let out := analyze_channel d i dist conf k now in
  duration_of out = Some (Py.int ((now - s) * 1000)) /\ fst out = d.
Proof.
  intros Hd Hc Ht out. subst out.
  rewrite (analyze_channel_alert d i dist conf k now Hd Hc), Ht.
  split; reflexivity.
Qed.

Lemma clearing d i dist conf k now :
  threshold_of d i < dist ->
  ProximityDetector._confidence_threshold d <= conf ->
  let out := analyze_channel d i dist conf k now in
  duration_of out = None /\ tracked (fst out) i = None.
Proof.
  intros Hd Hc out. subst out.
  rewrite (analyze_channel_clear d i dist conf k now Hd Hc).
  split; [reflexivity|]. unfold tracked. cbn. apply lookup_delete_eq.
Qed.

(** C6, as amended. The tracking entry of a channel is created by the
    first analysis on which the channel alerts, which reports a duration
    of 0; a later alerting analysis leaves the entry alone and reports the
    whole milliseconds elapsed since it was created, which do not decrease
    while the clock does not go back and which grow between two analyses
    at least one millisecond apart; the entry is deleted by an analysis
    whose distance is above the threshold and whose confidence is at or
    above the confidence threshold, while a reading below the confidence
    threshold changes nothing; after a deletion the next crossing reports
    0 again. *)
Theorem alert_duration_lifecycle :
  (forall d i dist conf k now,
      dist <= threshold_of d i ->
      ProximityDetector._confidence_threshold d <= conf ->
      tracked d i = None ->
      let out := analyze_channel d i dist conf k now in
      duration_of out = Some 0%Z /\ tracked (fst out) i = Some now)
  /\ (forall d i dist conf k now s,
      dist <= threshold_of d i ->
      ProximityDetector._confidence_threshold d <= conf ->
      tracked d i = Some s ->
      let out := analyze_channel d i dist conf k now in
      duration_of out = Some (Py.int ((now - s) * 1000)) /\ fst out = d)
  /\ (forall s t1 t2,
      s <= t1 -> t1 <= t2 ->
      (Py.int ((t1 - s) * 1000) <= Py.int ((t2 - s) * 1000))%Z)
  /\ (forall s t1 t2,
      s <= t1 -> t1 + (1 # 1000) <= t2 ->
      (Py.int ((t1 - s) * 1000) < Py.int ((t2 - s) * 1000))%Z)
  /\ (forall d i dist conf k now,
      threshold_of d i < dist ->
      ProximityDetector._confidence_threshold d <= conf ->
      let out := analyze_channel d i dist conf k now in
      duration_of out = None /\ tracked (fst out) i = None)
  /\ (forall d i dist conf k now,
      conf < ProximityDetector._confidence_threshold d ->
      analyze_channel d i dist conf k now = (d, Exc.Return None))
  /\ (forall d i dist conf far k0 k1 k2 k3 k4 t0 t1 t2 t3 t4,
      dist <= threshold_of d i ->
      threshold_of d i < far ->
      ProximityDetector._confidence_threshold d <= conf ->
      tracked d i = None ->
      t0 + (1 # 1000) <= t1 ->
      t1 + (1 # 1000) <= t2 ->
      let o0 := analyze_channel d i dist conf k0 t0 in
      let o1 := analyze_channel (fst o0) i dist conf k1 t1 in
      let o2 := analyze_channel (fst o1) i dist conf k2 t2 in
      let o3 := analyze_channel (fst o2) i far conf k3 t3 in
      let o4 := analyze_channel (fst o3) i dist conf k4 t4 in
      exists n1 n2,
        duration_of o0 = Some 0%Z
        /\ duration_of o1 = Some n1
        /\ duration_of o2 = Some n2
        /\ (0 < n1 < n2)%Z
        /\ tracked (fst o3) i = None
        /\ duration_of o4 = Some 0%Z).
Proof.
  split; [exact first_crossing|].
  split; [exact later_crossing|].
  split; [exact elapsed_mono|].
  split; [exact elapsed_strict|].
  split; [exact clearing|].
  split; [exact analyze_channel_low_confidence|].
  intros d i dist conf far k0 k1 k2 k3 k4 t0 t1 t2 t3 t4 Hd Hfar Hc Ht H01 H12
    o0 o1 o2 o3 o4.
  destruct (first_crossing d i dist conf k0 t0 Hd Hc Ht) as [D0 T0]. fold o0 in D0, T0.
  pose proof (analyze_channel_frame d i dist conf k0 t0) as F0. fold o0 in F0.
  assert (Hd0 : dist <= threshold_of (fst o0) i)
    by now rewrite (proximity_frame_threshold _ _ i F0).
  assert (Hc0 : ProximityDetector._confidence_threshold (fst o0) <= conf)
    by now rewrite (proximity_frame_confidence _ _ F0).
  destruct (later_crossing (fst o0) i dist conf k1 t1 t0 Hd0 Hc0 T0) as [D1 E1].
  fold o1 in D1, E1.
  assert (T1 : tracked (fst o1) i = Some t0) by now rewrite E1.
  assert (Hd1 : dist <= threshold_of (fst o1) i) by now rewrite E1.
  assert (Hc1 : ProximityDetector._confidence_threshold (fst o1) <= conf) by now rewrite E1.
  destruct (later_crossing (fst o1) i dist conf k2 t2 t0 Hd1 Hc1 T1) as [D2 E2].
  fold o2 in D2, E2.
  assert (Hf2 : threshold_of (fst o2) i < far)
    by now rewrite E2, E1, (proximity_frame_threshold _ _ i F0).
  assert (Hc2 : ProximityDetector._confidence_threshold (fst o2) <= conf) by now rewrite E2.
  destruct (clearing (fst o2) i far conf k3 t3 Hf2 Hc2) as [_ T3]. fold o3 in T3.
  pose proof (analyze_channel_frame (fst o2) i far conf k3 t3) as F3. fold o3 in F3.
  assert (Hd3 : dist <= threshold_of (fst o3) i)
    by now rewrite (proximity_frame_threshold _ _ i F3), E2.
  assert (Hc3 : ProximityDetector._confidence_threshold (fst o3) <= conf)
    by now rewrite (proximity_frame_confidence _ _ F3).
  destruct (first_crossing (fst o3) i dist conf k4 t4 Hd3 Hc3 T3) as [D4 _].
  fold o4 in D4.
  exists (Py.int ((t1 - t0) * 1000)), (Py.int ((t2 - t0) * 1000)).
  repeat split; try assumption.
  - change 0%Z with (Py.int 0). apply int_strict; lra.
  - apply elapsed_strict; lra.
Qed.

Lemma alert_duration_lifecycle_witness :
  let d := fst (ProximityDetector.start_detection (ProximityDetector.init true) 0) in
  let o0 := analyze_channel d 2 40 0.9 0 100 in
  let o1 := analyze_channel (fst o0) 2 40 0.9 1 100.5 in
  let o2 := analyze_channel (fst o1) 2 40 0.9 0 101 in
  let o3 := analyze_channel (fst o2) 2 60 0.9 1 101.5 in
  let o4 := analyze_channel (fst o3) 2 40 0.9 0 102 in
  exists n1 n2,
    duration_of o0 = Some 0%Z
    /\ duration_of o1 = Some n1
    /\ duration_of o2 = Some n2
    /\ (0 < n1 < n2)%Z
    /\ tracked (fst o3) 2 = None
    /\ duration_of o4 = Some 0%Z.
Proof.
  cbv zeta.
  apply (proj2 (proj2 (proj2 (proj2 (proj2 (proj2 alert_duration_lifecycle)))))
           (fst (ProximityDetector.start_detection (ProximityDetector.init true) 0))
           2%Z 40 0.9 60 0%Z 1%Z 0%Z 1%Z 0%Z 100 100.5 101 101.5 102);
    vm_compute; first [reflexivity | discriminate].
Defined.

(** C6, the claim as stated fails: two alerting analyses of a channel
    less than a millisecond apart report the same duration; and a reading
    above the threshold whose confidence is below the confidence threshold
    leaves the entry in place, so that the next crossing does not start
    at 0. *)
Lemma alert_duration_counterexample :
  let d := fst (ProximityDetector.start_detection (ProximityDetector.init true) 0) in
  let o1 := analyze_channel d 1 40 0.9 0 100 in
  let o2 := analyze_channel (fst o1) 1 40 0.9 0 100.0004 in
  let o3 := analyze_channel (fst o2) 1 60 0.5 0 101 in
  let o4 := analyze_channel (fst o3) 1 40 0.9 0 105 in
  duration_of o1 = Some 0%Z
  /\ duration_of o2 = Some 0%Z
  /\ threshold_of (fst o2) 1 < 60
  /\ tracked (fst o3) 1 = Some 100
  /\ duration_of o4 = Some 5000%Z.
Proof.
  cbv zeta. repeat split; vm_compute; reflexivity.
Qed.

(** ** The generated ranges *)

Lemma random_bounds (k : Z) : 0 <= Py.random k /\ Py.random k < 1.
Proof.
  unfold Py.random, Qle, Qlt. cbn [Qnum Qden].
  pose proof (Z.mod_pos_bound k (2 ^ 53) ltac:(lia)) as H.
  change (Z.pos (2 ^ 53)) with (2 ^ 53)%Z. lia.
Qed.

Lemma round_half_even_lower (x : Q) (n : Z) :
  inject_Z n <= x -> (n <= Py.round_half_even x)%Z.
Proof.
  intros H. apply Qfloor_resp_le in H. rewrite Qfloor_Z in H.
  unfold Py.round_half_even.
  destruct (Qcompare _ _); [destruct (Z.even _)| |]; lia.
Qed.

Lemma round_half_even_upper (x : Q) (n : Z) :
  x <= inject_Z n -> (Py.round_half_even x <= n)%Z.
Proof.
  intros H. unfold Py.round_half_even.
  pose proof (Qfloor_le x) as Hf.
  assert (Hle : (Qfloor x <= n)%Z).
  { rewrite Zle_Qle. eapply Qle_trans; eassumption. }
  destruct (Z.eq_dec (Qfloor x) n) as [E|E].
  - assert (Hx : x - inject_Z (Qfloor x) < 1 # 2) by (rewrite E; lra).
    rewrite (proj1 (Qlt_alt _ _) Hx). lia.
  - destruct (Qcompare _ _); [destruct (Z.even _)| |]; lia.
Qed.

Lemma round1_bounds (x : Q) (lo hi : Z) :
  inject_Z lo <= x * 10 -> x * 10 <= inject_Z hi ->
  Qmake lo 10 <= Py.round x 1 /\ Py.round x 1 <= Qmake hi 10.
Proof.
  intros Hlo Hhi.
  change (Py.round x 1) with (Qmake (Py.round_half_even (x * 10)) 10).
  apply round_half_even_lower in Hlo. apply round_half_even_upper in Hhi.
  unfold Qle. cbn [Qnum Qden]. split; lia.
Qed.

Lemma round2_lower (x : Q) (lo : Z) :
  inject_Z lo <= x * 100 -> Qmake lo 100 <= Py.round x 2.
Proof.
  intros Hlo.
  change (Py.round x 2) with (Qmake (Py.round_half_even (x * 100)) 100).
  apply round_half_even_lower in Hlo.
  unfold Qle. cbn [Qnum Qden]. lia.
Qed.

Lemma min_cases (a b : Q) :
  (Py.min a b = a /\ a <= b) \/ (Py.min a b = b /\ b < a).
Proof.
  unfold Py.min. destruct (Py.ltb b a) eqn:E.
  - right. split; [reflexivity|]. now apply ltb_lt.
  - left. split; [reflexivity|]. now apply ltb_ge.
Qed.

Lemma max_lower (a b : Q) : b <= Py.max a b.
Proof.
  unfold Py.max. destruct (Py.ltb a b) eqn:E.
  - apply Qle_refl.
  - now apply ltb_ge.
Qed.

Lemma generated_max_range_bounds rf k :
  LidarDataCollector.max_range_m rf == 30 ->
  29 <= LidarDataCollector.generated_max_range rf k
  /\ LidarDataCollector.generated_max_range rf k <= 30.
Proof.
  intros Hmax. unfold LidarDataCollector.generated_max_range, Py.uniform.
  destruct (random_bounds k) as [Hr0 Hr1].
  set (u := Py.random k) in *.
  destruct (min_cases 1 (LidarDataCollector.max_range_m rf * (5 # 100)))
    as [[-> _]|[_ Hlt]]; [|lra].
  destruct (min_cases (LidarDataCollector.max_range_m rf + (- (1) + (0 - - (1)) * u))
              (LidarDataCollector.max_range_m rf)) as [[-> H]|[-> H]]; lra.
Qed.

Lemma generated_min_range_bounds rf k :
  LidarDataCollector.min_range_m rf
  <= LidarDataCollector.generated_min_range rf k.
Proof. unfold LidarDataCollector.generated_min_range. apply max_lower. Qed.

(** C7. With the range filter at 0.5 m and 30.0 m, every sample of the
    generator reports a max range of at most 30.0 and at least 28.5, and
    a min range of at least 0.5. *)
Theorem generated_ranges_within_filter :
  forall c r now,
    let rf := default LidarDataCollector.default_range_filter
                (LidarDataCollector.p_range_filter (LidarDataCollector._parameters c)) in
    LidarDataCollector.min_range_m rf == 0.5 ->
    LidarDataCollector.max_range_m rf == 30 ->
    exists vals max_range min_range,
      Py.values (LidarDataCollector._generate_telemetry_data c r now) = Some vals
      /\ vals !! "lidar.max_range" = Some (Py.VNum max_range)
      /\ vals !! "lidar.min_range" = Some (Py.VNum min_range)
      /\ 28.5 <= max_range /\ max_range <= 30
      /\ 0.5 <= min_range.
Proof.
  intros c r now rf Hmin Hmax.
  unfold LidarDataCollector._generate_telemetry_data. fold rf.
  destruct (if String.eqb _ "high" then _ else _) as [base_points variance].
  cbn [Py.values].
  eexists _, _, _. split; [reflexivity|].
  split; [repeat (rewrite lookup_insert_ne by discriminate); apply lookup_insert_eq|].
  split; [repeat (rewrite lookup_insert_ne by discriminate); apply lookup_insert_eq|].
  destruct (generated_max_range_bounds rf (LidarDataCollector.k_max_range r) Hmax)
    as [Hlo Hhi].
  pose proof (generated_min_range_bounds rf (LidarDataCollector.k_min_range r)) as Hmn.
  destruct (round1_bounds
              (LidarDataCollector.generated_max_range rf (LidarDataCollector.k_max_range r))
              290 300 ltac:(change (inject_Z 290) with 290; lra)
              ltac:(change (inject_Z 300) with 300; lra)) as [H1 H2].
  pose proof (round2_lower
                (LidarDataCollector.generated_min_range rf (LidarDataCollector.k_min_range r))
                50 ltac:(change (inject_Z 50) with 50; lra)) as H3.
  repeat split.
  - eapply Qle_trans; [|exact H1]. unfold Qle. cbn. lia.
  - eapply Qle_trans; [exact H2|]. unfold Qle. cbn. lia.
  - eapply Qle_trans; [|exact H3]. unfold Qle. cbn. lia.
Qed.

Lemma generated_ranges_within_filter_witness :
  exists vals max_range min_range,
    Py.values
      (LidarDataCollector._generate_telemetry_data
         (LidarDataCollector.start_collection LidarDataCollector.init
            (LidarDataCollector.Parameters (Some 10) (Some "medium")
               (Some (LidarDataCollector.RangeFilter 0.5 30))) 1700000000)
         (LidarDataCollector.Draws 11 22 33 44 55 66 77 88) 1700000001)
    = Some vals
    /\ vals !! "lidar.max_range" = Some (Py.VNum max_range)
    /\ vals !! "lidar.min_range" = Some (Py.VNum min_range)
    /\ 28.5 <= max_range /\ max_range <= 30
    /\ 0.5 <= min_range.
Proof.
  apply generated_ranges_within_filter; reflexivity.
Defined.

(** ** The cached sample *)

Lemma collector_step_cache c ev :
  LidarDataCollector._current_telemetry c
  = last (LidarDataCollector._telemetry_entries c) ->
  LidarDataCollector._current_telemetry (collector_step c ev)
  = last (LidarDataCollector._telemetry_entries (collector_step c ev)).
Proof.
  intros H. destruct ev as [params now| |params|d|r rd now]; cbn [collector_step].
  - unfold LidarDataCollector.start_collection.
    destruct (LidarDataCollector._collecting c); exact H.
  - unfold LidarDataCollector.stop_collection.
    destruct (LidarDataCollector._collecting c); exact H.
  - exact H.
  - exact H.
  - unfold LidarDataCollector.collection_tick.
    destruct (LidarDataCollector._collecting c); cbn [negb fst]; [|exact H].
    unfold LidarDataCollector._save_telemetry_to_file.
    cbn [LidarDataCollector._file_path LidarDataCollector._occupancy_detector].
    destruct (LidarDataCollector._file_path c);
      cbn [LidarDataCollector._occupancy_detector];
      destruct (LidarDataCollector._occupancy_detector c); cbn; now rewrite last_snoc.
Qed.

Lemma collector_run_cache events :
  LidarDataCollector._current_telemetry (collector_run events)
  = last (LidarDataCollector._telemetry_entries (collector_run events)).
Proof.
  unfold collector_run.
  assert (H : LidarDataCollector._current_telemetry LidarDataCollector.init
              = last (LidarDataCollector._telemetry_entries LidarDataCollector.init))
    by reflexivity.
  revert H. generalize LidarDataCollector.init.
  induction events as [|ev events IH]; intros c H; cbn [fold_left].
  - exact H.
  - apply IH. now apply collector_step_cache.
Qed.

(** C9, as amended. After any calls and loop iterations,
    [get_current_telemetry] returns [None] exactly when the collector is
    not collecting or no sample has been generated since it was built;
    while it is collecting it returns the sample generated last. *)
Theorem current_sample_while_collecting :
  forall events,
    let c := collector_run events in
    LidarDataCollector.get_current_telemetry c
    = (if LidarDataCollector._collecting c
       then last (LidarDataCollector._telemetry_entries c)
       else None)
    /\ (LidarDataCollector.get_current_telemetry c = None
        <-> LidarDataCollector._collecting c = false
            \/ LidarDataCollector._telemetry_entries c = []).
Proof.
  intros events c. pose proof (collector_run_cache events) as H. fold c in H.
  assert (E : LidarDataCollector.get_current_telemetry c
              = (if LidarDataCollector._collecting c
                 then last (LidarDataCollector._telemetry_entries c)
                 else None)).
  { unfold LidarDataCollector.get_current_telemetry. rewrite H.
    destruct (LidarDataCollector._collecting c); [|reflexivity].
    destruct (last _); reflexivity. }
  split; [exact E|]. rewrite E.
  destruct (LidarDataCollector._collecting c).
  - rewrite last_None. split; [auto|]. intros [?|?]; [discriminate|assumption].
  - split; auto.
Qed.

(** C9, the claim as stated fails: a sample was generated in the session,
    the session was stopped, and the read returns [None]. *)
Lemma current_sample_counterexample :
  let c :=
    collector_run
      [Start_collection
         (LidarDataCollector.Parameters (Some 10) (Some "medium")
            (Some (LidarDataCollector.RangeFilter 0.5 30))) 1700000000;
       Loop_iteration (LidarDataCollector.Draws 1 2 3 4 5 6 7 8)
         (OccupancyDetector.Draws 0 0 0 0 0 0 0) 1700000001;
       Stop_collection] in
  length (LidarDataCollector._telemetry_entries c) = 1%nat
  /\ is_Some (LidarDataCollector._current_telemetry c)
  /\ LidarDataCollector.get_current_telemetry c = None.
Proof.
  cbv zeta. split; [vm_compute; reflexivity|].
  split; [vm_compute; eauto | vm_compute; reflexivity].
Qed.

(** ** Configuration updates *)

Lemma lidar_with_state_id svc :
  LidarControlService.with_state (fun s => s) svc = svc.
Proof. destruct svc; reflexivity. Qed.

Lemma lidar_apply_scan_rate cfg svc :
  LidarControlService.apply_scan_rate cfg svc
  = if lidar_scan_rate_valid cfg
    then (LidarControlService.with_state (lidar_merge_scan_rate cfg) svc,
          Exc.Return (LidarControlService.c_scan_rate_hz cfg))
    else (svc, Exc.Raise
                 (LidarControlService.Invalid_scan_rate
                    (default 0 (LidarControlService.c_scan_rate_hz cfg)))).
Proof.
  unfold LidarControlService.apply_scan_rate, lidar_scan_rate_valid,
    lidar_merge_scan_rate.
  destruct (LidarControlService.c_scan_rate_hz cfg) as [q|]; cbn.
  - destruct (Py.leb 1 q && Py.leb q 50)%bool; reflexivity.
  - now rewrite lidar_with_state_id.
Qed.

Lemma lidar_apply_resolution cfg svc :
  LidarControlService.apply_resolution cfg svc
  = if lidar_resolution_valid cfg
    then (LidarControlService.with_state (lidar_merge_resolution cfg) svc,
          Exc.Return (Py.lower <$> LidarControlService.c_resolution cfg))
    else (svc, Exc.Raise
                 (LidarControlService.Invalid_resolution
                    (Py.lower (default "" (LidarControlService.c_resolution cfg))))).
Proof.
  unfold LidarControlService.apply_resolution, lidar_resolution_valid,
    lidar_merge_resolution.
  destruct (LidarControlService.c_resolution cfg) as [r|]; cbn.
  - destruct (bool_decide _); reflexivity.
  - now rewrite lidar_with_state_id.
Qed.

Lemma lidar_apply_range_filter_raises cfg svc :
  lidar_range_filter_valid (LidarControlService._state svc) cfg = false ->
  fst (LidarControlService.apply_range_filter cfg svc) = svc
  /\ Exc.raised (snd (LidarControlService.apply_range_filter cfg svc)) = true.
Proof.
  unfold LidarControlService.apply_range_filter, lidar_range_filter_valid,
    effective_min, effective_max.
  destruct (LidarControlService.c_range_filter cfg) as [[mn mx|]|]; cbn.
  - unfold Exc.bind, Exc.get. cbn. intros ->. cbn. auto.
  - auto.
  - discriminate.
Qed.

Lemma lidar_apply_range_filter_returns cfg svc :
  lidar_range_filter_valid (LidarControlService._state svc) cfg = true ->
  Exc.raised (snd (LidarControlService.apply_range_filter cfg svc)) = false.
Proof.
  unfold LidarControlService.apply_range_filter, lidar_range_filter_valid,
    effective_min, effective_max.
  destruct (LidarControlService.c_range_filter cfg) as [[mn mx|]|]; cbn.
  - unfold Exc.bind, Exc.get. cbn. intros ->. reflexivity.
  - discriminate.
  - reflexivity.
Qed.

Lemma lidar_apply_configuration_unfold cfg svc :
  LidarControlService._apply_configuration cfg svc
  = if lidar_scan_rate_valid cfg then
      if lidar_resolution_valid cfg then
        match LidarControlService.apply_range_filter cfg
                (LidarControlService.with_state (lidar_merge_resolution cfg)
                   (LidarControlService.with_state (lidar_merge_scan_rate cfg) svc)) with
        | (svc3, Exc.Return a_rf) =>
            (LidarControlService.push_parameters svc3,
             Exc.Return
               (LidarControlService.Applied
                  (LidarControlService.c_scan_rate_hz cfg)
                  (Py.lower <$> LidarControlService.c_resolution cfg) a_rf))
        | (svc3, Exc.Raise e) => (svc3, Exc.Raise e)
        end
      else (LidarControlService.with_state (lidar_merge_scan_rate cfg) svc,
            Exc.Raise
              (LidarControlService.Invalid_resolution
                 (Py.lower (default "" (LidarControlService.c_resolution cfg)))))
    else (svc, Exc.Raise
                 (LidarControlService.Invalid_scan_rate
                    (default 0 (LidarControlService.c_scan_rate_hz cfg)))).
Proof.
  unfold LidarControlService._apply_configuration.
  unfold Exc.bind at 1. rewrite lidar_apply_scan_rate.
  destruct (lidar_scan_rate_valid cfg); [|reflexivity].
  unfold Exc.bind at 1. rewrite lidar_apply_resolution.
  destruct (lidar_resolution_valid cfg); [|reflexivity].
  unfold Exc.bind at 1.
  destruct (LidarControlService.apply_range_filter cfg _) as [svc3 [a|e]]; reflexivity.
Qed.

Lemma lidar_apply_configuration_spec svc cfg :
  let out := LidarControlService._apply_configuration cfg svc in
  match lidar_first_invalid (LidarControlService._state svc) cfg with
  | Some f =>
      Exc.raised (snd out) = true
      /\ fst out = LidarControlService.with_state (lidar_merged_before f cfg) svc
  | None => Exc.raised (snd out) = false
  end.
Proof.
  intros out. subst out. rewrite lidar_apply_configuration_unfold.
  unfold lidar_first_invalid.
  destruct (lidar_scan_rate_valid cfg); cbn [negb fst snd Exc.raised lidar_merged_before];
    [|split; [reflexivity | now rewrite lidar_with_state_id]].
  destruct (lidar_resolution_valid cfg); cbn [negb fst snd Exc.raised lidar_merged_before];
    [|split; [reflexivity | reflexivity]].
  set (svc2 := LidarControlService.with_state (lidar_merge_resolution cfg)
                 (LidarControlService.with_state (lidar_merge_scan_rate cfg) svc)).
  assert (Hrf : lidar_range_filter_valid (LidarControlService._state svc2) cfg
                = lidar_range_filter_valid (LidarControlService._state svc) cfg).
  { unfold svc2, lidar_range_filter_valid, effective_min, effective_max,
      lidar_merge_resolution, lidar_merge_scan_rate.
    destruct (LidarControlService.c_resolution cfg),
      (LidarControlService.c_scan_rate_hz cfg); reflexivity. }
  destruct (lidar_range_filter_valid (LidarControlService._state svc) cfg) eqn:E;
    cbn [negb].
  - pose proof (lidar_apply_range_filter_returns cfg svc2 Hrf) as H.
    destruct (LidarControlService.apply_range_filter cfg svc2) as [svc3 [a|e]];
      [reflexivity | discriminate H].
  - destruct (lidar_apply_range_filter_raises cfg svc2 Hrf) as [H1 H2].
    destruct (LidarControlService.apply_range_filter cfg svc2) as [svc3 [a|e]];
      [discriminate H2|].
    cbn in *. subst svc3. split; [reflexivity|].
    unfold svc2. destruct svc; reflexivity.
Qed.

Lemma ultrasonic_with_config_id svc :
  UltrasonicControlService.with_config (fun c => c) svc = svc.
Proof. destruct svc; reflexivity. Qed.

Lemma ultrasonic_apply_checked {A} (field : option A) valid assign error svc :
  UltrasonicControlService.apply_checked field valid assign error svc
  = match field with
    | Some v =>
        if valid v
        then (UltrasonicControlService.with_config (assign v) svc, Exc.Return tt)
        else (svc, Exc.Raise (error v))
    | None => (svc, Exc.Return tt)
    end.
Proof.
  unfold UltrasonicControlService.apply_checked.
  destruct field as [v|]; [destruct (valid v)|]; reflexivity.
Qed.

Lemma ultrasonic_apply_config_spec svc cfg :
  let out := UltrasonicControlService._apply_config cfg svc in
  match ultrasonic_first_invalid cfg with
  | Some f =>
      Exc.raised (snd out) = true
      /\ fst out
         = UltrasonicControlService.with_config (ultrasonic_merged_before f cfg) svc
  | None =>
      snd out = Exc.Return (UltrasonicControlService._config (fst out))
      \/ snd out = Exc.Raise UltrasonicControlService.Min_not_below_max
  end.
Proof.
  intros out.
  assert (Hout : out = UltrasonicControlService._apply_config cfg svc) by reflexivity.
  clearbody out.
  unfold UltrasonicControlService._apply_config in Hout.
  unfold ultrasonic_first_invalid, ultrasonic_merged_before, ultrasonic_merge,
    ultrasonic_valid.
  destruct cfg as [se sr mx mn tc nf other].
  cbn [UltrasonicControlService.u_sensors_enabled
       UltrasonicControlService.u_sample_rate_hz
       UltrasonicControlService.u_max_range_cm
       UltrasonicControlService.u_min_range_cm
       UltrasonicControlService.u_temperature_compensation
       UltrasonicControlService.u_noise_filtering] in *.
  unfold Exc.bind at 1 in Hout. rewrite ultrasonic_apply_checked in Hout.
  destruct se as [se|]; cbn [fmap option_fmap option_map] in Hout;
    [destruct (Z.leb 1 (Py.int se) && Z.leb (Py.int se) 4)%bool; cbn [negb];
     [|subst out; split; [reflexivity | now rewrite ultrasonic_with_config_id]]|];
    (unfold Exc.bind at 1 in Hout; rewrite ultrasonic_apply_checked in Hout;
     destruct sr as [sr|];
     [destruct (Py.leb 0.1 sr && Py.leb sr 100)%bool; cbn [negb];
      [|subst out; split; [reflexivity | destruct svc; reflexivity]]|]);
    (unfold Exc.bind at 1 in Hout; rewrite ultrasonic_apply_checked in Hout;
     destruct mx as [mx|];
     [destruct (Py.leb 10 mx && Py.leb mx 500)%bool; cbn [negb];
      [|subst out; split; [reflexivity | destruct svc; reflexivity]]|]);
    (unfold Exc.bind at 1 in Hout; rewrite ultrasonic_apply_checked in Hout;
     destruct mn as [mn|];
     [destruct (Py.leb 1 mn && Py.leb mn 50)%bool; cbn [negb];
      [|subst out; split; [reflexivity | destruct svc; reflexivity]]|]);
    cbn [negb];
    unfold Exc.bind, UltrasonicControlService.apply_flag, Exc.get, Exc.modify,
      Exc.ret, Exc.raise in Hout;
    destruct tc, nf; cbn [fst snd] in Hout;
    match type of Hout with
    | context [if ?b then _ else _] => destruct b
    end; subst out; cbn [fst snd]; auto.
Qed.

Lemma andb_leb_false (a b c : Q) :
  (Py.leb a b && Py.leb b c)%bool = false <-> ~ (a <= b /\ b <= c).
Proof.
  rewrite andb_false_iff. unfold Py.leb. split.
  - intros [H|H] [H1 H2]; [apply Qle_bool_iff in H1|apply Qle_bool_iff in H2]; congruence.
  - intros H. destruct (Qle_bool a b) eqn:E1; [|now left].
    destruct (Qle_bool b c) eqn:E2; [|now right].
    exfalso. apply H. split; now apply Qle_bool_iff.
Qed.

(** C1, as amended. [_apply_configuration] and [_apply_config] validate
    and merge one field at a time, in a fixed order.  An update with an
    invalid field raises a validation error; the fields that come before
    the first invalid field are merged, the invalid field and the fields
    after it are not, and nothing else of the service changes.  An update
    whose scan rate is invalid leaves the LiDAR service as it was, and so
    does an update of the ultrasonic service with no [sensors_enabled] and
    an invalid sample rate. *)
Theorem apply_config_error_keeps_later_fields :
  (forall svc cfg,
      let out := LidarControlService._apply_configuration cfg svc in
      match lidar_first_invalid (LidarControlService._state svc) cfg with
      | Some f =>
          Exc.raised (snd out) = true
          /\ fst out = LidarControlService.with_state (lidar_merged_before f cfg) svc
      | None => Exc.raised (snd out) = false
      end)
  /\ (forall svc cfg,
      let out := UltrasonicControlService._apply_config cfg svc in
      match ultrasonic_first_invalid cfg with
      | Some f =>
          Exc.raised (snd out) = true
          /\ fst out
             = UltrasonicControlService.with_config (ultrasonic_merged_before f cfg) svc
      | None =>
          snd out = Exc.Return (UltrasonicControlService._config (fst out))
          \/ snd out = Exc.Raise UltrasonicControlService.Min_not_below_max
      end)
  /\ (forall svc q res rf other,
      ~ (1 <= q /\ q <= 50) ->
      LidarControlService._apply_configuration
        (LidarControlService.Config (Some q) res rf other) svc
      = (svc, Exc.Raise (LidarControlService.Invalid_scan_rate q)))
  /\ (forall svc q mx mn tc nf other,
      ~ (0.1 <= q /\ q <= 100) ->
      UltrasonicControlService._apply_config
        (UltrasonicControlService.Config None (Some q) mx mn tc nf other) svc
      = (svc, Exc.Raise (UltrasonicControlService.Bad_sample_rate_hz q))).
Proof.
  split; [exact lidar_apply_configuration_spec|].
  split; [exact ultrasonic_apply_config_spec|].
  split.
  - intros svc q res rf other H. apply andb_leb_false in H.
    rewrite lidar_apply_configuration_unfold. unfold lidar_scan_rate_valid.
    cbn [LidarControlService.c_scan_rate_hz]. now rewrite H.
  - intros svc q mx mn tc nf other H. apply andb_leb_false in H.
    unfold UltrasonicControlService._apply_config.
    cbn [UltrasonicControlService.u_sensors_enabled
         UltrasonicControlService.u_sample_rate_hz fmap option_fmap option_map].
    unfold Exc.bind at 1. rewrite ultrasonic_apply_checked.
    unfold Exc.bind at 1. rewrite ultrasonic_apply_checked.
    now rewrite H.
Qed.

Lemma apply_config_error_keeps_later_fields_witness :
  LidarControlService._apply_configuration
    (LidarControlService.Config (Some 0) None None false) LidarControlService.init
  = (LidarControlService.init, Exc.Raise (LidarControlService.Invalid_scan_rate 0))
  /\ UltrasonicControlService._apply_config
       (UltrasonicControlService.Config None (Some 0) None None None None false)
       UltrasonicControlService.init
     = (UltrasonicControlService.init,
        Exc.Raise (UltrasonicControlService.Bad_sample_rate_hz 0)).
Proof.
  split.
  - apply (proj1 (proj2 (proj2 apply_config_error_keeps_later_fields))).
    intros [H _]. revert H. vm_compute. intros H. apply H. reflexivity.
  - apply (proj2 (proj2 (proj2 apply_config_error_keeps_later_fields))).
    intros [H _]. revert H. vm_compute. intros H. apply H. reflexivity.
Defined.

(** C1, the claim as stated fails: a valid field that precedes the
    invalid one is merged before the error is raised, in both services. *)
Lemma apply_config_partial_merge_counterexample :
  let lidar :=
    LidarControlService._apply_configuration
      (LidarControlService.Config (Some 20) (Some "ultra") None false)
      LidarControlService.init in
  let ultrasonic :=
    UltrasonicControlService._apply_config
      (UltrasonicControlService.Config (Some 2) (Some 0) None None None None false)
      UltrasonicControlService.init in
  snd lidar = Exc.Raise (LidarControlService.Invalid_resolution "ultra")
  /\ LidarControlService.scan_rate_hz
       (LidarControlService._state LidarControlService.init) = 10
  /\ LidarControlService.scan_rate_hz (LidarControlService._state (fst lidar)) = 20
  /\ snd ultrasonic = Exc.Raise (UltrasonicControlService.Bad_sample_rate_hz 0)
  /\ UltrasonicControlService.sensors_enabled
       (UltrasonicControlService._config UltrasonicControlService.init) = 4%Z
  /\ UltrasonicControlService.sensors_enabled
       (UltrasonicControlService._config (fst ultrasonic)) = 2%Z.
Proof.
  cbv zeta. repeat split; vm_compute; reflexivity.
Qed.

(** ** The range filter of the LiDAR service *)

(** C8, as amended. [_apply_configuration] accepts a range filter exactly
    when [0.1 <= min <= max <= 100.0], the bounds being those given or,
    for a bound that is absent, that of the state; it merges an accepted
    filter, and rejects any other with a validation error that leaves the
    service as it was.  A range filter that is not a dict is rejected. *)
Theorem range_filter_acceptance :
  (forall svc mn mx,
      let min_range := effective_min (LidarControlService._state svc) mn in
      let max_range := effective_max (LidarControlService._state svc) mx in
      let out :=
        LidarControlService._apply_configuration
          (LidarControlService.Config None None
             (Some (LidarControlService.RangeDict mn mx)) false) svc in
      (Exc.raised (snd out) = false
       <-> 0.1 <= min_range /\ min_range <= max_range /\ max_range <= 100)
      /\ (Exc.raised (snd out) = false ->
          snd out
          = Exc.Return
              (LidarControlService.Applied None None
                 (Some (LidarDataCollector.RangeFilter min_range max_range)))
          /\ LidarControlService.range_filter (LidarControlService._state (fst out))
             = LidarDataCollector.RangeFilter min_range max_range)
      /\ (Exc.raised (snd out) = true ->
          out = (svc, Exc.Raise
                        (LidarControlService.Invalid_range_filter min_range max_range))))
  /\ (forall svc,
      LidarControlService._apply_configuration
        (LidarControlService.Config None None (Some LidarControlService.NotADict) false)
        svc
      = (svc, Exc.Raise LidarControlService.Range_filter_not_dict)).
Proof.
  split.
  - intros svc mn mx min_range max_range out.
    assert (Hout : out
      = if (Py.leb 0.1 min_range && Py.leb min_range max_range
            && Py.leb max_range 100)%bool
        then (LidarControlService.push_parameters
                (LidarControlService.with_state
                   (LidarControlService.set_range_filter
                      (LidarDataCollector.RangeFilter min_range max_range)) svc),
              Exc.Return
                (LidarControlService.Applied None None
                   (Some (LidarDataCollector.RangeFilter min_range max_range))))
        else (svc, Exc.Raise
                     (LidarControlService.Invalid_range_filter min_range max_range))).
    { subst out. rewrite lidar_apply_configuration_unfold.
      unfold lidar_scan_rate_valid, lidar_resolution_valid, lidar_merge_scan_rate,
        lidar_merge_resolution, LidarControlService.apply_range_filter,
        Exc.bind, Exc.get, Exc.modify, Exc.ret, Exc.raise.
      cbn [LidarControlService.c_scan_rate_hz LidarControlService.c_resolution
           LidarControlService.c_range_filter].
      rewrite !lidar_with_state_id.
      fold (effective_min (LidarControlService._state svc) mn).
      fold (effective_max (LidarControlService._state svc) mx).
      fold min_range max_range.
      destruct (Py.leb 0.1 min_range && Py.leb min_range max_range
                && Py.leb max_range 100)%bool; reflexivity. }
    clearbody out. subst out.
    destruct (Py.leb 0.1 min_range && Py.leb min_range max_range
              && Py.leb max_range 100)%bool eqn:E.
    + apply andb_true_iff in E. destruct E as [E E3].
      apply andb_true_iff in E. destruct E as [E1 E2].
      apply leb_le in E1, E2, E3. cbn [fst snd Exc.raised].
      split; [tauto|]. split; [|discriminate].
      intros _. split; [reflexivity|].
      unfold LidarControlService.push_parameters.
      destruct svc as [s st [c|]]; cbn; [destruct (LidarControlService.active s)|];
        reflexivity.
    + cbn [fst snd Exc.raised]. split; [|split; [discriminate | reflexivity]].
      split; [discriminate|]. intros (H1 & H2 & H3).
      apply leb_le in H1, H2, H3. rewrite H1, H2, H3 in E. discriminate.
  - intros svc. rewrite lidar_apply_configuration_unfold.
    unfold lidar_scan_rate_valid, lidar_resolution_valid, lidar_merge_scan_rate,
      lidar_merge_resolution, LidarControlService.apply_range_filter, Exc.raise.
    cbn. now rewrite !lidar_with_state_id.
Qed.

Lemma range_filter_acceptance_witness :
  let out :=
    LidarControlService._apply_configuration
      (LidarControlService.Config None None
         (Some (LidarControlService.RangeDict (Some 0.5) (Some 30))) false)
      LidarControlService.init in
  snd out
  = Exc.Return
      (LidarControlService.Applied None None
         (Some (LidarDataCollector.RangeFilter 0.5 30)))
  /\ LidarControlService.range_filter (LidarControlService._state (fst out))
     = LidarDataCollector.RangeFilter 0.5 30.
Proof.
  cbv zeta.
  apply (proj1 (proj2 (proj1 range_filter_acceptance LidarControlService.init
                         (Some 0.5) (Some 30)))).
  reflexivity.
Defined.

(** C8, the claim as stated fails: a range filter whose bounds are equal
    is accepted and merged. *)
Lemma range_filter_equal_bounds_counterexample :
  let out :=
    LidarControlService._apply_configuration
      (LidarControlService.Config None None
         (Some (LidarControlService.RangeDict (Some 5) (Some 5))) false)
      LidarControlService.init in
  snd out
  = Exc.Return
      (LidarControlService.Applied None None (Some (LidarDataCollector.RangeFilter 5 5)))
  /\ LidarControlService.range_filter (LidarControlService._state (fst out))
     = LidarDataCollector.RangeFilter 5 5.
Proof.
  cbv zeta. split; vm_compute; reflexivity.
Qed.

(** ** Start and stop *)

Lemma lidar_apply_range_filter_frame cfg svc :
  let out := LidarControlService.apply_range_filter cfg svc in
  LidarControlService._data_collector (fst out) = LidarControlService._data_collector svc
  /\ LidarControlService._telemetry_streaming_service (fst out)
     = LidarControlService._telemetry_streaming_service svc
  /\ LidarControlService.active (LidarControlService._state (fst out))
     = LidarControlService.active (LidarControlService._state svc).
Proof.
  unfold LidarControlService.apply_range_filter, Exc.bind, Exc.get, Exc.modify,
    Exc.ret, Exc.raise.
  destruct (LidarControlService.c_range_filter cfg) as [[mn mx|]|]; cbn; auto.
  destruct (_ && _)%bool; cbn; auto.
Qed.

Lemma lidar_merge_active cfg s :
  LidarControlService.active (lidar_merge_resolution cfg (lidar_merge_scan_rate cfg s))
  = LidarControlService.active s.
Proof.
  unfold lidar_merge_resolution, lidar_merge_scan_rate.
  destruct (LidarControlService.c_resolution cfg),
    (LidarControlService.c_scan_rate_hz cfg); reflexivity.
Qed.

Lemma same_generation_loop_refl c : same_generation_loop c c.
Proof. split; reflexivity. Qed.

Lemma lidar_apply_configuration_frame cfg svc :
  let out := LidarControlService._apply_configuration cfg svc in
  LidarControlService._telemetry_streaming_service (fst out)
  = LidarControlService._telemetry_streaming_service svc
  /\ LidarControlService.active (LidarControlService._state (fst out))
     = LidarControlService.active (LidarControlService._state svc)
  /\ match LidarControlService._data_collector svc with
     | Some c =>
         exists c', LidarControlService._data_collector (fst out) = Some c'
                    /\ same_generation_loop c c'
     | None => LidarControlService._data_collector (fst out) = None
     end.
Proof.
  intros out. subst out. rewrite lidar_apply_configuration_unfold.
  pose proof same_generation_loop_refl as Hrefl.
  destruct (lidar_scan_rate_valid cfg);
    [|cbn; repeat split; destruct (LidarControlService._data_collector svc); eauto].
  destruct (lidar_resolution_valid cfg);
    [|cbn; repeat split;
      [unfold lidar_merge_scan_rate;
       destruct (LidarControlService.c_scan_rate_hz cfg); reflexivity
      |destruct (LidarControlService._data_collector svc); eauto]].
  match goal with
  | |- context [LidarControlService.apply_range_filter cfg ?s] =>
      destruct (lidar_apply_range_filter_frame cfg s) as (H1 & H2 & H3);
      destruct (LidarControlService.apply_range_filter cfg s) as [svc3 [a|e]]
  end; cbn [fst snd] in *; cbn in H1, H2, H3; rewrite lidar_merge_active in H3.
  - unfold LidarControlService.push_parameters. rewrite H1.
    destruct (LidarControlService._data_collector svc) as [c|]; cbn.
    + rewrite H3.
      destruct (LidarControlService.active (LidarControlService._state svc)) eqn:E;
        cbn; rewrite ?H1, ?H2, ?H3; repeat split; auto.
      * eexists. split; [reflexivity|]. split; reflexivity.
      * eauto.
    + rewrite H1. auto.
  - rewrite H1, H2, H3.
    repeat split. destruct (LidarControlService._data_collector svc); eauto.
Qed.

Lemma lidar_start_unfold svc cfg now :
  LidarControlService.start svc cfg now
  = match
      match cfg with
      | Some c =>
          if LidarControlService.config_nonempty c
          then LidarControlService._apply_configuration c svc
          else (svc, Exc.Return (LidarControlService.Applied None None None))
      | None => (svc, Exc.Return (LidarControlService.Applied None None None))
      end
    with
    | (svc1, Exc.Return _) =>
        let svc2 :=
          LidarControlService.with_state (fun s =>
            LidarControlService.set_error_count 0
              (LidarControlService.set_last_started (Some (Py.millis now))
                (LidarControlService.set_status "operational"
                  (LidarControlService.set_active true s)))) svc1 in
        let svc3 :=
          match LidarControlService._telemetry_streaming_service svc2 with
          | Some s =>
              LidarControlService.set_telemetry_streaming_service svc2
                (fst (LidarTelemetryStreamingService.start_streaming s 1 now))
          | None => svc2
          end in
        let svc4 :=
          match LidarControlService._data_collector svc3 with
          | Some c =>
              LidarControlService.set_data_collector svc3
                (LidarDataCollector.start_collection c
                   (LidarControlService.parameters_of (LidarControlService._state svc3))
                   now)
          | None => svc3
          end in
        (svc4, LidarControlService.Current (LidarControlService._state svc4))
    | (svc1, Exc.Raise e) =>
        (LidarControlService.with_state (fun s =>
           LidarControlService.set_error_count (LidarControlService.error_count s + 1)%Z
             (LidarControlService.set_status "error" s)) svc1,
         LidarControlService.Failed false "error" e)
    end.
Proof.
  unfold LidarControlService.start, LidarControlService.start_body,
    LidarControlService.current_state.
  unfold Exc.bind at 1.
  destruct cfg as [c|]; [destruct (LidarControlService.config_nonempty c)|];
    try reflexivity.
  unfold Exc.bind at 1.
  destruct (LidarControlService._apply_configuration c svc) as [svc1 [a|e]];
    reflexivity.
Qed.

Lemma lidar_start_collector svc cfg now c :
  LidarControlService._data_collector svc = Some c ->
  LidarDataCollector._collecting c = true ->
  exists c',
    LidarControlService._data_collector (fst (LidarControlService.start svc cfg now))
    = Some c'
    /\ same_generation_loop c c'.
Proof.
  intros Hc Hcol. rewrite lidar_start_unfold.
  assert (H : exists svc1 r,
             match cfg with
             | Some c0 =>
                 if LidarControlService.config_nonempty c0
                 then LidarControlService._apply_configuration c0 svc
                 else (svc, Exc.Return (LidarControlService.Applied None None None))
             | None => (svc, Exc.Return (LidarControlService.Applied None None None))
             end = (svc1, r)
             /\ exists c1, LidarControlService._data_collector svc1 = Some c1
                           /\ same_generation_loop c c1).
  { destruct cfg as [c0|]; [destruct (LidarControlService.config_nonempty c0)|].
    - destruct (lidar_apply_configuration_frame c0 svc) as (_ & _ & H).
      rewrite Hc in H.
      destruct (LidarControlService._apply_configuration c0 svc) as [svc1 r].
      exists svc1, r. auto.
    - eexists _, _. split; [reflexivity|]. exists c. split; [exact Hc|].
      apply same_generation_loop_refl.
    - eexists _, _. split; [reflexivity|]. exists c. split; [exact Hc|].
      apply same_generation_loop_refl. }
  destruct H as (svc1 & r & -> & c1 & Hc1 & Hloop).
  destruct r as [a|e]; cbn [fst].
  - destruct svc1 as [s1 st1 col1]. cbn in Hc1. subst col1.
    destruct st1 as [st|]; cbn.
    + exists c1. split; [|exact Hloop].
      unfold LidarDataCollector.start_collection.
      destruct Hloop as [_ Hloop]. now rewrite Hloop, Hcol.
    + exists c1. split; [|exact Hloop].
      unfold LidarDataCollector.start_collection.
      destruct Hloop as [_ Hloop]. now rewrite Hloop, Hcol.
  - exists c1. split; [|exact Hloop]. destruct svc1; exact Hc1.
Qed.

Lemma lidar_start_accepts svc cfg now :
  lidar_start_rejects (LidarControlService._state svc) cfg = false ->
  let out := LidarControlService.start svc cfg now in
  snd out = LidarControlService.Current (LidarControlService._state (fst out))
  /\ LidarControlService.active (LidarControlService._state (fst out)) = true
  /\ LidarControlService.status (LidarControlService._state (fst out)) = "operational"
  /\ LidarControlService.last_started (LidarControlService._state (fst out))
     = Some (Py.millis now)
  /\ LidarControlService.error_count (LidarControlService._state (fst out)) = 0%Z.
Proof.
  intros Hrej out. subst out. rewrite lidar_start_unfold.
  assert (H : exists svc1 a,
             match cfg with
             | Some c0 =>
                 if LidarControlService.config_nonempty c0
                 then LidarControlService._apply_configuration c0 svc
                 else (svc, Exc.Return (LidarControlService.Applied None None None))
             | None => (svc, Exc.Return (LidarControlService.Applied None None None))
             end = (svc1, Exc.Return a)).
  { destruct cfg as [c0|]; [|eauto].
    unfold lidar_start_rejects in Hrej.
    destruct (LidarControlService.config_nonempty c0); [|eauto].
    pose proof (lidar_apply_configuration_spec svc c0) as Hs. cbv zeta in Hs.
    destruct (lidar_first_invalid (LidarControlService._state svc) c0);
      [discriminate Hrej|].
    destruct (LidarControlService._apply_configuration c0 svc) as [svc1 [a|e]];
      [eauto | discriminate Hs]. }
  destruct H as (svc1 & a & ->).
  destruct svc1 as [s1 [st|] [col|]]; cbn; auto.
Qed.

Lemma lidar_apply_configuration_accepts svc cfg :
  lidar_first_invalid (LidarControlService._state svc) cfg = None ->
  exists a,
    LidarControlService._apply_configuration cfg svc
    = (LidarControlService.push_parameters
         (LidarControlService.with_state (lidar_merged cfg) svc),
       Exc.Return a).
Proof.
  intros Hv. rewrite lidar_apply_configuration_unfold.
  unfold lidar_first_invalid in Hv.
  destruct (lidar_scan_rate_valid cfg); [|discriminate Hv].
  destruct (lidar_resolution_valid cfg); [|discriminate Hv].
  destruct (lidar_range_filter_valid (LidarControlService._state svc) cfg) eqn:Erf;
    [|discriminate Hv].
  clear Hv. destruct svc as [s st col]. destruct cfg as [rate res rf other].
  unfold lidar_merged, lidar_merge_range_filter, lidar_merge_resolution,
    lidar_merge_scan_rate, lidar_range_filter_valid, effective_min, effective_max,
    LidarControlService.apply_range_filter, Exc.bind, Exc.get, Exc.modify, Exc.ret,
    Exc.raise in *.
  cbn [LidarControlService.c_scan_rate_hz LidarControlService.c_resolution
         LidarControlService.c_range_filter LidarControlService._state
         LidarControlService.with_state] in *.
  destruct rf as [[mn mx|]|]; [|discriminate Erf|];
    destruct rate as [rate|], res as [res|];
    cbn [LidarControlService.range_filter LidarControlService.set_resolution
           LidarControlService.set_scan_rate_hz LidarControlService._state
           LidarControlService.with_state] in *;
    try rewrite Erf; eexists; reflexivity.
Qed.

Lemma lidar_merged_active cfg s :
  LidarControlService.active (lidar_merged cfg s) = LidarControlService.active s.
Proof.
  unfold lidar_merged, lidar_merge_range_filter.
  destruct (LidarControlService.c_range_filter cfg) as [[mn mx|]|];
    cbn [LidarControlService.set_range_filter LidarControlService.active];
    apply lidar_merge_active.
Qed.

Lemma lidar_push_parameters_state svc :
  LidarControlService._state (LidarControlService.push_parameters svc)
  = LidarControlService._state svc.
Proof.
  unfold LidarControlService.push_parameters.
  destruct (LidarControlService._data_collector svc);
    [destruct (LidarControlService.active _)|]; reflexivity.
Qed.

Lemma lidar_start_state svc cfg now :
  lidar_start_rejects (LidarControlService._state svc) cfg = false ->
  LidarControlService._state (fst (LidarControlService.start svc cfg now))
  = LidarControlService.set_error_count 0
      (LidarControlService.set_last_started (Some (Py.millis now))
         (LidarControlService.set_status "operational"
            (LidarControlService.set_active true
               (lidar_start_config cfg (LidarControlService._state svc))))).
Proof.
  intros Hrej. rewrite lidar_start_unfold.
  assert (H : exists svc1 a,
             match cfg with
             | Some c0 =>
                 if LidarControlService.config_nonempty c0
                 then LidarControlService._apply_configuration c0 svc
                 else (svc, Exc.Return (LidarControlService.Applied None None None))
             | None => (svc, Exc.Return (LidarControlService.Applied None None None))
             end = (svc1, Exc.Return a)
             /\ LidarControlService._state svc1
                = lidar_start_config cfg (LidarControlService._state svc)).
  { unfold lidar_start_config. destruct cfg as [c0|]; [|eauto].
    unfold lidar_start_rejects in Hrej.
    destruct (LidarControlService.config_nonempty c0); [|eauto].
    destruct (lidar_first_invalid (LidarControlService._state svc) c0) eqn:Ev;
      [discriminate Hrej|].
    destruct (lidar_apply_configuration_accepts svc c0 Ev) as [a ->].
    eexists _, a. split; [reflexivity|].
    rewrite lidar_push_parameters_state. reflexivity. }
  destruct H as (svc1 & a & -> & <-).
  destruct svc1 as [s1 [st|] [col|]]; reflexivity.
Qed.

Lemma lidar_start_reconfigures svc cfg now c :
  LidarControlService.active (LidarControlService._state svc) = true ->
  LidarControlService._data_collector svc = Some c ->
  LidarDataCollector._collecting c = true ->
  LidarControlService.config_nonempty cfg = true ->
  lidar_first_invalid (LidarControlService._state svc) cfg = None ->
  exists c',
    LidarControlService._data_collector
      (fst (LidarControlService.start svc (Some cfg) now)) = Some c'
    /\ LidarDataCollector._parameters c'
       = LidarControlService.parameters_of
           (lidar_merged cfg (LidarControlService._state svc))
    /\ same_generation_loop c c'.
Proof.
  intros Ha Hc Hcol Hne Hv. rewrite lidar_start_unfold, Hne.
  destruct (lidar_apply_configuration_accepts svc cfg Hv) as [a ->].
  unfold LidarControlService.push_parameters.
  cbn [LidarControlService.with_state LidarControlService._data_collector
         LidarControlService._state].
  rewrite Hc, lidar_merged_active, Ha.
  destruct svc as [s st col]. cbn in Hc. subst col.
  exists (LidarDataCollector.update_parameters c
            (LidarControlService.parameters_of (lidar_merged cfg s))).
  cbn [LidarControlService._state LidarControlService._telemetry_streaming_service
         LidarControlService.set_data_collector LidarControlService.with_state].
  assert (Hsc : forall p q,
             LidarDataCollector.start_collection
               (LidarDataCollector.update_parameters c p) q now
             = LidarDataCollector.update_parameters c p).
  { intros p q. unfold LidarDataCollector.start_collection. cbn. now rewrite Hcol. }
  split; [|split; [reflexivity | split; reflexivity]].
  destruct st as [st|]; cbn; now rewrite Hsc.
Qed.

(** C2, as amended. [start] of the ultrasonic service on an active
    service reports [active] with [success] false and leaves the service
    as it was.  [start] of the LiDAR service on an active service starts
    no second generation loop while the collector is collecting, and
    returns the state with [active] true unless the configuration it is
    given is turned down; it sets the status to operational, stamps
    [last_started] anew and zeroes the error counter, and with no
    configuration it changes nothing else of the state.  A configuration
    it is given and accepts is applied: every field of it is merged into
    the state, and the collector that is collecting is handed the new
    parameters; the scan rate, the resolution (in lower case) and the
    bounds of the range filter that the configuration names take its
    values, and those it does not name stay. *)
Theorem start_while_active :
  (forall svc cfg now,
      UltrasonicControlService._active svc = true ->
      let out := UltrasonicControlService.start svc cfg now in
      out = (svc, UltrasonicControlService.Already_active
                    (UltrasonicControlService._config svc))
      /\ UltrasonicControlService.success (snd out) = false
      /\ UltrasonicControlService.reply_active (snd out) = true)
  /\ (forall svc cfg now c,
      LidarControlService.active (LidarControlService._state svc) = true ->
      LidarControlService._data_collector svc = Some c ->
      LidarDataCollector._collecting c = true ->
      exists c',
        LidarControlService._data_collector
          (fst (LidarControlService.start svc cfg now)) = Some c'
        /\ same_generation_loop c c')
  /\ (forall svc cfg now,
      LidarControlService.active (LidarControlService._state svc) = true ->
      lidar_start_rejects (LidarControlService._state svc) cfg = false ->
      let out := LidarControlService.start svc cfg now in
      snd out = LidarControlService.Current (LidarControlService._state (fst out))
      /\ LidarControlService.active (LidarControlService._state (fst out)) = true
      /\ LidarControlService.status (LidarControlService._state (fst out))
         = "operational"
      /\ LidarControlService.last_started (LidarControlService._state (fst out))
         = Some (Py.millis now)
      /\ LidarControlService.error_count (LidarControlService._state (fst out)) = 0%Z)
  /\ (forall svc now,
      LidarControlService.active (LidarControlService._state svc) = true ->
      LidarControlService._state (fst (LidarControlService.start svc None now))
      = LidarControlService.set_error_count 0
          (LidarControlService.set_last_started (Some (Py.millis now))
             (LidarControlService.set_status "operational"
                (LidarControlService._state svc))))
  /\ (forall svc cfg now,
      LidarControlService.active (LidarControlService._state svc) = true ->
      lidar_start_rejects (LidarControlService._state svc) cfg = false ->
      LidarControlService._state (fst (LidarControlService.start svc cfg now))
      = LidarControlService.set_error_count 0
          (LidarControlService.set_last_started (Some (Py.millis now))
             (LidarControlService.set_status "operational"
                (lidar_start_config cfg (LidarControlService._state svc)))))
  /\ (forall svc cfg now c,
      LidarControlService.active (LidarControlService._state svc) = true ->
      LidarControlService._data_collector svc = Some c ->
      LidarDataCollector._collecting c = true ->
      LidarControlService.config_nonempty cfg = true ->
      lidar_first_invalid (LidarControlService._state svc) cfg = None ->
      exists c',
        LidarControlService._data_collector
          (fst (LidarControlService.start svc (Some cfg) now)) = Some c'
        /\ LidarDataCollector._parameters c'
           = LidarControlService.parameters_of
               (lidar_merged cfg (LidarControlService._state svc))
        /\ same_generation_loop c c')
  /\ (forall svc cfg now,
      LidarControlService.active (LidarControlService._state svc) = true ->
      LidarControlService.config_nonempty cfg = true ->
      lidar_first_invalid (LidarControlService._state svc) cfg = None ->
      let before := LidarControlService._state svc in
      let after :=
        LidarControlService._state
          (fst (LidarControlService.start svc (Some cfg) now)) in
      LidarControlService.scan_rate_hz after
      = default (LidarControlService.scan_rate_hz before)
          (LidarControlService.c_scan_rate_hz cfg)
      /\ LidarControlService.resolution after
         = default (LidarControlService.resolution before)
             (Py.lower <$> LidarControlService.c_resolution cfg)
      /\ LidarControlService.range_filter after
         = match LidarControlService.c_range_filter cfg with
           | Some (LidarControlService.RangeDict mn mx) =>
               LidarDataCollector.RangeFilter (effective_min before mn)
                 (effective_max before mx)
           | _ => LidarControlService.range_filter before
           end).
Proof.
  split; [|split; [|split; [|split; [|split; [|split]]]]].
  - intros svc cfg now H out. subst out.
    unfold UltrasonicControlService.start. rewrite H. auto.
  - intros svc cfg now c _ Hc Hcol. now apply lidar_start_collector.
  - intros svc cfg now _ Hrej. now apply lidar_start_accepts.
  - intros svc now H. rewrite lidar_start_unfold.
    destruct svc as [s [st|] [col|]]; cbn in *; destruct s; cbn in *; now subst.
  - intros svc cfg now Ha Hrej. rewrite (lidar_start_state svc cfg now Hrej).
    assert (Hact : LidarControlService.active
                     (lidar_start_config cfg (LidarControlService._state svc)) = true).
    { unfold lidar_start_config.
      destruct cfg as [c0|]; [destruct (LidarControlService.config_nonempty c0)|];
        rewrite ?lidar_merged_active; exact Ha. }
    destruct (lidar_start_config cfg (LidarControlService._state svc)).
    cbn in Hact. now subst.
  - intros svc cfg now c. apply lidar_start_reconfigures.
  - intros svc cfg now _ Hne Hv before after. subst before after.
    assert (Hrej : lidar_start_rejects (LidarControlService._state svc) (Some cfg)
                   = false).
    { unfold lidar_start_rejects. now rewrite Hne, Hv. }
    rewrite (lidar_start_state svc (Some cfg) now Hrej).
    unfold lidar_start_config. rewrite Hne.
    unfold lidar_merged, lidar_merge_range_filter, lidar_merge_resolution,
      lidar_merge_scan_rate, effective_min, effective_max.
    destruct (LidarControlService._state svc).
    destruct (LidarControlService.c_range_filter cfg) as [[mn mx|]|],
      (LidarControlService.c_scan_rate_hz cfg),
      (LidarControlService.c_resolution cfg); cbn; repeat split; reflexivity.
Qed.

Lemma start_while_active_witness :
  let ultrasonic :=
    fst (UltrasonicControlService.start UltrasonicControlService.init None 100) in
  let lidar :=
    fst (LidarControlService.start
           (LidarControlService.set_data_collector LidarControlService.init
              LidarDataCollector.init) None 100) in
  let faster := LidarControlService.Config (Some 20) None None false in
  UltrasonicControlService.start ultrasonic None 200
  = (ultrasonic, UltrasonicControlService.Already_active
                   (UltrasonicControlService._config ultrasonic))
  /\ LidarControlService._state (fst (LidarControlService.start lidar None 200))
     = LidarControlService.set_error_count 0
         (LidarControlService.set_last_started (Some (Py.millis 200))
            (LidarControlService.set_status "operational"
               (LidarControlService._state lidar)))
  /\ LidarControlService._state
       (fst (LidarControlService.start lidar (Some faster) 200))
     = LidarControlService.set_error_count 0
         (LidarControlService.set_last_started (Some (Py.millis 200))
            (LidarControlService.set_status "operational"
               (lidar_start_config (Some faster) (LidarControlService._state lidar)))).
Proof.
  cbv zeta. split; [|split].
  - apply (proj1 start_while_active). reflexivity.
  - apply (proj1 (proj2 (proj2 (proj2 start_while_active)))). reflexivity.
  - apply (proj1 (proj2 (proj2 (proj2 (proj2 start_while_active))))); reflexivity.
Defined.

(** C2, the claim as stated fails: [start] of the LiDAR service on an
    active service changes the state, and applies the configuration it is
    given. *)
Lemma lidar_start_while_active_counterexample :
  let svc :=
    fst (LidarControlService.start
           (LidarControlService.set_data_collector
              (LidarControlService.set_telemetry_streaming_service
                 LidarControlService.init (LidarTelemetryStreamingService.init true))
              LidarDataCollector.init) None 100) in
  let again := LidarControlService.start svc None 200 in
  let reconfigured :=
    LidarControlService.start svc
      (Some (LidarControlService.Config (Some 20) None None false)) 200 in
  LidarControlService.active (LidarControlService._state svc) = true
  /\ LidarControlService.last_started (LidarControlService._state svc)
     = Some 100000%Z
  /\ LidarControlService.last_started (LidarControlService._state (fst again))
     = Some 200000%Z
  /\ LidarControlService.scan_rate_hz (LidarControlService._state svc) = 10
  /\ LidarControlService.scan_rate_hz (LidarControlService._state (fst reconfigured))
     = 20.
Proof.
  cbv zeta. repeat split; vm_compute; reflexivity.
Qed.

(** C3, as amended. [stop] of the ultrasonic service on a service that is
    not active returns [success] false and leaves the service as it was.
    [stop] of the LiDAR service on a service that is not active returns
    the state, which has no [success] entry, with [active] false; it
    leaves the configuration, the counters, [last_started], and a
    collector and a streaming service that are not running as they were,
    but sets the status to idle and stamps [last_stopped]. *)
Theorem stop_while_inactive :
  (forall svc now,
      UltrasonicControlService._active svc = false ->
      let out := UltrasonicControlService.stop svc now in
      out = (svc, UltrasonicControlService.Not_active)
      /\ UltrasonicControlService.success (snd out) = false)
  /\ (forall svc now,
      LidarControlService.active (LidarControlService._state svc) = false ->
      let out := LidarControlService.stop svc now in
      snd out = LidarControlService.Current (LidarControlService._state (fst out))
      /\ LidarControlService._state (fst out)
         = LidarControlService.set_last_stopped (Some (Py.millis now))
             (LidarControlService.set_status "idle" (LidarControlService._state svc))
      /\ (forall c,
          LidarControlService._data_collector svc = Some c ->
          LidarDataCollector._collecting c = false ->
          LidarControlService._data_collector (fst out) = Some c)
      /\ (forall s,
          LidarControlService._telemetry_streaming_service svc = Some s ->
          LidarTelemetryStreamingService._streaming s = false ->
          LidarControlService._telemetry_streaming_service (fst out) = Some s)).
Proof.
  split.
  - intros svc now H out. subst out.
    unfold UltrasonicControlService.stop. rewrite H. auto.
  - intros svc now H out. subst out. unfold LidarControlService.stop.
    destruct svc as [s st col]. cbn in H.
    repeat split.
    + destruct col, st; cbn; destruct s; cbn in *; now subst.
    + intros c Hc Hcol. cbn in Hc. subst col.
      cbn -[LidarDataCollector.stop_collection
            LidarTelemetryStreamingService.stop_streaming].
      unfold LidarDataCollector.stop_collection. rewrite Hcol.
      destruct st; reflexivity.
    + intros s0 Hs Hstr. cbn in Hs. subst st.
      destruct col;
        cbn -[LidarDataCollector.stop_collection
              LidarTelemetryStreamingService.stop_streaming];
        unfold LidarTelemetryStreamingService.stop_streaming; rewrite Hstr;
        reflexivity.
Qed.

Lemma stop_while_inactive_witness :
  UltrasonicControlService.stop UltrasonicControlService.init 100
  = (UltrasonicControlService.init, UltrasonicControlService.Not_active)
  /\ LidarControlService._state (fst (LidarControlService.stop LidarControlService.init 100))
     = LidarControlService.set_last_stopped (Some (Py.millis 100))
         (LidarControlService.set_status "idle"
            (LidarControlService._state LidarControlService.init)).
Proof.
  split.
  - apply (proj1 stop_while_inactive). reflexivity.
  - apply (proj2 stop_while_inactive). reflexivity.
Defined.

(** C3, the claim as stated fails: [stop] of the LiDAR service on a
    service that is not active stamps [last_stopped], and turns the status
    left by a failed start into idle. *)
Lemma lidar_stop_while_inactive_counterexample :
  let failed :=
    fst (LidarControlService.start LidarControlService.init
           (Some (LidarControlService.Config (Some 0) None None false)) 50) in
  let out := LidarControlService.stop failed 100 in
  LidarControlService.active (LidarControlService._state failed) = false
  /\ LidarControlService.status (LidarControlService._state failed) = "error"
  /\ LidarControlService.last_stopped (LidarControlService._state failed) = None
  /\ LidarControlService.status (LidarControlService._state (fst out)) = "idle"
  /\ LidarControlService.last_stopped (LidarControlService._state (fst out))
     = Some 100000%Z.
Proof.
  cbv zeta. repeat split; vm_compute; reflexivity.
Qed.

(** * Further properties *)

(** ** Thresholds of the proximity detector *)

Lemma threshold_of_insert d i j q :
  threshold_of
    (ProximityDetector.set_sensor_thresholds
       (<[i := q]> (ProximityDetector._sensor_thresholds d)) d) j
  = if decide (i = j) then q else threshold_of d j.
Proof.
  unfold threshold_of. cbn. rewrite lookup_insert.
  destruct (decide (i = j)); reflexivity.
Qed.

Lemma analyze_channel_alert_iff d i dist conf k now :
  (exists a, snd (analyze_channel d i dist conf k now) = Exc.Return (Some a))
  <-> (dist <= threshold_of d i /\ ProximityDetector._confidence_threshold d <= conf).
Proof.
  pose proof (analyze_proximity_numeric i (Py.VNum dist) (Py.VNum conf) dist conf
                k now d eq_refl eq_refl) as H.
  cbv zeta in H. unfold analyze_channel.
  destruct (Py.leb dist (threshold_of d i)) eqn:E1;
    destruct (Py.leb (ProximityDetector._confidence_threshold d) conf) eqn:E2;
    cbn [andb] in H.
  - apply leb_le in E1, E2. split; [auto|]. intros _.
    destruct H as (a & Ha & _). eauto.
  - apply leb_gt in E2. split.
    + intros [a Ha]. rewrite H in Ha. discriminate.
    + intros [_ Hle]. exfalso. exact (Qlt_not_le _ _ E2 Hle).
  - apply leb_gt in E1. split.
    + intros [a Ha]. rewrite H in Ha. discriminate.
    + intros [Hle _]. exfalso. exact (Qlt_not_le _ _ E1 Hle).
  - apply leb_gt in E1. split.
    + intros [a Ha]. rewrite H in Ha. discriminate.
    + intros [Hle _]. exfalso. exact (Qlt_not_le _ _ E1 Hle).
Qed.

(** X1. [update_sensor_threshold] takes a threshold exactly for a sensor
    from 1 to 4 and a value from 5 to 200.  A threshold it takes is the
    one the next analysis of that sensor uses, the thresholds of the other
    sensors and the duration tracking stay; a threshold it turns down
    changes nothing. *)
Theorem update_sensor_threshold_effect :
  forall d sensor_id threshold_cm,
    let out := ProximityDetector.update_sensor_threshold d sensor_id threshold_cm in
    (snd out = true
     <-> (1 <= sensor_id <= 4)%Z /\ 5 <= threshold_cm /\ threshold_cm <= 200)
    /\ (snd out = false -> fst out = d)
    /\ (snd out = true ->
        threshold_of (fst out) sensor_id = threshold_cm
        /\ (forall j, j <> sensor_id -> threshold_of (fst out) j = threshold_of d j)
        /\ ProximityDetector._alert_duration_tracking (fst out)
           = ProximityDetector._alert_duration_tracking d
        /\ ProximityDetector._confidence_threshold (fst out)
           = ProximityDetector._confidence_threshold d
        /\ forall distance confidence k now,
             (exists a,
                 snd (analyze_channel (fst out) sensor_id distance confidence k now)
                 = Exc.Return (Some a))
             <-> (distance <= threshold_cm
                  /\ ProximityDetector._confidence_threshold d <= confidence)).
Proof.
  intros d i q out. subst out. unfold ProximityDetector.update_sensor_threshold.
  destruct (Z.leb 1 i) eqn:E1; destruct (Z.leb i 4) eqn:E2;
    destruct (Py.leb 5 q) eqn:E3; destruct (Py.leb q 200) eqn:E4;
    cbn [andb fst snd];
    try (apply Z.leb_le in E1); try (apply Z.leb_gt in E1);
    try (apply Z.leb_le in E2); try (apply Z.leb_gt in E2);
    try (apply leb_le in E3); try (apply leb_gt in E3);
    try (apply leb_le in E4); try (apply leb_gt in E4);
    (split; [split; [try discriminate; intros _; repeat split; (lia || assumption)
                    | try reflexivity;
                      intros ((H1 & H2) & H3 & H4); exfalso;
                      first [lia | exact (Qlt_not_le _ _ E3 H3)
                            | exact (Qlt_not_le _ _ E4 H4)]]
            | split; [try discriminate; reflexivity | try discriminate]]).
  intros _. split; [|split; [|split; [|split]]].
  - rewrite threshold_of_insert. now destruct (decide (i = i)).
  - intros j Hj. rewrite threshold_of_insert.
    destruct (decide (i = j)); [congruence | reflexivity].
  - reflexivity.
  - reflexivity.
  - intros dist conf k now.
    pose proof (analyze_channel_alert_iff
                  (ProximityDetector.set_sensor_thresholds
                     (<[i:=q]> (ProximityDetector._sensor_thresholds d)) d)
                  i dist conf k now) as H.
    rewrite threshold_of_insert in H. destruct (decide (i = i)); [|congruence].
    exact H.
Qed.

(** X2. [update_confidence_threshold] takes a confidence exactly from 0
    to 1.  A confidence it takes is the one the next analysis compares
    with, the sensor thresholds and the duration tracking stay; a
    confidence it turns down changes nothing. *)
Theorem update_confidence_threshold_effect :
  forall d confidence,
    let out := ProximityDetector.update_confidence_threshold d confidence in
    (snd out = true <-> 0 <= confidence /\ confidence <= 1)
    /\ (snd out = false -> fst out = d)
    /\ (snd out = true ->
        ProximityDetector._confidence_threshold (fst out) = confidence
        /\ ProximityDetector._sensor_thresholds (fst out)
           = ProximityDetector._sensor_thresholds d
        /\ ProximityDetector._alert_duration_tracking (fst out)
           = ProximityDetector._alert_duration_tracking d
        /\ forall sensor_id distance c k now,
             (exists a,
                 snd (analyze_channel (fst out) sensor_id distance c k now)
                 = Exc.Return (Some a))
             <-> (distance <= threshold_of d sensor_id /\ confidence <= c)).
Proof.
  intros d q out. subst out. unfold ProximityDetector.update_confidence_threshold.
  destruct (Py.leb 0 q) eqn:E1; destruct (Py.leb q 1) eqn:E2; cbn [andb fst snd];
    try (apply leb_le in E1); try (apply leb_gt in E1);
    try (apply leb_le in E2); try (apply leb_gt in E2).
  - split; [tauto|]. split; [discriminate|]. intros _.
    split; [reflexivity|]. split; [reflexivity|]. split; [reflexivity|].
    intros i dist c k now.
    exact (analyze_channel_alert_iff
             (ProximityDetector.set_confidence_threshold q d) i dist c k now).
  - split; [|split; [reflexivity | discriminate]].
    split; [discriminate|]. intros [_ H]. exfalso. exact (Qlt_not_le _ _ E2 H).
  - split; [|split; [reflexivity | discriminate]].
    split; [discriminate|]. intros [H _]. exfalso. exact (Qlt_not_le _ _ E1 H).
  - split; [|split; [reflexivity | discriminate]].
    split; [discriminate|]. intros [H _]. exfalso. exact (Qlt_not_le _ _ E1 H).
Qed.

(** ** Counters of the detectors *)

Lemma results_returned_cons res results :
  results_returned (res :: results)
  = (results_returned [res] + results_returned results)%Z.
Proof. unfold results_returned. destruct res; cbn [List.filter length]; lia. Qed.

Lemma occupancy_process_count d tel r now :
  let o := OccupancyDetector.process_telemetry_data d tel r now in
  OccupancyDetector._detection_count (OccupancyDetector.detector o)
  = (OccupancyDetector._detection_count d
     + results_returned [OccupancyDetector.result o])%Z.
Proof.
  cbv zeta. unfold OccupancyDetector.process_telemetry_data, results_returned.
  destruct (negb _); [cbn; lia|].
  destruct (Py.values tel); [|cbn; lia].
  destruct (OccupancyDetector.analyze _ _ _ _) as [[b res]|]; cbn; lia.
Qed.

Lemma proximity_frame_count d d' :
  proximity_frame d d' ->
  ProximityDetector._detection_count d' = ProximityDetector._detection_count d.
Proof. intros ->. reflexivity. Qed.

Lemma proximity_process_count d tel r now :
  let o := ProximityDetector.process_telemetry_data d tel r now in
  ProximityDetector._detection_count (ProximityDetector.detector o)
  = (ProximityDetector._detection_count d
     + results_returned [ProximityDetector.result o])%Z.
Proof.
  cbv zeta. unfold ProximityDetector.process_telemetry_data, results_returned.
  destruct (negb _); [cbn; lia|].
  destruct (Py.values tel) as [vals|]; [|cbn; lia].
  pose proof (analyze_sensors_frame [1; 2; 3; 4]%Z vals r now [] d) as Hf.
  destruct (ProximityDetector.analyze_sensors _ _ _ _ _ _) as [d' [[|a rest]|e]];
    cbn in Hf |- *; rewrite (proximity_frame_count _ _ Hf); lia.
Qed.

Lemma occupancy_process_all_counter samples :
  forall d,
    OccupancyDetector._detection_count
      (fst (fst (OccupancyDetector.process_all d samples)))
    = (OccupancyDetector._detection_count d
       + results_returned (snd (fst (OccupancyDetector.process_all d samples))))%Z.
Proof.
  induction samples as [|[[tel r] now] samples IH]; intros d.
  - unfold results_returned. cbn. lia.
  - cbn [OccupancyDetector.process_all].
    specialize (IH (OccupancyDetector.detector
                      (OccupancyDetector.process_telemetry_data d tel r now))).
    pose proof (occupancy_process_count d tel r now) as H1. cbv zeta in H1.
    destruct (OccupancyDetector.process_all _ samples) as [[d' results] pub].
    cbn [fst snd] in *. rewrite results_returned_cons. lia.
Qed.

Lemma proximity_process_all_counter samples :
  forall d,
    ProximityDetector._detection_count
      (fst (fst (ProximityDetector.process_all d samples)))
    = (ProximityDetector._detection_count d
       + results_returned (snd (fst (ProximityDetector.process_all d samples))))%Z.
Proof.
  induction samples as [|[[tel r] now] samples IH]; intros d.
  - unfold results_returned. cbn. lia.
  - cbn [ProximityDetector.process_all].
    specialize (IH (ProximityDetector.detector
                      (ProximityDetector.process_telemetry_data d tel r now))).
    pose proof (proximity_process_count d tel r now) as H1. cbv zeta in H1.
    destruct (ProximityDetector.process_all _ samples) as [[d' results] pub].
    cbn [fst snd] in *. rewrite results_returned_cons. lia.
Qed.

Lemma occupancy_round_count d collector_reading r rf now :
  let o := OccupancyDetector.detection_loop_iteration d collector_reading r rf now in
  OccupancyDetector._detection_count (OccupancyDetector.detector o)
  = (OccupancyDetector._detection_count d
     + if OccupancyDetector._telemetry_callback d
       then results_returned [OccupancyDetector.result o] else 0)%Z
  /\ OccupancyDetector._telemetry_callback (OccupancyDetector.detector o)
     = OccupancyDetector._telemetry_callback d.
Proof.
  cbv zeta. unfold OccupancyDetector.detection_loop_iteration, results_returned.
  destruct (negb _);
    [destruct (OccupancyDetector._telemetry_callback d) eqn:E; cbn; rewrite ?E;
     split; (lia || reflexivity)|].
  destruct (OccupancyDetector._detect_occupancy _ _ _ _);
    destruct (OccupancyDetector._telemetry_callback d) eqn:E; cbn; rewrite ?E;
    split; (lia || reflexivity).
Qed.

Lemma proximity_round_count d k_temp kd kc r now later :
  let o := Ultrasonic.detection_loop_iteration d k_temp kd kc r now later in
  ProximityDetector._detection_count (ProximityDetector.detector o)
  = (ProximityDetector._detection_count d
     + results_returned [ProximityDetector.result o])%Z.
Proof.
  cbv zeta. unfold Ultrasonic.detection_loop_iteration.
  destruct (negb _); [unfold results_returned; cbn; lia|].
  apply proximity_process_count.
Qed.

Lemma occupancy_session_counter activities :
  forall d,
    let s := occupancy_session d activities in
    OccupancyDetector._detection_count (fst (fst s))
    = (OccupancyDetector._detection_count d
       + results_returned (snd (fst s))
       + if OccupancyDetector._telemetry_callback d
         then results_returned (snd s) else 0)%Z.
Proof.
  induction activities as [|[tel r now|reading r rf now] activities IH]; intros d.
  - unfold results_returned.
    destruct (OccupancyDetector._telemetry_callback d); cbn; lia.
  - cbn [occupancy_session].
    specialize (IH (OccupancyDetector.detector
                      (OccupancyDetector.process_telemetry_data d tel r now))).
    pose proof (occupancy_process_count d tel r now) as H1.
    pose proof (proj2 (occupancy_process_published d tel r now)) as H2.
    cbv zeta in IH, H1, H2. rewrite H2 in IH.
    destruct (occupancy_session _ activities) as [[d' returned] polled].
    cbn [fst snd] in *. rewrite results_returned_cons. lia.
  - cbn [occupancy_session].
    specialize (IH (OccupancyDetector.detector
                      (OccupancyDetector.detection_loop_iteration d reading r rf now))).
    pose proof (occupancy_round_count d reading r rf now) as [H1 H2].
    cbv zeta in IH. rewrite H2 in IH.
    destruct (occupancy_session _ activities) as [[d' returned] polled].
    cbn [fst snd] in *.
    destruct (OccupancyDetector._telemetry_callback d);
      [rewrite (results_returned_cons _ polled)|]; lia.
Qed.

Lemma proximity_session_counter activities :
  forall d,
    let s := proximity_session d activities in
    ProximityDetector._detection_count (fst (fst s))
    = (ProximityDetector._detection_count d
       + results_returned (snd (fst s)) + results_returned (snd s))%Z.
Proof.
  induction activities as [|[tel r now|k_temp kd kc r now later] activities IH];
    intros d.
  - unfold results_returned. cbn. lia.
  - cbn [proximity_session].
    specialize (IH (ProximityDetector.detector
                      (ProximityDetector.process_telemetry_data d tel r now))).
    pose proof (proximity_process_count d tel r now) as H1.
    cbv zeta in IH, H1.
    destruct (proximity_session _ activities) as [[d' returned] polled].
    cbn [fst snd] in *. rewrite results_returned_cons. lia.
  - cbn [proximity_session].
    specialize (IH (ProximityDetector.detector
                      (Ultrasonic.detection_loop_iteration d k_temp kd kc r now later))).
    pose proof (proximity_round_count d k_temp kd kc r now later) as H1.
    cbv zeta in IH, H1.
    destruct (proximity_session _ activities) as [[d' returned] polled].
    cbn [fst snd] in *. rewrite (results_returned_cons _ polled). lia.
Qed.

(** X3. The detection counter of a detector advances by one for every
    sample [process_telemetry_data] returns a result for, and by nothing
    for a sample it returns none for.  The loop that [start_detection]
    launches counts too.  A round of the proximity detector's loop is a
    [process_telemetry_data] call on the sample the round draws, and
    counts as such.  A round of the occupancy detector's loop calls no
    [process_telemetry_data]: it adds one whenever [_detect_occupancy]
    gives it a result and a callback is installed, occupied or not, and
    nothing without a callback.  So over the samples handed in and the
    rounds of the loop, in whatever order, the counter grows by the
    number of results returned plus the number of rounds counted, and
    after a [start_detection] that took effect it is that sum. *)
Theorem detection_count_counts_results :
  (forall d samples,
      OccupancyDetector._detection_count
        (fst (fst (OccupancyDetector.process_all d samples)))
      = (OccupancyDetector._detection_count d
         + results_returned (snd (fst (OccupancyDetector.process_all d samples))))%Z)
  /\ (forall d samples,
      ProximityDetector._detection_count
        (fst (fst (ProximityDetector.process_all d samples)))
      = (ProximityDetector._detection_count d
         + results_returned (snd (fst (ProximityDetector.process_all d samples))))%Z)
  /\ (forall d collector_reading r rf now,
      let o :=
        OccupancyDetector.detection_loop_iteration d collector_reading r rf now in
      OccupancyDetector._detection_count (OccupancyDetector.detector o)
      = (OccupancyDetector._detection_count d
         + if OccupancyDetector._telemetry_callback d
           then results_returned [OccupancyDetector.result o] else 0)%Z)
  /\ (forall d k_temp kd kc r now later,
      let o := Ultrasonic.detection_loop_iteration d k_temp kd kc r now later in
      ProximityDetector._detection_count (ProximityDetector.detector o)
      = (ProximityDetector._detection_count d
         + results_returned [ProximityDetector.result o])%Z)
  /\ (forall d activities,
      let s := occupancy_session d activities in
      OccupancyDetector._detection_count (fst (fst s))
      = (OccupancyDetector._detection_count d
         + results_returned (snd (fst s))
         + if OccupancyDetector._telemetry_callback d
           then results_returned (snd s) else 0)%Z)
  /\ (forall d activities,
      let s := proximity_session d activities in
      ProximityDetector._detection_count (fst (fst s))
      = (ProximityDetector._detection_count d
         + results_returned (snd (fst s)) + results_returned (snd s))%Z)
  /\ (forall d now activities,
      OccupancyDetector._detecting d = false ->
      let s :=
        occupancy_session (fst (OccupancyDetector.start_detection d now)) activities in
      OccupancyDetector._detection_count (fst (fst s))
      = (results_returned (snd (fst s))
         + if OccupancyDetector._telemetry_callback d
           then results_returned (snd s) else 0)%Z)
  /\ (forall d now activities,
      ProximityDetector._detecting d = false ->
      let s :=
        proximity_session (fst (ProximityDetector.start_detection d now)) activities in
      ProximityDetector._detection_count (fst (fst s))
      = (results_returned (snd (fst s)) + results_returned (snd s))%Z).
Proof.
  repeat match goal with |- _ /\ _ => split end.
  - intros d samples. apply occupancy_process_all_counter.
  - intros d samples. apply proximity_process_all_counter.
  - intros d reading r rf now. apply occupancy_round_count.
  - intros d k_temp kd kc r now later. apply proximity_round_count.
  - intros d activities. apply occupancy_session_counter.
  - intros d activities. apply proximity_session_counter.
  - intros d now activities Hd s. subst s.
    rewrite occupancy_session_counter.
    unfold OccupancyDetector.start_detection. rewrite Hd. cbn [fst].
    cbn [OccupancyDetector._detection_count OccupancyDetector._telemetry_callback].
    lia.
  - intros d now activities Hd s. subst s.
    rewrite proximity_session_counter.
    unfold ProximityDetector.start_detection. rewrite Hd. cbn [fst].
    cbn [ProximityDetector._detection_count]. lia.
Qed.

(** ** Readings that are not numbers *)

Lemma analyze_proximity_raises i dv cv k now d :
  Py.as_num cv = None ->
  exists e, snd (ProximityDetector._analyze_proximity i dv cv k now d) = Exc.Raise e.
Proof.
  intros Hc. unfold ProximityDetector._analyze_proximity, ProximityDetector.number,
    Exc.bind, Exc.raise.
  rewrite Hc. cbn. eauto.
Qed.

Lemma analyze_sensors_raises ids vals r now i :
  In i ids ->
  Py.as_num (ProximityDetector.confidence_of vals i) = None ->
  forall acc d,
  exists e, snd (ProximityDetector.analyze_sensors ids vals r now acc d) = Exc.Raise e.
Proof.
  intros Hin Hc. induction ids as [|j ids IH]; [destruct Hin|].
  intros acc d. cbn [ProximityDetector.analyze_sensors]. unfold Exc.bind at 1.
  destruct (ProximityDetector._analyze_proximity j _ _ _ _ d) as [d1 [a|e]] eqn:E.
  - destruct Hin as [->|Hin].
    + destruct (analyze_proximity_raises i (ProximityDetector.distance_of vals i)
                  _ (r i) now d Hc) as [e He].
      rewrite E in He. discriminate.
    + apply (IH Hin).
  - cbn. eauto.
Qed.

(** X4. A sample in which the confidence of one of the four channels is
    a text instead of a number makes [process_telemetry_data] return
    nothing, whatever the other channels read: the comparison raises,
    the method catches the exception, nothing is handed to the callback
    and the detection counter stays.  Thresholds and flags stay as well;
    only the duration tracking may have been touched by the channels
    analysed before the exception. *)
Theorem text_confidence_voids_sample :
  forall d tel vals r now i text,
    ProximityDetector._detecting d = true ->
    Py.values tel = Some vals ->
    In i [1; 2; 3; 4]%Z ->
    vals !! ProximityDetector.confidence_key i = Some (Py.VStr text) ->
    let o := ProximityDetector.process_telemetry_data d tel r now in
    ProximityDetector.result o = None
    /\ ProximityDetector.published o = []
    /\ ProximityDetector._detection_count (ProximityDetector.detector o)
       = ProximityDetector._detection_count d
    /\ proximity_frame d (ProximityDetector.detector o).
Proof.
  intros d tel vals r now i text Hd Hv Hi Hc o. subst o.
  unfold ProximityDetector.process_telemetry_data. rewrite Hd, Hv. cbn [negb].
  assert (Hn : Py.as_num (ProximityDetector.confidence_of vals i) = None).
  { unfold ProximityDetector.confidence_of. rewrite Hc. reflexivity. }
  destruct (analyze_sensors_raises [1; 2; 3; 4]%Z vals r now i Hi Hn [] d) as [e He].
  pose proof (analyze_sensors_frame [1; 2; 3; 4]%Z vals r now [] d) as Hf.
  destruct (ProximityDetector.analyze_sensors _ _ _ _ _ _) as [d' res].
  cbn [fst snd] in *. subst res. cbn.
  repeat split; [now apply proximity_frame_count | exact Hf].
Qed.

Lemma text_confidence_voids_sample_witness :
  let d := fst (ProximityDetector.start_detection (ProximityDetector.init true) 0) in
  let vals : gmap string Py.value :=
    <[ProximityDetector.confidence_key 3 := Py.VStr "n/a"]>
      (<[ProximityDetector.confidence_key 1 := Py.VNum 0.9]>
        (<[ProximityDetector.distance_key 1 := Py.VNum 40]> ∅)) in
  let o := ProximityDetector.process_telemetry_data d
             (Py.Telemetry (Some 7%Z) (Some vals)) (fun _ => 0%Z) 1 in
  ProximityDetector.result o = None
  /\ ProximityDetector.published o = []
  /\ ProximityDetector._detection_count (ProximityDetector.detector o)
     = ProximityDetector._detection_count d
  /\ proximity_frame d (ProximityDetector.detector o).
Proof.
  intros d vals.
  apply (text_confidence_voids_sample d (Py.Telemetry (Some 7%Z) (Some vals))
           vals (fun _ => 0%Z) 1 3%Z "n/a").
  - reflexivity.
  - reflexivity.
  - cbn. tauto.
  - vm_compute. reflexivity.
Defined.

(** ** What the proximity detector maintains *)

Lemma proximity_configured_init cb : proximity_configured (ProximityDetector.init cb).
Proof.
  split; [|split; [|split]].
  - intros i. cbn. rewrite !lookup_insert_is_Some, lookup_empty.
    split.
    + intros Hs. repeat (destruct Hs as [Hs|[_ Hs]]; [lia|]).
      destruct Hs as [x Hx]. discriminate.
    + intros H.
      repeat (match goal with
              | |- ?a = i \/ _ =>
                  destruct (decide (a = i)); [now left | right; split; [assumption|]]
              end).
      exfalso. lia.
  - intros i. unfold threshold_of. cbn.
    destruct (decide (i = 4%Z)) as [->|N4]; [rewrite lookup_insert_eq; cbn; lra|].
    rewrite lookup_insert_ne by congruence.
    destruct (decide (i = 3%Z)) as [->|N3]; [rewrite lookup_insert_eq; cbn; lra|].
    rewrite lookup_insert_ne by congruence.
    destruct (decide (i = 2%Z)) as [->|N2]; [rewrite lookup_insert_eq; cbn; lra|].
    rewrite lookup_insert_ne by congruence.
    destruct (decide (i = 1%Z)) as [->|N1]; [rewrite lookup_insert_eq; cbn; lra|].
    rewrite lookup_insert_ne by congruence.
    rewrite lookup_empty. cbn. lra.
  - cbn. lra.
  - intros key start. cbn. rewrite lookup_empty. discriminate.
Qed.

Lemma analyze_proximity_tracking ids i dv cv k now d :
  In i ids ->
  (forall key start,
      ProximityDetector._alert_duration_tracking d !! key = Some start ->
      exists j, In j ids /\ key = ProximityDetector.sensor_key j) ->
  forall key start,
    ProximityDetector._alert_duration_tracking
      (fst (ProximityDetector._analyze_proximity i dv cv k now d)) !! key = Some start ->
    exists j, In j ids /\ key = ProximityDetector.sensor_key j.
Proof.
  intros Hi H key start.
  unfold ProximityDetector._analyze_proximity, ProximityDetector.number,
    Exc.bind, Exc.get, Exc.ret, Exc.raise, Exc.modify.
  destruct (Py.as_num cv) as [conf|]; cbn; [|apply H].
  destruct (Py.ltb conf _); cbn; [apply H|].
  destruct (Py.as_num dv) as [dist|]; cbn; [|apply H].
  destruct (Py.leb dist _); cbn;
    destruct (ProximityDetector._alert_duration_tracking d !! _) eqn:E; cbn;
    try apply H.
  - rewrite lookup_insert_Some. intros [[<- _]|[_ Hk]]; [eauto | eapply H; eauto].
  - rewrite lookup_delete_Some. intros [_ Hk]. eapply H; eauto.
Qed.

Lemma analyze_sensors_tracking ids0 ids vals r now :
  (forall i, In i ids -> In i ids0) ->
  forall acc d,
    (forall key start,
        ProximityDetector._alert_duration_tracking d !! key = Some start ->
        exists j, In j ids0 /\ key = ProximityDetector.sensor_key j) ->
    forall key start,
      ProximityDetector._alert_duration_tracking
        (fst (ProximityDetector.analyze_sensors ids vals r now acc d)) !! key
      = Some start ->
      exists j, In j ids0 /\ key = ProximityDetector.sensor_key j.
Proof.
  induction ids as [|i ids IH]; intros Hsub acc d H; [exact H|].
  cbn [ProximityDetector.analyze_sensors]. unfold Exc.bind at 1.
  pose proof (analyze_proximity_tracking ids0 i
                (ProximityDetector.distance_of vals i)
                (ProximityDetector.confidence_of vals i) (r i) now d
                (Hsub i (or_introl eq_refl)) H) as H1.
  destruct (ProximityDetector._analyze_proximity i _ _ _ _ d) as [d1 [a|e]];
    cbn [fst] in *.
  - apply IH; [intros j Hj; apply Hsub; now right | exact H1].
  - exact H1.
Qed.

Lemma proximity_configured_frame d d' :
  proximity_configured d ->
  proximity_frame d d' ->
  (forall key start,
      ProximityDetector._alert_duration_tracking d' !! key = Some start ->
      exists j, In j [1; 2; 3; 4]%Z /\ key = ProximityDetector.sensor_key j) ->
  proximity_configured d'.
Proof.
  intros (H1 & H2 & H3 & _) Hf H4.
  split; [|split; [|split]].
  - intros i. rewrite Hf. cbn. apply H1.
  - intros i. rewrite (proximity_frame_threshold _ _ i Hf). apply H2.
  - rewrite (proximity_frame_confidence _ _ Hf). exact H3.
  - exact H4.
Qed.

Lemma proximity_configured_count n d :
  proximity_configured d ->
  proximity_configured (ProximityDetector.set_detection_count n d).
Proof. intros H. exact H. Qed.

Lemma proximity_configured_step d ev :
  proximity_configured d -> proximity_configured (proximity_step d ev).
Proof.
  intros H. pose proof H as (H1 & H2 & H3 & H4).
  destruct ev as [now| |i q|q|tel r now]; cbn [proximity_step].
  - unfold ProximityDetector.start_detection.
    destruct (ProximityDetector._detecting d); cbn [fst]; [exact H|].
    split; [|split; [|split]]; [exact H1 | exact H2 | exact H3 |].
    intros key start. cbn. rewrite lookup_empty. discriminate.
  - unfold ProximityDetector.stop_detection.
    destruct (negb _); cbn [fst]; [exact H|].
    split; [|split; [|split]]; [exact H1 | exact H2 | exact H3 | exact H4].
  - unfold ProximityDetector.update_sensor_threshold.
    destruct (Z.leb 1 i) eqn:E1; cbn [andb fst]; [|exact H].
    destruct (Z.leb i 4) eqn:E2; cbn [andb fst]; [|exact H].
    destruct (Py.leb 5 q) eqn:E3; cbn [andb fst]; [|exact H].
    destruct (Py.leb q 200) eqn:E4; cbn [andb fst]; [|exact H].
    apply Z.leb_le in E1, E2. apply leb_le in E3, E4.
    split; [|split; [|split]]; [| | exact H3 | exact H4].
    + intros j. cbn. rewrite lookup_insert_is_Some.
      split.
      * intros [<-|[_ Hj]]; [lia | now apply H1].
      * intros Hj. destruct (decide (i = j)); [now left|].
        right. split; [assumption | now apply H1].
    + intros j. rewrite threshold_of_insert.
      destruct (decide (i = j)); [split; assumption | apply H2].
  - unfold ProximityDetector.update_confidence_threshold.
    destruct (Py.leb 0 q) eqn:E1; cbn [andb fst]; [|exact H].
    destruct (Py.leb q 1) eqn:E2; cbn [andb fst]; [|exact H].
    apply leb_le in E1, E2.
    split; [|split; [|split]]; [exact H1 | exact H2 | | exact H4].
    cbn. split; assumption.
  - unfold ProximityDetector.process_telemetry_data.
    destruct (negb _); cbn [ProximityDetector.detector]; [exact H|].
    destruct (Py.values tel) as [vals|]; cbn [ProximityDetector.detector]; [|exact H].
    pose proof (analyze_sensors_frame [1; 2; 3; 4]%Z vals r now [] d) as Hf.
    pose proof (analyze_sensors_tracking [1; 2; 3; 4]%Z [1; 2; 3; 4]%Z vals r now
                  (fun i Hi => Hi) [] d H4) as Ht.
    destruct (ProximityDetector.analyze_sensors _ _ _ _ _ _) as [d' [[|a rest]|e]];
      cbn [fst ProximityDetector.detector] in *;
      try apply proximity_configured_count;
      exact (proximity_configured_frame d d' H Hf Ht).
Qed.

Lemma proximity_configured_fold events :
  forall d, proximity_configured d ->
            proximity_configured (fold_left proximity_step events d).
Proof.
  induction events as [|ev events IH]; intros d H; [exact H|].
  cbn [fold_left]. apply IH. now apply proximity_configured_step.
Qed.

(** X5. Whatever calls are made on a proximity detector ([start_detection],
    [stop_detection], the two update methods, [process_telemetry_data]),
    every sensor id handed to [update_sensor_threshold] being an integer
    as its signature asks ([sensor_id: int]), with whatever thresholds,
    confidences and samples: its thresholds dict holds exactly the
    sensors 1 to 4, every threshold lies from 5 to 200 cm, the confidence
    threshold lies from 0 to 1, and the duration tracking has entries
    for these four sensors only.  Sensor ids that are not integers are
    outside this statement: the range test of [update_sensor_threshold]
    is on the number alone, so an id such as 2.5 passes it and gets a
    key of its own. *)
Theorem proximity_detector_stays_configured :
  forall telemetry_callback events,
    proximity_configured (proximity_run telemetry_callback events).
Proof.
  intros cb events. unfold proximity_run.
  apply proximity_configured_fold, proximity_configured_init.
Qed.

(** ** Alerts come from readings *)

Lemma analyze_proximity_alert_sound i dv cv k now d a :
  snd (ProximityDetector._analyze_proximity i dv cv k now d) = Exc.Return (Some a) ->
  ProximityDetector.sensor_id a = i
  /\ Py.as_num dv = Some (ProximityDetector.distance_cm a)
  /\ ProximityDetector.distance_cm a <= threshold_of d i.
Proof.
  unfold ProximityDetector._analyze_proximity, ProximityDetector.number,
    Exc.bind, Exc.get, Exc.ret, Exc.raise, Exc.modify, threshold_of.
  destruct (Py.as_num cv) as [conf|]; cbn; [|discriminate].
  destruct (Py.ltb conf _); cbn; [discriminate|].
  destruct (Py.as_num dv) as [dist|]; cbn; [|discriminate].
  destruct (Py.leb dist _) eqn:E; cbn;
    destruct (ProximityDetector._alert_duration_tracking d !! _); cbn;
    try discriminate;
    intros [= <-]; cbn; apply leb_le in E; auto.
Qed.

Lemma analyze_sensors_sound ids vals r now :
  forall acc d l,
    snd (ProximityDetector.analyze_sensors ids vals r now acc d) = Exc.Return l ->
    exists new,
      l = (acc ++ new)%list
      /\ Forall (fun a =>
                   In (ProximityDetector.sensor_id a) ids
                   /\ Py.as_num (ProximityDetector.distance_of vals
                                   (ProximityDetector.sensor_id a))
                      = Some (ProximityDetector.distance_cm a)
                   /\ ProximityDetector.distance_cm a
                      <= threshold_of d (ProximityDetector.sensor_id a)) new.
Proof.
  induction ids as [|i ids IH]; intros acc d l.
  - cbn. intros [= <-]. exists []. rewrite app_nil_r. auto.
  - cbn [ProximityDetector.analyze_sensors]. unfold Exc.bind at 1.
    pose proof (analyze_proximity_alert_sound i
                  (ProximityDetector.distance_of vals i)
                  (ProximityDetector.confidence_of vals i) (r i) now d) as H1.
    pose proof (analyze_proximity_frame i (ProximityDetector.distance_of vals i)
                  (ProximityDetector.confidence_of vals i) (r i) now d) as Hf.
    destruct (ProximityDetector._analyze_proximity i _ _ _ _ d) as [d1 [oa|e]];
      cbn [fst snd] in *; [|discriminate].
    intros Hl. apply IH in Hl. destruct Hl as (new & -> & Hall).
    assert (Hall' :
              Forall (fun a =>
                   In (ProximityDetector.sensor_id a) (i :: ids)
                   /\ Py.as_num (ProximityDetector.distance_of vals
                                   (ProximityDetector.sensor_id a))
                      = Some (ProximityDetector.distance_cm a)
                   /\ ProximityDetector.distance_cm a
                      <= threshold_of d (ProximityDetector.sensor_id a)) new).
    { eapply List.Forall_impl; [|exact Hall]. cbn beta.
      intros a (Ha1 & Ha2 & Ha3). split; [now right|]. split; [exact Ha2|].
      now rewrite <- (proximity_frame_threshold _ _ _ Hf). }
    destruct oa as [a|].
    + exists (a :: new). rewrite <- app_assoc. split; [reflexivity|].
      constructor; [|exact Hall'].
      destruct (H1 a eq_refl) as (Hid & Hnum & Hle).
      rewrite Hid. split; [now left|]. split; assumption.
    + exists new. split; [reflexivity | exact Hall'].
Qed.

Lemma proximity_result_sound d tel r now res :
  ProximityDetector.result (ProximityDetector.process_telemetry_data d tel r now)
  = Some res ->
  exists vals i dist,
    Py.values tel = Some vals
    /\ In i [1; 2; 3; 4]%Z
    /\ Py.as_num (ProximityDetector.distance_of vals i) = Some dist
    /\ dist <= threshold_of d i.
Proof.
  unfold ProximityDetector.process_telemetry_data.
  destruct (negb _); [discriminate|].
  destruct (Py.values tel) as [vals|]; [|discriminate].
  pose proof (analyze_sensors_sound [1; 2; 3; 4]%Z vals r now [] d) as Hs.
  destruct (ProximityDetector.analyze_sensors _ _ _ _ _ _) as [d' [[|a rest]|e]];
    cbn [snd ProximityDetector.result] in *; try discriminate.
  intros _. destruct (Hs _ eq_refl) as (new & Hnew & Hall).
  cbn [app] in Hnew. subst new. inversion Hall as [|? ? (Ha1 & Ha2 & Ha3) _]; subst.
  exists vals, (ProximityDetector.sensor_id a), (ProximityDetector.distance_cm a).
  auto.
Qed.

(** X6. No call sequence brings a proximity detector to alert on a sample
    without a distance reading of at most 200 cm: when every distance of
    the four channels that is a number lies above 200 (and a channel
    whose distance is missing counts as 999), [process_telemetry_data]
    returns nothing and hands nothing to the callback. *)
Theorem no_alert_beyond_largest_threshold :
  forall telemetry_callback events tel vals r now,
    Py.values tel = Some vals ->
    (forall i distance,
        In i [1; 2; 3; 4]%Z ->
        Py.as_num (ProximityDetector.distance_of vals i) = Some distance ->
        200 < distance) ->
    let o :=
      ProximityDetector.process_telemetry_data
        (proximity_run telemetry_callback events) tel r now in
    ProximityDetector.result o = None /\ ProximityDetector.published o = [].
Proof.
  intros cb events tel vals r now Hv Hfar o.
  assert (Hres : ProximityDetector.result o = None).
  { destruct (ProximityDetector.result o) as [res|] eqn:E; [|reflexivity].
    exfalso. apply proximity_result_sound in E.
    destruct E as (vals' & i & dist & Hv' & Hi & Hnum & Hle).
    rewrite Hv in Hv'. injection Hv' as <-.
    pose proof (Hfar i dist Hi Hnum) as Hgt.
    destruct (proximity_configured_fold events _ (proximity_configured_init cb))
      as (_ & H2 & _).
    destruct (H2 i) as [_ Hup]. fold (proximity_run cb events) in Hup.
    apply (Qlt_irrefl 200). eapply Qlt_le_trans; [exact Hgt|].
    eapply Qle_trans; [exact Hle | exact Hup]. }
  split; [exact Hres|].
  destruct (proximity_process_published (proximity_run cb events) tel r now)
    as [Hp _]. cbv zeta in Hp. fold o in Hp. rewrite Hp, Hres. cbn.
  now rewrite andb_false_r.
Qed.

Lemma no_alert_beyond_largest_threshold_witness :
  let events :=
    [Update_sensor_threshold 2 200; Update_confidence_threshold 0;
     Start_detection 0] in
  let vals : gmap string Py.value :=
    <[ProximityDetector.confidence_key 2 := Py.VNum 1]>
      (<[ProximityDetector.distance_key 2 := Py.VNum 200.5]> ∅) in
  let o :=
    ProximityDetector.process_telemetry_data (proximity_run true events)
      (Py.Telemetry (Some 7%Z) (Some vals)) (fun _ => 0%Z) 1 in
  ProximityDetector.result o = None /\ ProximityDetector.published o = [].
Proof.
  intros events vals.
  apply (no_alert_beyond_largest_threshold true events
           (Py.Telemetry (Some 7%Z) (Some vals)) vals (fun _ => 0%Z) 1).
  - reflexivity.
  - intros i distance [<-|[<-|[<-|[<-|[]]]]]; vm_compute; intros [= <-]; reflexivity.
Defined.

(** ** Draws and rounding *)

Lemma uniform_bounds (a b : Q) (k : Z) :
  a <= b -> a <= Py.uniform a b k /\ Py.uniform a b k <= b.
Proof.
  intros Hab. unfold Py.uniform. destruct (random_bounds k) as [H0 H1].
  set (u := Py.random k) in *. split; nra.
Qed.

Lemma round2_bounds (x : Q) (lo hi : Z) :
  inject_Z lo <= x * 100 -> x * 100 <= inject_Z hi ->
  Qmake lo 100 <= Py.round x 2 /\ Py.round x 2 <= Qmake hi 100.
Proof.
  intros Hlo Hhi.
  change (Py.round x 2) with (Qmake (Py.round_half_even (x * 100)) 100).
  apply round_half_even_lower in Hlo. apply round_half_even_upper in Hhi.
  unfold Qle. cbn [Qnum Qden]. split; lia.
Qed.

Lemma uniform_round2 (a b : Q) (lo hi : Z) (k : Z) :
  a <= b -> inject_Z lo <= a * 100 -> b * 100 <= inject_Z hi ->
  Qmake lo 100 <= Py.round (Py.uniform a b k) 2
  /\ Py.round (Py.uniform a b k) 2 <= Qmake hi 100.
Proof.
  intros Hab Hlo Hhi. destruct (uniform_bounds a b k Hab) as [H1 H2].
  apply round2_bounds; lra.
Qed.

Lemma uniform_round1 (a b : Q) (lo hi : Z) (k : Z) :
  a <= b -> inject_Z lo <= a * 10 -> b * 10 <= inject_Z hi ->
  Qmake lo 10 <= Py.round (Py.uniform a b k) 1
  /\ Py.round (Py.uniform a b k) 1 <= Qmake hi 10.
Proof.
  intros Hab Hlo Hhi. destruct (uniform_bounds a b k Hab) as [H1 H2].
  apply round1_bounds; lra.
Qed.

Lemma clamp_bounds (lo hi x : Q) :
  lo <= hi -> lo <= Py.max lo (Py.min hi x) /\ Py.max lo (Py.min hi x) <= hi.
Proof.
  intros H. unfold Py.max, Py.min.
  destruct (Py.ltb x hi) eqn:E1.
  - apply ltb_lt in E1. destruct (Py.ltb lo x) eqn:E2.
    + apply ltb_lt in E2. split; lra.
    + split; lra.
  - destruct (Py.ltb lo hi) eqn:E2.
    + split; lra.
    + split; lra.
Qed.

Lemma int_lower (x : Q) (n : Z) : (0 <= n)%Z -> inject_Z n <= x -> (n <= Py.int x)%Z.
Proof.
  intros Hn H.
  assert (H0 : 0 <= x).
  { eapply Qle_trans; [|exact H]. unfold Qle. cbn. lia. }
  rewrite (int_nonneg x H0). apply Qfloor_resp_le in H. now rewrite Qfloor_Z in H.
Qed.

Lemma int_upper (x : Q) (n : Z) : 0 <= x -> x <= inject_Z n -> (Py.int x <= n)%Z.
Proof.
  intros H0 H. rewrite (int_nonneg x H0).
  apply Qfloor_resp_le in H. now rewrite Qfloor_Z in H.
Qed.

(** ** The results of the occupancy detector *)

(** X7. The confidence [_calculate_confidence] computes lies from 0.5 to
    0.99, whatever the point counts and the draw (also when there are
    more valid points than points, or no points at all); it computes none
    only when a count is not a number. *)
Theorem calculated_confidence_range :
  forall point_count valid_points k,
    match OccupancyDetector._calculate_confidence point_count valid_points k with
    | Some confidence => 0.5 <= confidence /\ confidence <= 0.99
    | None => Py.as_num point_count = None \/ Py.as_num valid_points = None
    end.
Proof.
  intros pc vp k.
  unfold OccupancyDetector._calculate_confidence, OccupancyDetector.data_quality.
  destruct (Py.as_num pc) as [p|]; cbn; [|now left].
  assert (Hc : forall x,
             0.5 <= Py.round (Py.max (1 # 2) (Py.min (99 # 100) x)) 2
             /\ Py.round (Py.max (1 # 2) (Py.min (99 # 100) x)) 2 <= 0.99).
  { intros x. destruct (clamp_bounds (1 # 2) (99 # 100) x ltac:(lra)) as [H1 H2].
    destruct (round2_bounds (Py.max (1 # 2) (Py.min (99 # 100) x)) 50 99
                ltac:(change (inject_Z 50) with 50; lra)
                ltac:(change (inject_Z 99) with 99; lra)) as [H3 H4].
    split.
    - eapply Qle_trans; [|exact H3]. unfold Qle. cbn. lia.
    - eapply Qle_trans; [exact H4|]. unfold Qle. cbn. lia. }
  destruct (Py.ltb 0 p); cbn; [|apply Hc].
  destruct (Py.as_num vp) as [v|]; cbn; [apply Hc | now right].
Qed.

Ltac lookup_inserted :=
  repeat (rewrite lookup_insert_ne by discriminate); apply lookup_insert_eq.

Lemma int_below (x : Q) (n : Z) : 0 <= x -> x < inject_Z n -> (Py.int x < n)%Z.
Proof.
  intros H0 H. rewrite (int_nonneg x H0).
  pose proof (Qfloor_le x) as Hf.
  rewrite Zlt_Qlt. eapply Qle_lt_trans; eassumption.
Qed.

(** X8. The details [_generate_detailed_occupancy_data] attaches to a
    detection keep to the ranges of a vehicle: height 1.4 to 2.1 m, width
    1.6 to 2.2 m, length 3.8 to 5.5 m, distance 1.5 to 8.0 m and a point
    density from 50 to 207; when no occupancy is detected these five
    entries are zero.  The flag and the confidence are reported as they
    were passed in.  No details are built only when the data quality
    cannot be computed. *)
Theorem occupancy_details_ranges :
  forall occupancy_detected confidence point_count valid_points r now,
    match OccupancyDetector._generate_detailed_occupancy_data
            occupancy_detected confidence point_count valid_points r now with
    | None => OccupancyDetector.data_quality point_count valid_points = None
    | Some details =>
        details !! "lidar.occupancy.detected" = Some (Py.VBool occupancy_detected)
        /\ details !! "lidar.occupancy.confidence" = Some (Py.VNum confidence)
        /\ exists height width length distance density,
            details !! "lidar.occupancy.object_height" = Some (Py.VNum height)
            /\ details !! "lidar.occupancy.object_width" = Some (Py.VNum width)
            /\ details !! "lidar.occupancy.object_length" = Some (Py.VNum length)
            /\ details !! "lidar.occupancy.distance_from_sensor"
               = Some (Py.VNum distance)
            /\ details !! "lidar.occupancy.point_density"
               = Some (Py.VNum (inject_Z density))
            /\ if occupancy_detected
               then 1.4 <= height /\ height <= 2.1
                    /\ 1.6 <= width /\ width <= 2.2
                    /\ 3.8 <= length /\ length <= 5.5
                    /\ 1.5 <= distance /\ distance <= 8
                    /\ (50 <= density <= 207)%Z
               else height == 0 /\ width == 0 /\ length == 0 /\ distance == 0
                    /\ density = 0%Z
    end.
Proof.
  intros b conf pc vp r now.
  unfold OccupancyDetector._generate_detailed_occupancy_data.
  destruct (OccupancyDetector.data_quality pc vp) as [dq|]; cbn [mbind option_bind];
    [|reflexivity].
  destruct b.
  - split; [lookup_inserted|]. split; [lookup_inserted|].
    eexists _, _, _, _, _.
    split; [lookup_inserted|]. split; [lookup_inserted|].
    split; [lookup_inserted|]. split; [lookup_inserted|].
    split; [lookup_inserted|].
    destruct (uniform_round2 (14 # 10) (21 # 10) 140 210 (OccupancyDetector.k_height r)
                ltac:(lra) ltac:(change (inject_Z 140) with 140; lra)
                ltac:(change (inject_Z 210) with 210; lra)) as [Hh1 Hh2].
    destruct (uniform_round2 (16 # 10) (22 # 10) 160 220 (OccupancyDetector.k_width r)
                ltac:(lra) ltac:(change (inject_Z 160) with 160; lra)
                ltac:(change (inject_Z 220) with 220; lra)) as [Hw1 Hw2].
    destruct (uniform_round2 (38 # 10) (55 # 10) 380 550 (OccupancyDetector.k_length r)
                ltac:(lra) ltac:(change (inject_Z 380) with 380; lra)
                ltac:(change (inject_Z 550) with 550; lra)) as [Hl1 Hl2].
    destruct (uniform_round1 (15 # 10) 8 15 80 (OccupancyDetector.k_distance r)
                ltac:(lra) ltac:(change (inject_Z 15) with 15; lra)
                ltac:(change (inject_Z 80) with 80; lra)) as [Hd1 Hd2].
    destruct (uniform_bounds (- 30) 30 (OccupancyDetector.k_density r) ltac:(lra))
      as [Hu1 Hu2].
    set (dist := Py.round (Py.uniform (15 # 10) 8 (OccupancyDetector.k_distance r)) 1) in *.
    set (u := Py.uniform (- 30) 30 (OccupancyDetector.k_density r)) in *.
    assert (Hd1' : 1.5 <= dist) by (eapply Qle_trans; [|exact Hd1]; unfold Qle; cbn; lia).
    assert (Hd2' : dist <= 8) by (eapply Qle_trans; [exact Hd2|]; unfold Qle; cbn; lia).
    repeat split.
    + eapply Qle_trans; [|exact Hh1]. unfold Qle. cbn. lia.
    + eapply Qle_trans; [exact Hh2|]. unfold Qle. cbn. lia.
    + eapply Qle_trans; [|exact Hw1]. unfold Qle. cbn. lia.
    + eapply Qle_trans; [exact Hw2|]. unfold Qle. cbn. lia.
    + eapply Qle_trans; [|exact Hl1]. unfold Qle. cbn. lia.
    + eapply Qle_trans; [exact Hl2|]. unfold Qle. cbn. lia.
    + exact Hd1'.
    + exact Hd2'.
    + lia.
    + assert (H0 : 0 <= 200 - dist * 15 + u) by lra.
      assert (H1 : 200 - dist * 15 + u < 208) by lra.
      pose proof (int_below (200 - dist * 15 + u) 208 H0
                    ltac:(change (inject_Z 208) with 208; lra)).
      lia.
  - split; [lookup_inserted|]. split; [lookup_inserted|].
    exists 0, 0, 0, 0, 0%Z.
    split; [lookup_inserted|]. split; [lookup_inserted|].
    split; [lookup_inserted|]. split; [lookup_inserted|].
    split; [lookup_inserted|].
    repeat split; reflexivity.
Qed.

(** ** The polling loop of the occupancy detector *)

Lemma detect_occupancy_fallback reading r rf now :
  reading = None \/ reading = Some None ->
  exists details,
    OccupancyDetector._detect_occupancy reading r rf now
    = Some (Py.Telemetry (Some (Py.millis now)) (Some details)).
Proof.
  intros [->| ->]; unfold OccupancyDetector._detect_occupancy;
    unfold OccupancyDetector._generate_detailed_occupancy_data,
      OccupancyDetector.data_quality; cbn [Py.as_num mbind option_bind];
    destruct (Py.ltb 0 _); cbn [mbind option_bind]; eauto.
Qed.

(** X9. One round of the polling loop of a running occupancy detector.
    Without a collector, or while the collector has no sample, the
    detection falls back on simulated data and always comes with a
    result.  The result is handed to the callback exactly when occupancy
    is detected.  Unlike [process_telemetry_data], the loop advances the
    detection counter and records the occupancy only when a callback is
    installed: without one the detector is left as it was. *)
Theorem occupancy_polling_round :
  forall d reading r rf now,
    OccupancyDetector._detecting d = true ->
    let o := OccupancyDetector.detection_loop_iteration d reading r rf now in
    (reading = None \/ reading = Some None ->
     is_Some (OccupancyDetector.result o))
    /\ (OccupancyDetector._telemetry_callback d = false ->
        OccupancyDetector.detector o = d /\ OccupancyDetector.published o = [])
    /\ (OccupancyDetector.result o = None ->
        OccupancyDetector.detector o = d /\ OccupancyDetector.published o = [])
    /\ (forall res,
        OccupancyDetector._telemetry_callback d = true ->
        OccupancyDetector.result o = Some res ->
        OccupancyDetector._detection_count (OccupancyDetector.detector o)
        = (OccupancyDetector._detection_count d + 1)%Z
        /\ OccupancyDetector._current_occupancy (OccupancyDetector.detector o)
           = OccupancyDetector.detected (Some res)
        /\ OccupancyDetector.published o
           = if OccupancyDetector.detected (Some res) then [res] else []).
Proof.
  intros d reading r rf now Hd o. subst o.
  unfold OccupancyDetector.detection_loop_iteration. rewrite Hd. cbn [negb].
  split; [|split; [|split]].
  - intros Hr. destruct (detect_occupancy_fallback reading r rf now Hr) as [m ->].
    destruct (OccupancyDetector._telemetry_callback d); cbn; eauto.
  - intros Hcb. rewrite Hcb.
    destruct (OccupancyDetector._detect_occupancy _ _ _ _); cbn; auto.
  - destruct (OccupancyDetector._detect_occupancy _ _ _ _); [|cbn; auto].
    destruct (OccupancyDetector._telemetry_callback d); cbn; discriminate.
  - intros res Hcb. rewrite Hcb.
    destruct (OccupancyDetector._detect_occupancy _ _ _ _) as [res'|];
      cbn -[OccupancyDetector.detected]; [|discriminate].
    intros [= ->]. auto.
Qed.

Lemma occupancy_polling_round_witness :
  let d := fst (OccupancyDetector.start_detection (OccupancyDetector.init false) 0) in
  let o :=
    OccupancyDetector.detection_loop_iteration d None
      (OccupancyDetector.Draws 0 0 0 0 0 0 0)
      (OccupancyDetector.FallbackDraws 0 0 0 0) 1 in
  is_Some (OccupancyDetector.result o)
  /\ OccupancyDetector.detector o = d
  /\ OccupancyDetector.published o = [].
Proof.
  intros d o.
  pose proof (occupancy_polling_round d None (OccupancyDetector.Draws 0 0 0 0 0 0 0)
                (OccupancyDetector.FallbackDraws 0 0 0 0) 1 eq_refl) as H.
  cbv zeta in H. fold o in H. destruct H as (H1 & H2 & _).
  split; [apply H1; now left | apply H2; reflexivity].
Defined.

(** ** The samples of the generator *)

Lemma randint_bounds (a b k : Z) :
  (a <= b)%Z -> (a <= Py.randint a b k <= b)%Z.
Proof.
  intros H. unfold Py.randint.
  pose proof (Z.mod_pos_bound k (b - a + 1) ltac:(lia)). lia.
Qed.

Lemma int_scaled (n p : Z) :
  (0 <= n)%Z -> (0 <= p)%Z ->
  Py.int (inject_Z n * Qmake p 100) = (n * p / 100)%Z.
Proof.
  intros Hn Hp. unfold Py.int, Qmult, inject_Z. cbn [Qnum Qden].
  rewrite Z.quot_div_nonneg by nia. reflexivity.
Qed.

(** The point count and the valid points of a sample. *)
Lemma generated_counts c r now :
  exists vals point_count valid_points,
    Py.values (LidarDataCollector._generate_telemetry_data c r now) = Some vals
    /\ vals !! "lidar.point_count" = Some (Py.VNum (inject_Z point_count))
    /\ vals !! "lidar.valid_points" = Some (Py.VNum (inject_Z valid_points))
    /\ (let resolution :=
          default "medium"
            (LidarDataCollector.p_resolution (LidarDataCollector._parameters c)) in
        if String.eqb resolution "high"
        then (280000 <= point_count <= 310000)%Z
        else if String.eqb resolution "low"
             then (247500 <= point_count <= 262500)%Z
             else (260000 <= point_count <= 290000)%Z)
    /\ (92 * point_count - 100 < 100 * valid_points)%Z
    /\ (100 * valid_points <= 98 * point_count)%Z.
Proof.
  unfold LidarDataCollector._generate_telemetry_data.
  set (resolution :=
         default "medium"
           (LidarDataCollector.p_resolution (LidarDataCollector._parameters c))).
  assert (Hpc : forall base variance,
             (0 <= variance)%Z -> (variance <= base)%Z ->
             let pc := Py.randint (base - variance) (base + variance)
                         (LidarDataCollector.k_point_count r) in
             let vp := Py.randint (Py.int (inject_Z pc * (92 # 100)))
                         (Py.int (inject_Z pc * (98 # 100)))
                         (LidarDataCollector.k_valid_points r) in
             (base - variance <= pc <= base + variance)%Z
             /\ (92 * pc - 100 < 100 * vp)%Z /\ (100 * vp <= 98 * pc)%Z).
  { intros base variance Hv Hb pc vp.
    pose proof (randint_bounds (base - variance) (base + variance)
                  (LidarDataCollector.k_point_count r) ltac:(lia)) as H1.
    fold pc in H1. split; [exact H1|].
    assert (H0 : (0 <= pc)%Z) by lia.
    subst vp. rewrite !int_scaled by lia.
    pose proof (randint_bounds (pc * 92 / 100) (pc * 98 / 100)
                  (LidarDataCollector.k_valid_points r)
                  ltac:(apply Z.div_le_mono; lia)) as H2.
    pose proof (Z.mul_div_le (pc * 98) 100 ltac:(lia)).
    pose proof (Z.mul_succ_div_gt (pc * 92) 100 ltac:(lia)).
    split; lia. }
  cbv zeta.
  destruct (String.eqb resolution "high"); [|destruct (String.eqb resolution "low")];
    cbn [Py.values];
    eexists _, _, _; (split; [reflexivity|]);
    (split; [lookup_inserted|]); (split; [lookup_inserted|]).
  - apply (Hpc (LidarDataCollector._base_point_count + 20000)%Z
             LidarDataCollector._point_count_variance);
      unfold LidarDataCollector._base_point_count,
        LidarDataCollector._point_count_variance; lia.
  - apply (Hpc (LidarDataCollector._base_point_count - 20000)%Z
             (LidarDataCollector._point_count_variance / 2)%Z);
      unfold LidarDataCollector._base_point_count,
        LidarDataCollector._point_count_variance;
      change (15000 / 2)%Z with 7500%Z; lia.
  - apply (Hpc LidarDataCollector._base_point_count
             LidarDataCollector._point_count_variance);
      unfold LidarDataCollector._base_point_count,
        LidarDataCollector._point_count_variance; lia.
Qed.

(** X10. Every sample of the generator reports a point count within
    the band of the configured resolution (high: 280000 to 310000, low:
    247500 to 262500, any other value or none: 260000 to 290000), and a
    number of valid points from 92 to 98 percent of the point count (the
    lower end rounded down to a whole point). *)
Theorem generated_point_counts :
  forall c r now,
    exists vals point_count valid_points,
      Py.values (LidarDataCollector._generate_telemetry_data c r now) = Some vals
      /\ vals !! "lidar.point_count" = Some (Py.VNum (inject_Z point_count))
      /\ vals !! "lidar.valid_points" = Some (Py.VNum (inject_Z valid_points))
      /\ (let resolution :=
            default "medium"
              (LidarDataCollector.p_resolution (LidarDataCollector._parameters c)) in
          if String.eqb resolution "high"
          then (280000 <= point_count <= 310000)%Z
          else if String.eqb resolution "low"
               then (247500 <= point_count <= 262500)%Z
               else (260000 <= point_count <= 290000)%Z)
      /\ (92 * point_count - 100 < 100 * valid_points)%Z
      /\ (100 * valid_points <= 98 * point_count)%Z.
Proof. intros c r now. apply generated_counts. Qed.

Lemma round_half_even_error (x : Q) :
  inject_Z (Py.round_half_even x) - (1 # 2) <= x
  /\ x <= inject_Z (Py.round_half_even x) + (1 # 2).
Proof.
  unfold Py.round_half_even.
  pose proof (Qfloor_le x) as Hlo. pose proof (Qlt_floor x) as Hhi.
  rewrite inject_Z_plus in Hhi. change (inject_Z 1) with 1 in Hhi.
  set (f := Qfloor x) in *.
  destruct (Qcompare (x - inject_Z f) (1 # 2)) eqn:E.
  - apply Qeq_alt in E.
    destruct (Z.even f); [|rewrite inject_Z_plus; change (inject_Z 1) with 1];
      split; lra.
  - apply Qlt_alt in E. split; lra.
  - apply Qgt_alt in E. rewrite inject_Z_plus. change (inject_Z 1) with 1.
    split; lra.
Qed.

Lemma round1_error (x : Q) :
  Py.round x 1 - (5 # 100) <= x /\ x <= Py.round x 1 + (5 # 100).
Proof.
  change (Py.round x 1) with (Qmake (Py.round_half_even (x * 10)) 10).
  destruct (round_half_even_error (x * 10)) as [H1 H2].
  set (n := Py.round_half_even (x * 10)) in *.
  assert (E : Qmake n 10 * 10 == inject_Z n).
  { unfold Qeq, Qmult, inject_Z. cbn. lia. }
  set (y := Qmake n 10) in *. set (m := inject_Z n) in *. split; lra.
Qed.

Lemma round2_error (x : Q) :
  Py.round x 2 - (5 # 1000) <= x /\ x <= Py.round x 2 + (5 # 1000).
Proof.
  change (Py.round x 2) with (Qmake (Py.round_half_even (x * 100)) 100).
  destruct (round_half_even_error (x * 100)) as [H1 H2].
  set (n := Py.round_half_even (x * 100)) in *.
  assert (E : Qmake n 100 * 100 == inject_Z n).
  { unfold Qeq, Qmult, inject_Z. cbn. lia. }
  set (y := Qmake n 100) in *. set (m := inject_Z n) in *. split; lra.
Qed.

Lemma min_upper_left (a b : Q) : Py.min a b <= a.
Proof. destruct (min_cases a b) as [[-> _]|[-> H]]; lra. Qed.

Lemma min_upper_right (a b : Q) : Py.min a b <= b.
Proof. destruct (min_cases a b) as [[-> H]|[-> _]]; lra. Qed.

Lemma generated_max_range_any rf k :
  LidarDataCollector.generated_max_range rf k <= LidarDataCollector.max_range_m rf
  /\ (0 <= LidarDataCollector.max_range_m rf ->
      LidarDataCollector.max_range_m rf - 1
      <= LidarDataCollector.generated_max_range rf k
      /\ LidarDataCollector.max_range_m rf * (95 # 100)
         <= LidarDataCollector.generated_max_range rf k).
Proof.
  unfold LidarDataCollector.generated_max_range.
  set (mx := LidarDataCollector.max_range_m rf).
  split; [apply min_upper_right|].
  intros H0.
  pose proof (min_upper_left 1 (mx * (5 # 100))) as Hv1.
  pose proof (min_upper_right 1 (mx * (5 # 100))) as Hv2.
  assert (Hv0 : 0 <= Py.min 1 (mx * (5 # 100))).
  { destruct (min_cases 1 (mx * (5 # 100))) as [[-> _]|[-> _]]; lra. }
  set (v := Py.min 1 (mx * (5 # 100))) in *.
  destruct (uniform_bounds (- v) 0 k ltac:(lra)) as [Hu1 Hu2].
  set (u := Py.uniform (- v) 0 k) in *.
  destruct (min_cases (mx + u) mx) as [[-> _]|[-> _]]; split; lra.
Qed.

Lemma generated_min_range_any rf k :
  LidarDataCollector.min_range_m rf <= LidarDataCollector.generated_min_range rf k
  /\ (0 <= LidarDataCollector.min_range_m rf ->
      LidarDataCollector.generated_min_range rf k
      <= LidarDataCollector.min_range_m rf + (5 # 100)
      /\ LidarDataCollector.generated_min_range rf k
         <= LidarDataCollector.min_range_m rf * (11 # 10)).
Proof.
  split; [apply generated_min_range_bounds|].
  unfold LidarDataCollector.generated_min_range.
  set (mn := LidarDataCollector.min_range_m rf).
  intros H0.
  pose proof (min_upper_left (5 # 100) (mn * (1 # 10))) as Hv1.
  pose proof (min_upper_right (5 # 100) (mn * (1 # 10))) as Hv2.
  assert (Hv0 : 0 <= Py.min (5 # 100) (mn * (1 # 10))).
  { destruct (min_cases (5 # 100) (mn * (1 # 10))) as [[-> _]|[-> _]]; lra. }
  set (v := Py.min (5 # 100) (mn * (1 # 10))) in *.
  destruct (uniform_bounds 0 v k Hv0) as [Hu1 Hu2].
  set (u := Py.uniform 0 v k) in *.
  unfold Py.max. destruct (Py.ltb (mn + u) mn); split; lra.
Qed.

(** X11. Whatever range filter the collector holds, the ranges it
    generates keep to it: the max range never exceeds the configured
    maximum and the min range never falls below the configured minimum.
    For bounds that are not negative the max range stays within 1 m and
    within 5 percent of the maximum, the min range within 0.05 m and
    within 10 percent of the minimum.  The values a sample reports are
    these ranges rounded to one and to two decimals, so they pass the
    limits by at most 0.05 and 0.005. *)
Theorem generated_ranges_respect_filter :
  forall c r now,
    let rf := default LidarDataCollector.default_range_filter
                (LidarDataCollector.p_range_filter (LidarDataCollector._parameters c)) in
    let max_range :=
      LidarDataCollector.generated_max_range rf (LidarDataCollector.k_max_range r) in
    let min_range :=
      LidarDataCollector.generated_min_range rf (LidarDataCollector.k_min_range r) in
    (exists vals reported_max reported_min,
        Py.values (LidarDataCollector._generate_telemetry_data c r now) = Some vals
        /\ vals !! "lidar.max_range" = Some (Py.VNum reported_max)
        /\ vals !! "lidar.min_range" = Some (Py.VNum reported_min)
        /\ reported_max = Py.round max_range 1
        /\ reported_min = Py.round min_range 2
        /\ reported_max <= LidarDataCollector.max_range_m rf + 0.05
        /\ LidarDataCollector.min_range_m rf - 0.005 <= reported_min)
    /\ max_range <= LidarDataCollector.max_range_m rf
    /\ LidarDataCollector.min_range_m rf <= min_range
    /\ (0 <= LidarDataCollector.max_range_m rf ->
        LidarDataCollector.max_range_m rf - 1 <= max_range
        /\ LidarDataCollector.max_range_m rf * 0.95 <= max_range)
    /\ (0 <= LidarDataCollector.min_range_m rf ->
        min_range <= LidarDataCollector.min_range_m rf + 0.05
        /\ min_range <= LidarDataCollector.min_range_m rf * 1.1).
Proof.
  intros c r now rf max_range min_range.
  destruct (generated_max_range_any rf (LidarDataCollector.k_max_range r)) as [Hx1 Hx2].
  destruct (generated_min_range_any rf (LidarDataCollector.k_min_range r)) as [Hn1 Hn2].
  fold max_range in Hx1, Hx2. fold min_range in Hn1, Hn2.
  split; [|split; [exact Hx1|split; [exact Hn1|split]]].
  - unfold LidarDataCollector._generate_telemetry_data. fold rf.
    destruct (if String.eqb _ "high" then _ else _) as [base_points variance].
    cbn [Py.values]. fold max_range min_range.
    eexists _, _, _. split; [reflexivity|].
    split; [lookup_inserted|]. split; [lookup_inserted|].
    split; [reflexivity|]. split; [reflexivity|].
    destruct (round1_error max_range) as [H1 _].
    destruct (round2_error min_range) as [_ H2].
    split; lra.
  - intros H0. destruct (Hx2 H0) as [H1 H2]. split; [exact H1|].
    eapply Qle_trans; [|exact H2]. lra.
  - intros H0. destruct (Hn2 H0) as [H1 H2]. split; [lra|].
    eapply Qle_trans; [exact H2|]. lra.
Qed.

(** ** The session file *)

Lemma save_keeps_detector c telemetry_data :
  LidarDataCollector._occupancy_detector
    (LidarDataCollector._save_telemetry_to_file c telemetry_data)
  = LidarDataCollector._occupancy_detector c.
Proof.
  unfold LidarDataCollector._save_telemetry_to_file.
  destruct (LidarDataCollector._file_path c); reflexivity.
Qed.

Lemma session_logged_step c ev :
  session_logged c -> session_logged (collector_step c ev).
Proof.
  intros H. destruct ev as [params now| |params|d|r rd now]; cbn [collector_step].
  - unfold LidarDataCollector.start_collection.
    destruct (LidarDataCollector._collecting c) eqn:Ec; [exact H|].
    split; cbn; [eauto|].
    exists (LidarDataCollector._telemetry_entries c), [].
    rewrite lookup_insert_eq, app_nil_r. auto.
  - unfold LidarDataCollector.stop_collection.
    destruct (LidarDataCollector._collecting c) eqn:Ec; cbn [negb]; [|exact H].
    destruct H as [H1 H2]. split; [discriminate | exact H2].
  - exact H.
  - exact H.
  - unfold LidarDataCollector.collection_tick.
    destruct (LidarDataCollector._collecting c) eqn:Ec; cbn [negb fst]; [|exact H].
    destruct H as [H1 H2].
    destruct (H1 Ec) as [path Hp]. rewrite Hp in H2.
    destruct H2 as (earlier & session & Hs & He).
    set (telemetry_data := LidarDataCollector._generate_telemetry_data c r now).
    assert (Hc2 :
              session_logged
                (LidarDataCollector._save_telemetry_to_file
                   {| LidarDataCollector._collecting := LidarDataCollector._collecting c;
                      LidarDataCollector._parameters := LidarDataCollector._parameters c;
                      LidarDataCollector._collection_thread :=
                        LidarDataCollector._collection_thread c;
                      LidarDataCollector._current_telemetry := Some telemetry_data;
                      LidarDataCollector._file_path := LidarDataCollector._file_path c;
                      LidarDataCollector._telemetry_entries :=
                        (LidarDataCollector._telemetry_entries c ++ [telemetry_data])%list;
                      LidarDataCollector._start_epoch := LidarDataCollector._start_epoch c;
                      LidarDataCollector._occupancy_detector :=
                        LidarDataCollector._occupancy_detector c;
                      LidarDataCollector.files := LidarDataCollector.files c |}
                   telemetry_data)).
    { unfold LidarDataCollector._save_telemetry_to_file. cbn. rewrite Hp. cbn.
      split; [eauto|]. cbn.
      exists earlier, (session ++ [telemetry_data])%list.
      rewrite lookup_insert_eq, Hs, He, app_assoc. auto. }
    rewrite Ec in Hc2.
    rewrite save_keeps_detector. cbn [LidarDataCollector._occupancy_detector].
    destruct (LidarDataCollector._occupancy_detector c) as [d|]; cbn [fst]; exact Hc2.
Qed.

(** X12. Whatever calls are made on a collector and however often its
    loop runs, the session file keeps up with the samples: a collector
    that is collecting has a session file, the array in the file is the
    tail of the collector's list of entries (the list is never cleared,
    the file starts empty with every session), and every sample a loop
    iteration generates is appended to both. *)
Theorem session_file_follows_entries :
  (forall events, session_logged (collector_run events))
  /\ (forall events r rd now,
      let c := collector_run events in
      let c' := fst (LidarDataCollector.collection_tick c r rd now) in
      LidarDataCollector._collecting c = true ->
      exists path session,
        LidarDataCollector._file_path c = Some path
        /\ LidarDataCollector._file_path c' = Some path
        /\ LidarDataCollector.files c !! path = Some session
        /\ LidarDataCollector.files c' !! path
           = Some (session ++ [LidarDataCollector._generate_telemetry_data c r now])%list
        /\ LidarDataCollector._telemetry_entries c'
           = (LidarDataCollector._telemetry_entries c
              ++ [LidarDataCollector._generate_telemetry_data c r now])%list).
Proof.
  assert (Hrun : forall events, session_logged (collector_run events)).
  { intros events. unfold collector_run.
    assert (H : session_logged LidarDataCollector.init)
      by (split; [discriminate | reflexivity]).
    revert H. generalize LidarDataCollector.init.
    induction events as [|ev events IH]; intros c H; [exact H|].
    cbn [fold_left]. apply IH, session_logged_step, H. }
  split; [exact Hrun|].
  intros events r rd now c c' Hc. destruct (Hrun events) as [H1 H2]. fold c in H1, H2.
  destruct (H1 Hc) as [path Hp]. rewrite Hp in H2.
  destruct H2 as (earlier & session & Hs & He).
  exists path, session. subst c'. unfold LidarDataCollector.collection_tick.
  rewrite Hc. cbn [negb].
  unfold LidarDataCollector._save_telemetry_to_file. cbn. rewrite Hp. cbn.
  destruct (LidarDataCollector._occupancy_detector c); cbn;
    rewrite lookup_insert_eq, Hs; auto.
Qed.

(** ** The collector and its occupancy detector *)

Lemma generated_quality (point_count valid_points : Z) :
  (247500 <= point_count)%Z ->
  (92 * point_count - 100 < 100 * valid_points)%Z ->
  (100 * valid_points <= 98 * point_count)%Z ->
  0.9199 <= inject_Z valid_points / inject_Z point_count
  /\ inject_Z valid_points / inject_Z point_count <= 0.98.
Proof.
  intros H0 H1 H2. destruct point_count as [|p|p]; try lia.
  unfold Qle, Qdiv, Qmult, Qinv, inject_Z. cbn. split; lia.
Qed.

Lemma round_half_even_nearest (x : Q) (n : Z) :
  inject_Z n - (1 # 2) < x -> (n <= Py.round_half_even x)%Z.
Proof.
  intros H. destruct (round_half_even_error x) as [_ Hup].
  assert (Hlt : inject_Z n < inject_Z (Py.round_half_even x + 1)).
  { rewrite inject_Z_plus. change (inject_Z 1) with 1. lra. }
  rewrite <- Zlt_Qlt in Hlt. lia.
Qed.

Lemma confidence_of_generated (dq : Q) (k : Z) :
  0.9199 <= dq -> dq <= 0.98 ->
  let confidence :=
    Py.round
      (Py.max (1 # 2)
         (Py.min (99 # 100)
            ((7 # 10) + dq * (25 # 100) + Py.uniform (- (5 # 100)) (5 # 100) k))) 2 in
  0.88 <= confidence /\ confidence <= 0.99.
Proof.
  intros H1 H2 confidence. subst confidence.
  destruct (uniform_bounds (- (5 # 100)) (5 # 100) k ltac:(lra)) as [Hu1 Hu2].
  set (u := Py.uniform (- (5 # 100)) (5 # 100) k) in *.
  set (x := (7 # 10) + dq * (25 # 100) + u).
  assert (Hx : 0.8799 <= x) by (subst x; lra).
  destruct (clamp_bounds (1 # 2) (99 # 100) x ltac:(lra)) as [_ Hc2].
  assert (Hc1 : 0.8799 <= Py.max (1 # 2) (Py.min (99 # 100) x)).
  { unfold Py.max, Py.min.
    destruct (Py.ltb x (99 # 100)) eqn:E1.
    - destruct (Py.ltb (1 # 2) x) eqn:E2; [lra|]. apply ltb_ge in E2. lra.
    - destruct (Py.ltb (1 # 2) (99 # 100)) eqn:E2; [lra|]. apply ltb_ge in E2. lra. }
  set (y := Py.max (1 # 2) (Py.min (99 # 100) x)) in *.
  change (Py.round y 2) with (Qmake (Py.round_half_even (y * 100)) 100).
  pose proof (round_half_even_nearest (y * 100) 88
                ltac:(change (inject_Z 88) with 88; lra)) as Hlo.
  pose proof (round_half_even_upper (y * 100) 99
                ltac:(change (inject_Z 99) with 99; lra)) as Hhi.
  unfold Qle. cbn [Qnum Qden]. split; lia.
Qed.

Lemma occupancy_details_of occupied confidence point_count valid_points r now :
  match OccupancyDetector.data_quality point_count valid_points with
  | None => True
  | Some _ =>
      exists details,
        OccupancyDetector._generate_detailed_occupancy_data occupied confidence
          point_count valid_points r now = Some details
        /\ details !! "lidar.occupancy.detected" = Some (Py.VBool occupied)
        /\ details !! "lidar.occupancy.confidence" = Some (Py.VNum confidence)
  end.
Proof.
  unfold OccupancyDetector._generate_detailed_occupancy_data.
  destruct (OccupancyDetector.data_quality point_count valid_points) as [dq|];
    cbn [mbind option_bind]; [|exact I].
  eexists. split; [reflexivity|].
  destruct occupied; split; lookup_inserted.
Qed.

Lemma analyze_generated c r rd now :
  exists occupied confidence details,
    let sample := LidarDataCollector._generate_telemetry_data c r now in
    OccupancyDetector.analyze (default ∅ (Py.values sample)) (Py.ts sample) rd now
    = Some (occupied, Py.Telemetry (Py.ts sample) (Some details))
    /\ details !! "lidar.occupancy.detected" = Some (Py.VBool occupied)
    /\ details !! "lidar.occupancy.confidence" = Some (Py.VNum confidence)
    /\ 0.88 <= confidence /\ confidence <= 0.99.
Proof.
  destruct (generated_counts c r now)
    as (vals & pc & vp & Hv & Hpc & Hvp & Hband & H1 & H2).
  assert (H0 : (247500 <= pc)%Z).
  { cbv zeta in Hband.
    destruct (String.eqb _ "high"); [|destruct (String.eqb _ "low")]; lia. }
  cbv zeta. rewrite Hv. cbn [from_option id].
  assert (Hts : Py.ts (LidarDataCollector._generate_telemetry_data c r now)
                = Some (Py.millis now)).
  { unfold LidarDataCollector._generate_telemetry_data.
    destruct (if String.eqb _ "high" then _ else _). reflexivity. }
  rewrite Hts. unfold OccupancyDetector.analyze. rewrite Hpc, Hvp. cbn [from_option id].
  assert (Hpos : Py.ltb 0 (inject_Z pc) = true).
  { apply ltb_lt. unfold Qlt. cbn. lia. }
  assert (Hdq : OccupancyDetector.data_quality (Py.VNum (inject_Z pc))
                  (Py.VNum (inject_Z vp))
                = Some (inject_Z vp / inject_Z pc)).
  { unfold OccupancyDetector.data_quality. cbn [Py.as_num mbind option_bind].
    rewrite Hpos. reflexivity. }
  destruct (generated_quality pc vp H0 H1 H2) as [Hq1 Hq2].
  pose proof (confidence_of_generated (inject_Z vp / inject_Z pc)
                (OccupancyDetector.k_confidence rd) Hq1 Hq2) as Hconf.
  cbv zeta in Hconf.
  unfold OccupancyDetector._calculate_confidence. rewrite Hdq.
  cbn [mbind option_bind].
  set (confidence := Py.round _ 2) in *.
  assert (Hocc : exists occupied,
             OccupancyDetector._analyze_point_cloud (Py.VNum (inject_Z pc))
               (OccupancyDetector.k_occupied rd) = Some occupied).
  { unfold OccupancyDetector._analyze_point_cloud. cbn [Py.as_num mbind option_bind].
    destruct (Py.ltb 280000 _); [eauto|]. destruct (Py.ltb _ 260000); eauto. }
  destruct Hocc as [occupied ->]. cbn [mbind option_bind].
  pose proof (occupancy_details_of occupied confidence (Py.VNum (inject_Z pc))
                (Py.VNum (inject_Z vp)) rd now) as Hdet.
  rewrite Hdq in Hdet. destruct Hdet as (details & -> & Hd1 & Hd2).
  cbn [mbind option_bind from_option id].
  exists occupied, confidence, details. auto.
Qed.

(** X13. One round of the loop of a collector that is collecting, with
    a running occupancy detector attached: the sample the round
    generates is analysed by the detector in the same round and never
    fails there (its counts are numbers).  The detector counts one more
    detection and records the occupancy found; the result carries the
    time stamp of the sample and a confidence from 0.88 to 0.99, and it
    is handed to the detector's callback exactly when a callback is
    installed and occupancy was found. *)
Theorem collector_round_feeds_detector :
  forall c d r rd now,
    LidarDataCollector._collecting c = true ->
    LidarDataCollector._occupancy_detector c = Some d ->
    OccupancyDetector._detecting d = true ->
    let sample := LidarDataCollector._generate_telemetry_data c r now in
    let out := LidarDataCollector.collection_tick c r rd now in
    exists d' occupied confidence details,
      let res := Py.Telemetry (Py.ts sample) (Some details) in
      LidarDataCollector._occupancy_detector (fst out) = Some d'
      /\ OccupancyDetector.process_telemetry_data d sample rd now
         = OccupancyDetector.Outcome d' (snd out) (Some res)
      /\ snd out
         = (if (OccupancyDetector._telemetry_callback d && occupied)%bool
            then [res] else [])
      /\ OccupancyDetector._detection_count d'
         = (OccupancyDetector._detection_count d + 1)%Z
      /\ OccupancyDetector._current_occupancy d' = occupied
      /\ details !! "lidar.occupancy.detected" = Some (Py.VBool occupied)
      /\ details !! "lidar.occupancy.confidence" = Some (Py.VNum confidence)
      /\ 0.88 <= confidence /\ confidence <= 0.99.
Proof.
  intros c d r rd now Hc Hd Hdet sample out.
  destruct (analyze_generated c r rd now)
    as (occupied & confidence & details & Ha & Hd1 & Hd2 & Hc1 & Hc2).
  cbv zeta in Ha. fold sample in Ha.
  assert (Hv : exists vals, Py.values sample = Some vals).
  { destruct (generated_counts c r now) as (vals & _ & _ & Hv & _). eauto. }
  destruct Hv as [vals Hv]. rewrite Hv in Ha. cbn [from_option id] in Ha.
  assert (Hp : OccupancyDetector.process_telemetry_data d sample rd now
               = OccupancyDetector.Outcome
                   {| OccupancyDetector._detecting := OccupancyDetector._detecting d;
                      OccupancyDetector._telemetry_callback :=
                        OccupancyDetector._telemetry_callback d;
                      OccupancyDetector._detection_thread :=
                        OccupancyDetector._detection_thread d;
                      OccupancyDetector._detection_count :=
                        (OccupancyDetector._detection_count d + 1)%Z;
                      OccupancyDetector._start_time := OccupancyDetector._start_time d;
                      OccupancyDetector._detection_interval :=
                        OccupancyDetector._detection_interval d;
                      OccupancyDetector._current_occupancy := occupied;
                      OccupancyDetector._confidence_threshold :=
                        OccupancyDetector._confidence_threshold d;
                      OccupancyDetector._real_time_mode :=
                        OccupancyDetector._real_time_mode d |}
                   (if (OccupancyDetector._telemetry_callback d && occupied)%bool
                    then [Py.Telemetry (Py.ts sample) (Some details)] else [])
                   (Some (Py.Telemetry (Py.ts sample) (Some details)))).
  { unfold OccupancyDetector.process_telemetry_data.
    rewrite Hdet, Hv, Ha. reflexivity. }
  assert (Hout : out
                 = (LidarDataCollector.set_occupancy_detector
                      (LidarDataCollector._save_telemetry_to_file
                         {| LidarDataCollector._collecting :=
                              LidarDataCollector._collecting c;
                            LidarDataCollector._parameters :=
                              LidarDataCollector._parameters c;
                            LidarDataCollector._collection_thread :=
                              LidarDataCollector._collection_thread c;
                            LidarDataCollector._current_telemetry := Some sample;
                            LidarDataCollector._file_path :=
                              LidarDataCollector._file_path c;
                            LidarDataCollector._telemetry_entries :=
                              (LidarDataCollector._telemetry_entries c ++ [sample])%list;
                            LidarDataCollector._start_epoch :=
                              LidarDataCollector._start_epoch c;
                            LidarDataCollector._occupancy_detector :=
                              LidarDataCollector._occupancy_detector c;
                            LidarDataCollector.files := LidarDataCollector.files c |}
                         sample)
                      (OccupancyDetector.detector
                         (OccupancyDetector.process_telemetry_data d sample rd now)),
                    OccupancyDetector.published
                      (OccupancyDetector.process_telemetry_data d sample rd now))).
  { subst out. unfold LidarDataCollector.collection_tick.
    destruct (LidarDataCollector._collecting c); [|discriminate]. cbn [negb].
    fold sample. rewrite save_keeps_detector.
    cbn [LidarDataCollector._occupancy_detector]. rewrite Hd. reflexivity. }
  clearbody out. subst out. rewrite Hp. cbn [fst snd].
  eexists _, occupied, confidence, details.
  cbv zeta. cbn [LidarDataCollector.set_occupancy_detector
                   LidarDataCollector._occupancy_detector
                   OccupancyDetector.detector OccupancyDetector.published].
  split; [reflexivity|]. split; [reflexivity|]. split; [reflexivity|].
  split; [reflexivity|]. split; [reflexivity|]. auto.
Qed.

Lemma collector_round_feeds_detector_witness :
  let d := fst (OccupancyDetector.start_detection (OccupancyDetector.init true) 0) in
  let c :=
    LidarDataCollector.start_collection
      (LidarDataCollector.set_occupancy_detector LidarDataCollector.init d)
      (LidarDataCollector.Parameters (Some 10) (Some "high")
         (Some (LidarDataCollector.RangeFilter 0.5 30))) 1700000000 in
  let r := LidarDataCollector.Draws 1 2 3 4 5 6 7 8 in
  let rd := OccupancyDetector.Draws 0 0 0 0 0 0 0 in
  let sample := LidarDataCollector._generate_telemetry_data c r 1700000001 in
  let out := LidarDataCollector.collection_tick c r rd 1700000001 in
  exists d' occupied confidence details,
    let res := Py.Telemetry (Py.ts sample) (Some details) in
    LidarDataCollector._occupancy_detector (fst out) = Some d'
    /\ OccupancyDetector.process_telemetry_data d sample rd 1700000001
       = OccupancyDetector.Outcome d' (snd out) (Some res)
    /\ snd out
       = (if (OccupancyDetector._telemetry_callback d && occupied)%bool
          then [res] else [])
    /\ OccupancyDetector._detection_count d'
       = (OccupancyDetector._detection_count d + 1)%Z
    /\ OccupancyDetector._current_occupancy d' = occupied
    /\ details !! "lidar.occupancy.detected" = Some (Py.VBool occupied)
    /\ details !! "lidar.occupancy.confidence" = Some (Py.VNum confidence)
    /\ 0.88 <= confidence /\ confidence <= 0.99.
Proof.
  intros d c r rd.
  apply (collector_round_feeds_detector c d r rd 1700000001); reflexivity.
Defined.

(** ** The LiDAR control service and its collector *)

Lemma lidar_apply_range_filter_cases cfg svc :
  (exists e, LidarControlService.apply_range_filter cfg svc = (svc, Exc.Raise e))
  \/ LidarControlService.apply_range_filter cfg svc = (svc, Exc.Return None)
  \/ exists mn mx,
      0.1 <= mn /\ mn <= mx /\ mx <= 100
      /\ LidarControlService.apply_range_filter cfg svc
         = (LidarControlService.with_state
              (LidarControlService.set_range_filter
                 (LidarDataCollector.RangeFilter mn mx)) svc,
            Exc.Return (Some (LidarDataCollector.RangeFilter mn mx))).
Proof.
  unfold LidarControlService.apply_range_filter, Exc.bind, Exc.get, Exc.modify,
    Exc.ret, Exc.raise.
  destruct (LidarControlService.c_range_filter cfg) as [[mn mx|]|]; cbn; eauto.
  destruct (Py.leb (1 # 10) _) eqn:E1; cbn [andb]; eauto.
  destruct (Py.leb _ _) eqn:E2 in |- *; cbn [andb]; eauto.
  destruct (Py.leb _ 100) eqn:E3; cbn [andb]; eauto.
  apply leb_le in E1, E2, E3. right. right. eexists _, _.
  split; [|split; [|split; [|reflexivity]]]; assumption.
Qed.

Lemma lidar_configured_default : lidar_configured LidarControlService.default_state.
Proof.
  unfold lidar_configured. cbn.
  split; [split; lra|]. split; [set_solver|]. repeat split; lra.
Qed.

Lemma lidar_configured_scan_rate cfg s :
  lidar_scan_rate_valid cfg = true ->
  lidar_configured s -> lidar_configured (lidar_merge_scan_rate cfg s).
Proof.
  unfold lidar_scan_rate_valid, lidar_merge_scan_rate.
  destruct (LidarControlService.c_scan_rate_hz cfg) as [q|]; [|auto].
  intros Hv (_ & H2 & H3). apply andb_true_iff in Hv as [Hv1 Hv2].
  apply leb_le in Hv1, Hv2. split; [split; assumption|]. split; assumption.
Qed.

Lemma lidar_configured_resolution cfg s :
  lidar_resolution_valid cfg = true ->
  lidar_configured s -> lidar_configured (lidar_merge_resolution cfg s).
Proof.
  unfold lidar_resolution_valid, lidar_merge_resolution.
  destruct (LidarControlService.c_resolution cfg) as [r|]; [|auto].
  intros Hv (H1 & _ & H3). apply bool_decide_eq_true in Hv.
  split; [exact H1|]. split; assumption.
Qed.

Lemma lidar_configured_range_filter mn mx s :
  0.1 <= mn -> mn <= mx -> mx <= 100 ->
  lidar_configured s ->
  lidar_configured
    (LidarControlService.set_range_filter (LidarDataCollector.RangeFilter mn mx) s).
Proof.
  intros Ha Hb Hc (H1 & H2 & _). split; [exact H1|]. split; [exact H2|].
  cbn. auto.
Qed.

Lemma parameters_update_of p s :
  LidarDataCollector.parameters_update p (LidarControlService.parameters_of s)
  = LidarControlService.parameters_of s.
Proof. reflexivity. Qed.

Lemma collector_follows_push svc :
  lidar_configured (LidarControlService._state svc) ->
  collector_follows svc ->
  collector_follows (LidarControlService.push_parameters svc).
Proof.
  intros Hs (c & Hc & Hact & Hp). unfold LidarControlService.push_parameters.
  rewrite Hc. destruct (LidarControlService.active _) eqn:Ea.
  - exists (LidarDataCollector.update_parameters c
              (LidarControlService.parameters_of (LidarControlService._state svc))).
    split; [reflexivity|]. split; [cbn; rewrite Ea; exact Hact|].
    intros _. exists (LidarControlService._state svc). split; [exact Hs|].
    reflexivity.
  - exists c. rewrite Ea. auto.
Qed.

Lemma collector_follows_state f svc :
  LidarControlService.active (f (LidarControlService._state svc))
  = LidarControlService.active (LidarControlService._state svc) ->
  collector_follows svc ->
  collector_follows (LidarControlService.with_state f svc).
Proof.
  intros Hf (c & Hc & Hact & Hp). exists c. cbn. rewrite Hf. auto.
Qed.

Lemma lidar_merge_scan_rate_active cfg s :
  LidarControlService.active (lidar_merge_scan_rate cfg s)
  = LidarControlService.active s.
Proof.
  unfold lidar_merge_scan_rate.
  destruct (LidarControlService.c_scan_rate_hz cfg); reflexivity.
Qed.

Lemma lidar_merge_resolution_active cfg s :
  LidarControlService.active (lidar_merge_resolution cfg s)
  = LidarControlService.active s.
Proof.
  unfold lidar_merge_resolution.
  destruct (LidarControlService.c_resolution cfg); reflexivity.
Qed.

(** What [_apply_configuration] keeps. *)
Lemma lidar_apply_configuration_keeps cfg svc :
  lidar_configured (LidarControlService._state svc) ->
  lidar_configured
    (LidarControlService._state (fst (LidarControlService._apply_configuration cfg svc)))
  /\ (collector_follows svc ->
      collector_follows (fst (LidarControlService._apply_configuration cfg svc))).
Proof.
  intros Hs. rewrite lidar_apply_configuration_unfold.
  destruct (lidar_scan_rate_valid cfg) eqn:E1; [|cbn [fst]; auto].
  pose proof (lidar_configured_scan_rate cfg _ E1 Hs) as Hs1.
  destruct (lidar_resolution_valid cfg) eqn:E2.
  2:{ cbn [fst]. split; [exact Hs1|]. intros Hw.
      apply collector_follows_state; [apply lidar_merge_scan_rate_active | exact Hw]. }
  pose proof (lidar_configured_resolution cfg _ E2 Hs1) as Hs2.
  set (svc2 := LidarControlService.with_state (lidar_merge_resolution cfg)
                 (LidarControlService.with_state (lidar_merge_scan_rate cfg) svc)).
  assert (Hw2 : collector_follows svc -> collector_follows svc2).
  { intros Hw. apply collector_follows_state; [apply lidar_merge_resolution_active|].
    apply collector_follows_state; [apply lidar_merge_scan_rate_active | exact Hw]. }
  destruct (lidar_apply_range_filter_cases cfg svc2)
    as [[e ->]|[->|(mn & mx & Ha & Hb & Hc & ->)]]; cbn [fst].
  - auto.
  - split.
    + unfold LidarControlService.push_parameters.
      destruct (LidarControlService._data_collector svc2);
        [destruct (LidarControlService.active _)|]; exact Hs2.
    + intros Hw. apply collector_follows_push; [exact Hs2 | auto].
  - assert (Hs3 : lidar_configured
                    (LidarControlService._state
                       (LidarControlService.with_state
                          (LidarControlService.set_range_filter
                             (LidarDataCollector.RangeFilter mn mx)) svc2)))
      by (apply lidar_configured_range_filter; assumption).
    split.
    + unfold LidarControlService.push_parameters.
      destruct (LidarControlService._data_collector _);
        [destruct (LidarControlService.active _)|]; exact Hs3.
    + intros Hw. apply collector_follows_push; [exact Hs3|].
      apply collector_follows_state; [reflexivity | auto].
Qed.

Lemma lidar_start_keeps svc cfg now :
  lidar_configured (LidarControlService._state svc) ->
  lidar_configured
    (LidarControlService._state (fst (LidarControlService.start svc cfg now)))
  /\ (collector_follows svc ->
      collector_follows (fst (LidarControlService.start svc cfg now))).
Proof.
  intros Hs. rewrite lidar_start_unfold.
  assert (H : exists svc1 res,
             match cfg with
             | Some c0 =>
                 if LidarControlService.config_nonempty c0
                 then LidarControlService._apply_configuration c0 svc
                 else (svc, Exc.Return (LidarControlService.Applied None None None))
             | None => (svc, Exc.Return (LidarControlService.Applied None None None))
             end = (svc1, res)
             /\ lidar_configured (LidarControlService._state svc1)
             /\ (collector_follows svc -> collector_follows svc1)).
  { destruct cfg as [c0|]; [destruct (LidarControlService.config_nonempty c0)|];
      try (eexists _, _; split; [reflexivity|]; split; [exact Hs | auto]).
    destruct (lidar_apply_configuration_keeps c0 svc Hs) as [H1 H2].
    destruct (LidarControlService._apply_configuration c0 svc) as [svc1 res].
    eexists _, _. split; [reflexivity|]. split; assumption. }
  destruct H as (svc1 & res & -> & Hs1 & Hw1).
  destruct res as [a|e]; cbn [fst].
  - destruct svc1 as [s1 st1 c1]. cbn in Hs1.
    cbn [LidarControlService.with_state LidarControlService._state
           LidarControlService._telemetry_streaming_service
           LidarControlService._data_collector].
    destruct st1 as [st1|];
      cbn [LidarControlService.set_telemetry_streaming_service
             LidarControlService._state LidarControlService._data_collector
             LidarControlService._telemetry_streaming_service];
      (destruct c1 as [c1|];
       cbn [LidarControlService.set_data_collector LidarControlService._state
              LidarControlService._data_collector];
       (split; [exact Hs1|]); intros Hw; specialize (Hw1 Hw);
       destruct Hw1 as (c & Hc & Hact & Hp); cbn in Hc; [|discriminate];
       injection Hc as <-; cbn in Hact;
       eexists; (split; [reflexivity|]);
       unfold LidarDataCollector.start_collection;
       destruct (LidarDataCollector._collecting c1) eqn:Ec;
       cbn [LidarControlService._state LidarControlService.active
              LidarControlService.set_error_count LidarControlService.set_last_started
              LidarControlService.set_status LidarControlService.set_active
              LidarDataCollector._collecting LidarDataCollector._parameters];
       [split; [exact Ec | intros _; apply Hp; reflexivity]
       |split; [reflexivity|]; intros _; eexists; split; [|reflexivity]; exact Hs1]).
  - split; [exact Hs1|]. intros Hw.
    apply collector_follows_state; [reflexivity | auto].
Qed.

Lemma lidar_stop_keeps svc now :
  lidar_configured (LidarControlService._state svc) ->
  lidar_configured
    (LidarControlService._state (fst (LidarControlService.stop svc now)))
  /\ LidarControlService.active
       (LidarControlService._state (fst (LidarControlService.stop svc now))) = false
  /\ (collector_follows svc ->
      collector_follows (fst (LidarControlService.stop svc now))).
Proof.
  intros Hs. destruct svc as [s st c]. cbn in Hs.
  unfold LidarControlService.stop.
  cbn [LidarControlService._data_collector LidarControlService._state
         LidarControlService._telemetry_streaming_service].
  destruct c as [c|]; destruct st as [st|];
    cbn [fst LidarControlService.set_data_collector
           LidarControlService.set_telemetry_streaming_service
           LidarControlService.with_state LidarControlService._state
           LidarControlService._data_collector
           LidarControlService._telemetry_streaming_service
           LidarControlService.active LidarControlService.set_last_stopped
           LidarControlService.set_status LidarControlService.set_active];
    (split; [exact Hs|]); (split; [reflexivity|]);
    intros (c' & Hc & Hact & Hp); cbn in Hc; try discriminate;
    injection Hc as <-;
    (eexists; split; [reflexivity|]);
    unfold LidarDataCollector.stop_collection;
    destruct (LidarDataCollector._collecting c) eqn:Ec; cbn [negb];
    cbn [LidarDataCollector._collecting]; (split; [auto|]);
    try discriminate; rewrite Ec; discriminate.
Qed.

Lemma lidar_reset_state svc now :
  LidarControlService._state (fst (LidarControlService.reset svc now))
  = LidarControlService.State false 10 "medium"
      (LidarDataCollector.RangeFilter (5 # 10) 30)
      (LidarControlService.temperature (LidarControlService._state svc))
      "idle" None None 0 0.
Proof.
  unfold LidarControlService.reset. cbn [fst].
  destruct (LidarControlService.active (LidarControlService._state svc)).
  - destruct svc as [s [st|] [c|]]; reflexivity.
  - destruct svc as [s st c]; reflexivity.
Qed.

Lemma lidar_reset_keeps svc now :
  lidar_configured (LidarControlService._state svc) ->
  lidar_configured
    (LidarControlService._state (fst (LidarControlService.reset svc now)))
  /\ (collector_follows svc ->
      collector_follows (fst (LidarControlService.reset svc now))).
Proof.
  intros Hs. split.
  - rewrite lidar_reset_state. exact lidar_configured_default.
  - intros Hw. unfold LidarControlService.reset. cbn [fst].
    destruct (LidarControlService.active (LidarControlService._state svc)) eqn:Ea.
    + destruct (lidar_stop_keeps svc now Hs) as (_ & Hact & Hk).
      destruct (Hk Hw) as (c & Hc & Hcol & Hp).
      exists c. split; [exact Hc|]. rewrite Hcol, Hact.
      split; [reflexivity | discriminate].
    + destruct Hw as (c & Hc & Hcol & Hp).
      exists c. split; [exact Hc|]. rewrite Hcol, Ea.
      split; [reflexivity | discriminate].
Qed.

Lemma tick_keeps_session c r rd now :
  let c' := fst (LidarDataCollector.collection_tick c r rd now) in
  LidarDataCollector._collecting c' = LidarDataCollector._collecting c
  /\ LidarDataCollector._parameters c' = LidarDataCollector._parameters c.
Proof.
  cbv zeta. unfold LidarDataCollector.collection_tick.
  destruct (LidarDataCollector._collecting c) eqn:Ec; cbn [negb fst]; [|auto].
  rewrite save_keeps_detector. cbn [LidarDataCollector._occupancy_detector].
  unfold LidarDataCollector._save_telemetry_to_file.
  cbn [LidarDataCollector._file_path LidarDataCollector.files].
  destruct (LidarDataCollector._occupancy_detector c);
    destruct (LidarDataCollector._file_path c); cbn; auto.
Qed.

Lemma lidar_step_keeps svc ev :
  lidar_configured (LidarControlService._state svc) ->
  lidar_configured (LidarControlService._state (lidar_step svc ev))
  /\ (collector_follows svc -> collector_follows (lidar_step svc ev)).
Proof.
  intros Hs.
  destruct ev as [cfg now|now|now|a b c| |temp|r rd now|d]; cbn [lidar_step].
  - apply lidar_start_keeps, Hs.
  - destruct (lidar_stop_keeps svc now Hs) as (H1 & _ & H2). auto.
  - apply lidar_reset_keeps, Hs.
  - apply lidar_apply_configuration_keeps, Hs.
  - split; [exact Hs|]. intros Hw. apply collector_follows_state; [reflexivity | exact Hw].
  - split; [exact Hs|]. intros Hw. apply collector_follows_state; [reflexivity | exact Hw].
  - unfold on_collector.
    destruct (LidarControlService._data_collector svc) as [c|] eqn:Ec;
      [|split; [exact Hs | auto]].
    split; [exact Hs|]. intros (c0 & Hc0 & Hact & Hp).
    rewrite Ec in Hc0. injection Hc0 as <-.
    destruct (tick_keeps_session c r rd now) as [H1 H2].
    eexists. split; [reflexivity|]. cbn [LidarControlService._state].
    rewrite H1, H2. auto.
  - unfold on_collector.
    destruct (LidarControlService._data_collector svc) as [c|] eqn:Ec;
      [|split; [exact Hs | auto]].
    split; [exact Hs|]. intros (c0 & Hc0 & Hact & Hp).
    rewrite Ec in Hc0. injection Hc0 as <-.
    eexists. split; [reflexivity|]. auto.
Qed.

Lemma lidar_run_keeps events :
  lidar_configured (LidarControlService._state (lidar_run events))
  /\ collector_follows (lidar_run events).
Proof.
  unfold lidar_run.
  assert (H0 : lidar_configured
                 (LidarControlService._state Lidar.get_lidar_control_service)
               /\ collector_follows Lidar.get_lidar_control_service).
  { split; [exact lidar_configured_default|].
    exists LidarDataCollector.init. split; [reflexivity|].
    split; [reflexivity | discriminate]. }
  revert H0. generalize Lidar.get_lidar_control_service.
  induction events as [|ev events IH]; intros svc [H1 H2]; [auto|].
  cbn [fold_left]. apply IH.
  destruct (lidar_step_keeps svc ev H1) as [H3 H4]. auto.
Qed.

(** X14. The configuration of the LiDAR control service is valid at all
    times: whatever is called on the service, with whatever arguments
    and whether the call succeeds or raises, the scan rate lies from 1
    to 50 Hz, the resolution is one of high, medium and low, and the
    range filter satisfies 0.1 <= min <= max <= 100.  In particular the
    fields merged before a validation error leave a valid
    configuration. *)
Theorem lidar_configuration_stays_valid :
  forall events, lidar_configured (LidarControlService._state (lidar_run events)).
Proof. intros events. apply lidar_run_keeps. Qed.

Lemma sleep_interval_of_rate c rate :
  LidarDataCollector.p_scan_rate_hz (LidarDataCollector._parameters c) = Some rate ->
  1 <= rate -> rate <= 50 ->
  (1 # 50) <= LidarDataCollector.sleep_interval c
  /\ LidarDataCollector.sleep_interval c <= 1.
Proof.
  intros Hr H1 H2. unfold LidarDataCollector.sleep_interval. rewrite Hr.
  cbn [from_option id].
  assert (Hpos : Py.ltb 0 rate = true) by (apply ltb_lt; lra).
  rewrite Hpos. split.
  - apply Qle_shift_div_l; lra.
  - apply Qle_shift_div_r; lra.
Qed.

(** X15. As long as the collector is driven through the control service
    [get_lidar_control_service] builds, it collects exactly while the
    service is active.  While it collects, its parameters are a copy of
    a valid configuration: a scan rate from 1 to 50 Hz, a resolution out
    of high, medium and low, a range filter with
    0.1 <= min <= max <= 100; the pause of its loop therefore lies from
    a fiftieth of a second to a second. *)
Theorem collector_follows_control_service :
  forall events,
    let svc := lidar_run events in
    exists c,
      LidarControlService._data_collector svc = Some c
      /\ LidarDataCollector._collecting c
         = LidarControlService.active (LidarControlService._state svc)
      /\ (LidarDataCollector._collecting c = true ->
          exists rate resolution rf,
            LidarDataCollector._parameters c
            = LidarDataCollector.Parameters (Some rate) (Some resolution) (Some rf)
            /\ 1 <= rate /\ rate <= 50
            /\ resolution ∈ ["high"; "medium"; "low"]
            /\ 0.1 <= LidarDataCollector.min_range_m rf
            /\ LidarDataCollector.min_range_m rf <= LidarDataCollector.max_range_m rf
            /\ LidarDataCollector.max_range_m rf <= 100
            /\ (1 # 50) <= LidarDataCollector.sleep_interval c
            /\ LidarDataCollector.sleep_interval c <= 1).
Proof.
  intros events svc. destruct (lidar_run_keeps events) as [_ (c & Hc & Hact & Hp)].
  fold svc in Hc, Hact. exists c. split; [exact Hc|]. split; [exact Hact|].
  intros Hcol. destruct (Hp Hcol) as (s & ((H1 & H2) & H3 & H4 & H5 & H6) & Hpar).
  exists (LidarControlService.scan_rate_hz s), (LidarControlService.resolution s),
    (LidarControlService.range_filter s).
  split; [exact Hpar|].
  destruct (sleep_interval_of_rate c (LidarControlService.scan_rate_hz s)
              ltac:(rewrite Hpar; reflexivity) H1 H2) as [Hs1 Hs2].
  auto 10.
Qed.

Lemma lidar_apply_configuration_collector cfg svc c :
  LidarControlService._data_collector svc = Some c ->
  let out := LidarControlService._apply_configuration cfg svc in
  LidarControlService._data_collector (fst out)
  = Some (if (negb (Exc.raised (snd out))
              && LidarControlService.active (LidarControlService._state svc))%bool
          then LidarDataCollector.update_parameters c
                 (LidarControlService.parameters_of
                    (LidarControlService._state (fst out)))
          else c).
Proof.
  intros Hc out. subst out. rewrite lidar_apply_configuration_unfold.
  destruct (lidar_scan_rate_valid cfg); [|exact Hc].
  destruct (lidar_resolution_valid cfg); [|exact Hc].
  set (svc2 := LidarControlService.with_state (lidar_merge_resolution cfg)
                 (LidarControlService.with_state (lidar_merge_scan_rate cfg) svc)).
  assert (Hc2 : LidarControlService._data_collector svc2 = Some c) by exact Hc.
  assert (Ha2 : LidarControlService.active (LidarControlService._state svc2)
                = LidarControlService.active (LidarControlService._state svc)).
  { unfold svc2. cbn. apply lidar_merge_active. }
  destruct (lidar_apply_range_filter_cases cfg svc2)
    as [[e ->]|[->|(mn & mx & _ & _ & _ & ->)]]; cbn [fst snd Exc.raised negb andb].
  - exact Hc2.
  - unfold LidarControlService.push_parameters. rewrite Hc2, Ha2.
    destruct (LidarControlService.active (LidarControlService._state svc));
      [reflexivity | exact Hc2].
  - unfold LidarControlService.push_parameters.
    cbn [LidarControlService.with_state LidarControlService._data_collector
           LidarControlService._state LidarControlService.set_range_filter
           LidarControlService.active].
    rewrite Hc2, Ha2.
    destruct (LidarControlService.active (LidarControlService._state svc));
      [reflexivity | exact Hc2].
Qed.

(** X16. How a configuration update reaches the collector.  On an active
    service an update that is accepted hands the whole new configuration
    to the collector, whose loop, entries and files are not touched; an
    update that raises leaves the collector as it was, also when fields
    in front of the invalid one were merged into the state of the
    service.  On a service that is not active the collector is left
    alone in both cases. *)
Theorem apply_config_reaches_collector :
  forall events scan_rate_hz resolution range_filter,
    let svc := lidar_run events in
    let out :=
      LidarControlService.apply_config scan_rate_hz resolution range_filter svc in
    exists c c',
      LidarControlService._data_collector svc = Some c
      /\ LidarControlService._data_collector (fst out) = Some c'
      /\ (Exc.raised (snd out) = true -> c' = c)
      /\ (LidarControlService.active (LidarControlService._state svc) = false ->
          c' = c)
      /\ (Exc.raised (snd out) = false ->
          LidarControlService.active (LidarControlService._state svc) = true ->
          LidarDataCollector._parameters c'
          = LidarControlService.parameters_of (LidarControlService._state (fst out))
          /\ same_generation_loop c c'
          /\ LidarDataCollector._telemetry_entries c'
             = LidarDataCollector._telemetry_entries c
          /\ LidarDataCollector._current_telemetry c'
             = LidarDataCollector._current_telemetry c
          /\ LidarDataCollector.files c' = LidarDataCollector.files c).
Proof.
  intros events a b rf svc out.
  destruct (lidar_run_keeps events) as [_ (c & Hc & _)]. fold svc in Hc.
  pose proof (lidar_apply_configuration_collector
                (LidarControlService.Config a b rf false) svc c Hc) as H.
  cbv zeta in H. fold (LidarControlService.apply_config a b rf svc) in H.
  fold out in H.
  eexists c, _. split; [exact Hc|]. split; [exact H|].
  split; [intros ->; reflexivity|].
  split; [intros ->; now rewrite andb_false_r|].
  intros -> ->. cbn [negb andb]. repeat split.
Qed.

(** X17. [reset] on the control service, in whatever state the service
    is: the state is the initial one again with only the temperature
    kept, the collector does not collect any more but keeps its entries,
    files and parameters, and the state returned is the state of the
    service.  A [start] without configuration that follows starts a new
    generation loop on the default parameters: 10 Hz, medium resolution,
    0.5 m to 30 m. *)
Theorem reset_restores_defaults :
  forall events now later,
    let svc := lidar_run events in
    let out := LidarControlService.reset svc now in
    let restarted := fst (LidarControlService.start (fst out) None later) in
    LidarControlService._state (fst out)
    = LidarControlService.State false 10 "medium"
        (LidarDataCollector.RangeFilter (5 # 10) 30)
        (LidarControlService.temperature (LidarControlService._state svc))
        "idle" None None 0 0
    /\ snd out = LidarControlService.Current (LidarControlService._state (fst out))
    /\ exists c c' c'',
        LidarControlService._data_collector svc = Some c
        /\ LidarControlService._data_collector (fst out) = Some c'
        /\ LidarControlService._data_collector restarted = Some c''
        /\ LidarDataCollector._collecting c' = false
        /\ LidarDataCollector._telemetry_entries c'
           = LidarDataCollector._telemetry_entries c
        /\ LidarDataCollector.files c' = LidarDataCollector.files c
        /\ LidarDataCollector._parameters c' = LidarDataCollector._parameters c
        /\ LidarDataCollector._collecting c'' = true
        /\ LidarDataCollector._collection_thread c''
           = S (LidarDataCollector._collection_thread c')
        /\ LidarDataCollector._parameters c''
           = LidarDataCollector.Parameters (Some 10) (Some "medium")
               (Some (LidarDataCollector.RangeFilter (5 # 10) 30)).
Proof.
  intros events now later svc out restarted.
  destruct (lidar_run_keeps events) as [_ (c & Hc & Hact & _)].
  fold svc in Hc, Hact.
  split; [apply lidar_reset_state|]. split; [reflexivity|].
  subst restarted out. destruct svc as [s st oc]. cbn in Hc, Hact. subst oc.
  unfold LidarControlService.reset.
  cbn [LidarControlService._state fst].
  destruct (LidarControlService.active s) eqn:Ea.
  - unfold LidarControlService.stop.
    cbn [LidarControlService._data_collector LidarControlService._state
           LidarControlService._telemetry_streaming_service
           LidarControlService.set_data_collector].
    unfold LidarDataCollector.stop_collection. rewrite Hact. cbn [negb].
    destruct st as [st|];
      cbn [fst LidarControlService.set_telemetry_streaming_service
             LidarControlService.with_state LidarControlService._state
             LidarControlService._data_collector
             LidarControlService._telemetry_streaming_service];
      rewrite lidar_start_unfold;
      cbn [fst LidarControlService.set_telemetry_streaming_service
             LidarControlService.with_state LidarControlService._state
             LidarControlService._data_collector
             LidarControlService.set_data_collector
             LidarControlService._telemetry_streaming_service];
      eexists c, _, _; (split; [reflexivity|]); (split; [reflexivity|]);
      (split; [reflexivity|]); cbn; auto 10.
  - destruct st as [st|];
      rewrite lidar_start_unfold;
      cbn [fst LidarControlService.set_telemetry_streaming_service
             LidarControlService.with_state LidarControlService._state
             LidarControlService._data_collector
             LidarControlService.set_data_collector
             LidarControlService._telemetry_streaming_service];
      eexists c, _, _; (split; [reflexivity|]); (split; [reflexivity|]);
      (split; [reflexivity|]);
      unfold LidarDataCollector.start_collection; rewrite Hact; cbn; auto 10.
Qed.

(** ** The ultrasonic control service *)

Lemma exc_bind_keeps {S E A B} (P : S -> Prop)
    (c : Exc.M S E A) (k : A -> Exc.M S E B) :
  (forall s, P s -> P (fst (c s))) ->
  (forall a s, P s -> P (fst (k a s))) ->
  forall s, P s -> P (fst (Exc.bind c k s)).
Proof.
  intros Hc Hk s Hs. unfold Exc.bind. specialize (Hc s Hs).
  destruct (c s) as [s1 [a|e]]; cbn [fst] in *; auto.
Qed.

Lemma exc_bind_returns {S E A B} (c : Exc.M S E A) (k : A -> Exc.M S E B) s s' b :
  Exc.bind c k s = (s', Exc.Return b) ->
  exists a s1, c s = (s1, Exc.Return a) /\ k a s1 = (s', Exc.Return b).
Proof.
  unfold Exc.bind. destruct (c s) as [s1 [a|e]]; [eauto | discriminate].
Qed.

Lemma ultrasonic_apply_checked_keeps {A} (P : UltrasonicControlService.t -> Prop)
    (field : option A) valid assign error :
  (forall v svc, valid v = true -> P svc ->
                 P (UltrasonicControlService.with_config (assign v) svc)) ->
  forall svc, P svc ->
    P (fst (UltrasonicControlService.apply_checked field valid assign error svc)).
Proof.
  intros H svc Hs. rewrite ultrasonic_apply_checked.
  destruct field as [v|]; [|exact Hs].
  destruct (valid v) eqn:E; [apply H; assumption | exact Hs].
Qed.

Lemma ultrasonic_apply_flag_keeps (P : UltrasonicControlService.t -> Prop)
    (field : option bool) assign :
  (forall b svc, P svc -> P (UltrasonicControlService.with_config (assign b) svc)) ->
  forall svc, P svc -> P (fst (UltrasonicControlService.apply_flag field assign svc)).
Proof.
  intros H svc Hs. unfold UltrasonicControlService.apply_flag.
  destruct field as [b|]; [apply H, Hs | exact Hs].
Qed.

Lemma ultrasonic_apply_config_keeps cfg svc :
  ultrasonic_configured (UltrasonicControlService._config svc) ->
  ultrasonic_configured
    (UltrasonicControlService._config
       (fst (UltrasonicControlService._apply_config cfg svc)))
  /\ UltrasonicControlService._active
       (fst (UltrasonicControlService._apply_config cfg svc))
     = UltrasonicControlService._active svc.
Proof.
  intros Hs.
  remember (UltrasonicControlService._active svc) as a0 eqn:Ea0.
  set (P := fun s : UltrasonicControlService.t =>
              ultrasonic_configured (UltrasonicControlService._config s)
              /\ UltrasonicControlService._active s = a0).
  change (P (fst (UltrasonicControlService._apply_config cfg svc))).
  assert (H0 : P svc) by (split; [exact Hs | now rewrite Ea0]).
  clear Hs Ea0. revert H0. generalize svc. intros s0 H0.
  unfold UltrasonicControlService._apply_config.
  apply exc_bind_keeps; [| |exact H0].
  { apply ultrasonic_apply_checked_keeps.
    intros n s Hv [(H1 & H2 & H3 & H4) Ha].
    apply andb_true_iff in Hv as [Hv1 Hv2]. apply Z.leb_le in Hv1, Hv2.
    split; [|exact Ha]. split; [cbn; lia|]. auto. }
  intros _. apply exc_bind_keeps.
  { apply ultrasonic_apply_checked_keeps.
    intros q s Hv [(H1 & H2 & H3 & H4) Ha].
    apply andb_true_iff in Hv as [Hv1 Hv2]. apply leb_le in Hv1, Hv2.
    split; [|exact Ha]. split; [exact H1|]. split; [cbn; split; assumption|]. auto. }
  intros _. apply exc_bind_keeps.
  { apply ultrasonic_apply_checked_keeps.
    intros q s Hv [(H1 & H2 & H3 & H4) Ha].
    apply andb_true_iff in Hv as [Hv1 Hv2]. apply leb_le in Hv1, Hv2.
    split; [|exact Ha]. split; [exact H1|]. split; [exact H2|].
    split; [cbn; split; assumption | exact H4]. }
  intros _. apply exc_bind_keeps.
  { apply ultrasonic_apply_checked_keeps.
    intros q s Hv [(H1 & H2 & H3 & H4) Ha].
    apply andb_true_iff in Hv as [Hv1 Hv2]. apply leb_le in Hv1, Hv2.
    split; [|exact Ha]. split; [exact H1|]. split; [exact H2|].
    split; [exact H3 | cbn; split; assumption]. }
  intros _. apply exc_bind_keeps.
  { apply ultrasonic_apply_flag_keeps. intros b s H. exact H. }
  intros _. apply exc_bind_keeps.
  { apply ultrasonic_apply_flag_keeps. intros b s H. exact H. }
  intros _ s Hp. unfold Exc.bind, Exc.get.
  destruct (Py.leb _ _); exact Hp.
Qed.

Lemma ultrasonic_apply_config_returns cfg svc svc' c :
  UltrasonicControlService._apply_config cfg svc = (svc', Exc.Return c) ->
  c = UltrasonicControlService._config svc'
  /\ UltrasonicControlService.min_range_cm c < UltrasonicControlService.max_range_cm c.
Proof.
  unfold UltrasonicControlService._apply_config. intros H.
  do 6 (apply exc_bind_returns in H; destruct H as (? & ? & _ & H)).
  unfold Exc.bind, Exc.get, Exc.ret, Exc.raise in H.
  destruct (Py.leb _ _) eqn:E; [discriminate|].
  injection H as <- <-. split; [reflexivity|]. now apply leb_gt.
Qed.

Lemma ultrasonic_configured_default :
  ultrasonic_configured UltrasonicControlService.default_config.
Proof. unfold ultrasonic_configured. cbn. repeat split; (lia || lra). Qed.

Lemma ultrasonic_step_keeps svc ev :
  ultrasonic_configured (UltrasonicControlService._config svc) ->
  ultrasonic_configured (UltrasonicControlService._config (ultrasonic_step svc ev)).
Proof.
  intros Hs. destruct ev as [cfg now|now|now|cfg]; cbn [ultrasonic_step].
  - unfold UltrasonicControlService.start.
    destruct (UltrasonicControlService._active svc); [exact Hs|].
    assert (H : exists svc1 res,
               match cfg with
               | Some c =>
                   if UltrasonicControlService.config_nonempty c
                   then Exc.bind (UltrasonicControlService._apply_config c)
                          (fun _ => Exc.ret tt) svc
                   else (svc, Exc.Return tt)
               | None => (svc, Exc.Return tt)
               end = (svc1, res)
               /\ ultrasonic_configured (UltrasonicControlService._config svc1)).
    { destruct cfg as [c|]; [destruct (UltrasonicControlService.config_nonempty c)|];
        try (eexists _, _; split; [reflexivity | exact Hs]).
      destruct (ultrasonic_apply_config_keeps c svc Hs) as [H1 _].
      unfold Exc.bind.
      destruct (UltrasonicControlService._apply_config c svc) as [svc1 [a|e]];
        eexists _, _; (split; [reflexivity | exact H1]). }
    destruct H as (svc1 & res & -> & H1). destruct res; exact H1.
  - unfold UltrasonicControlService.stop. destruct (negb _); exact Hs.
  - exact ultrasonic_configured_default.
  - apply ultrasonic_apply_config_keeps, Hs.
Qed.

Lemma ultrasonic_run_keeps events :
  ultrasonic_configured (UltrasonicControlService._config (ultrasonic_run events)).
Proof.
  unfold ultrasonic_run.
  pose proof ultrasonic_configured_default as H0.
  change UltrasonicControlService.default_config
    with (UltrasonicControlService._config UltrasonicControlService.init) in H0.
  revert H0. generalize UltrasonicControlService.init.
  induction events as [|ev events IH]; intros svc H; [exact H|].
  cbn [fold_left]. apply IH, ultrasonic_step_keeps, H.
Qed.

(** X18. The configuration of the ultrasonic control service keeps to
    the bounds of its fields at all times, whatever is called and
    whether the call succeeds or raises: 1 to 4 sensors, a sample rate
    from 0.1 to 100 Hz, a max range from 10 to 500 cm and a min range
    from 1 to 50 cm.  A configuration update that returns has left the
    min range below the max range and returns the configuration of the
    service; it never changes the active flag.  [reset] always puts the
    default configuration back and leaves the service inactive. *)
Theorem ultrasonic_configuration_within_bounds :
  (forall events,
      ultrasonic_configured (UltrasonicControlService._config (ultrasonic_run events)))
  /\ (forall events cfg,
      let out := UltrasonicControlService.apply_config cfg (ultrasonic_run events) in
      UltrasonicControlService._active (fst out)
      = UltrasonicControlService._active (ultrasonic_run events)
      /\ forall c,
          snd out = Exc.Return c ->
          c = UltrasonicControlService._config (fst out)
          /\ UltrasonicControlService.min_range_cm c
             < UltrasonicControlService.max_range_cm c)
  /\ (forall events now,
      let out := UltrasonicControlService.reset (ultrasonic_run events) now in
      UltrasonicControlService._config (fst out)
      = UltrasonicControlService.default_config
      /\ UltrasonicControlService._active (fst out) = false
      /\ UltrasonicControlService._status (fst out) = "reset"
      /\ snd out
         = UltrasonicControlService.Reset_done UltrasonicControlService.default_config
             (UltrasonicControlService._active (ultrasonic_run events))).
Proof.
  split; [exact ultrasonic_run_keeps|]. split.
  - intros events cfg out. subst out. unfold UltrasonicControlService.apply_config.
    split; [apply ultrasonic_apply_config_keeps, ultrasonic_run_keeps|].
    intros c Hc.
    destruct (UltrasonicControlService._apply_config cfg (ultrasonic_run events))
      as [svc' res] eqn:E.
    cbn [fst snd] in *. subst res.
    exact (ultrasonic_apply_config_returns cfg _ svc' c E).
  - intros events now out. subst out. unfold UltrasonicControlService.reset.
    cbn [fst snd]. split; [reflexivity|]. split; [|split; reflexivity].
    unfold UltrasonicControlService.stop.
    destruct (UltrasonicControlService._active (ultrasonic_run events)) eqn:Ea;
      cbn; [reflexivity | exact Ea].
Qed.

(** X19. The uptime [stop] reports is measured from the [start] that
    took effect.  On a service that is not active, a [start] without
    configuration at [t0] succeeds and keeps the configuration; a second
    [start] while the service is active is turned down and does not move
    the start time; the [stop] at [t1] that follows reports the seconds
    from [t0] to [t1] rounded to one decimal (within 0.05 s of the
    difference) and leaves the service inactive with the configuration
    it had.  When the clock reads 0 at [t0] the uptime reported is 0. *)
Theorem ultrasonic_uptime_from_effective_start :
  forall svc cfg t0 t t1,
    UltrasonicControlService._active svc = false ->
    let o1 := UltrasonicControlService.start svc None t0 in
    let o2 := UltrasonicControlService.start (fst o1) cfg t in
    let o3 := UltrasonicControlService.stop (fst o2) t1 in
    let uptime := if Qeq_bool t0 0 then 0 else t1 - t0 in
    snd o1 = UltrasonicControlService.Started (UltrasonicControlService._config svc) t0
    /\ snd o2
       = UltrasonicControlService.Already_active (UltrasonicControlService._config svc)
    /\ fst o2 = fst o1
    /\ snd o3 = UltrasonicControlService.Stopped (Py.round uptime 1)
    /\ Py.round uptime 1 - 0.05 <= uptime
    /\ uptime <= Py.round uptime 1 + 0.05
    /\ UltrasonicControlService._active (fst o3) = false
    /\ UltrasonicControlService._config (fst o3) = UltrasonicControlService._config svc
    /\ UltrasonicControlService._status (fst o3) = "stopped".
Proof.
  intros svc cfg t0 t t1 Ha o1 o2 o3 uptime.
  assert (E1 : o1 = (UltrasonicControlService.Service true
                       (UltrasonicControlService._config svc) (Some t0) "operational",
                     UltrasonicControlService.Started
                       (UltrasonicControlService._config svc) t0)).
  { subst o1. unfold UltrasonicControlService.start. now rewrite Ha. }
  clearbody o1. subst o1. subst o3 o2.
  cbn [fst snd]. unfold UltrasonicControlService.start.
  cbn [UltrasonicControlService._active fst snd UltrasonicControlService._config].
  unfold UltrasonicControlService.stop.
  cbn [UltrasonicControlService._active negb fst snd UltrasonicControlService._config
         UltrasonicControlService._start_time UltrasonicControlService._status].
  fold uptime. destruct (round1_error uptime) as [H1 H2].
  repeat split; assumption.
Qed.

Lemma ultrasonic_uptime_from_effective_start_witness :
  let o1 := UltrasonicControlService.start UltrasonicControlService.init None 100 in
  let o2 :=
    UltrasonicControlService.start (fst o1)
      (Some (UltrasonicControlService.Config (Some 2) None None None None None false))
      130 in
  let o3 := UltrasonicControlService.stop (fst o2) 160.26 in
  snd o3 = UltrasonicControlService.Stopped 60.3
  /\ UltrasonicControlService._config (fst o3) = UltrasonicControlService.default_config.
Proof.
  intros o1 o2 o3.
  pose proof (ultrasonic_uptime_from_effective_start UltrasonicControlService.init
                (Some (UltrasonicControlService.Config (Some 2) None None None None
                         None false))
                100 130 160.26 eq_refl) as H.
  cbv zeta in H. destruct H as (_ & _ & _ & H4 & _ & _ & _ & H8 & _).
  split; [exact H4 | exact H8].
Defined.

(** ** The samples of the ultrasonic generators *)

Lemma sensor_keys_distinct i j :
  In i [1; 2; 3; 4]%Z -> In j [1; 2; 3; 4]%Z ->
  (ProximityDetector.distance_key i = ProximityDetector.distance_key j -> i = j)
  /\ (ProximityDetector.confidence_key i = ProximityDetector.confidence_key j -> i = j)
  /\ ProximityDetector.distance_key i <> ProximityDetector.confidence_key j
  /\ ProximityDetector.distance_key i
     <> UltrasonicStreamingService.temperature_key j
  /\ ProximityDetector.confidence_key i
     <> UltrasonicStreamingService.temperature_key j.
Proof.
  intros Hi Hj.
  repeat (destruct Hi as [<-|Hi]; [|]); try destruct Hi;
    repeat (destruct Hj as [<-|Hj]; [|]); try destruct Hj;
    repeat split; intros H; try reflexivity; exfalso; vm_compute in H; discriminate H.
Qed.

Lemma sensor_entries_distance i j dist conf tc vals :
  In i [1; 2; 3; 4]%Z -> In j [1; 2; 3; 4]%Z ->
  UltrasonicStreamingService.sensor_entries j dist conf tc vals
    !! ProximityDetector.distance_key i
  = if decide (i = j) then Some (Py.VNum dist)
    else vals !! ProximityDetector.distance_key i.
Proof.
  intros Hi Hj. unfold UltrasonicStreamingService.sensor_entries.
  destruct (sensor_keys_distinct i j Hi Hj) as (H1 & _ & H3 & H4 & _).
  rewrite lookup_insert_ne by (intros E; apply H4; now rewrite E).
  rewrite lookup_insert_ne by (intros E; apply H3; now rewrite E).
  destruct (decide (i = j)) as [->|N].
  - apply lookup_insert_eq.
  - apply lookup_insert_ne. intros E. apply N, H1. now rewrite E.
Qed.

Lemma sensor_entries_confidence i j dist conf tc vals :
  In i [1; 2; 3; 4]%Z -> In j [1; 2; 3; 4]%Z ->
  UltrasonicStreamingService.sensor_entries j dist conf tc vals
    !! ProximityDetector.confidence_key i
  = if decide (i = j) then Some (Py.VNum conf)
    else vals !! ProximityDetector.confidence_key i.
Proof.
  intros Hi Hj. unfold UltrasonicStreamingService.sensor_entries.
  destruct (sensor_keys_distinct i j Hi Hj) as (_ & H2 & _ & _ & H5).
  destruct (sensor_keys_distinct j i Hj Hi) as (_ & _ & H3 & _ & _).
  rewrite lookup_insert_ne by (intros E; apply H5; now rewrite E).
  destruct (decide (i = j)) as [->|N].
  - apply lookup_insert_eq.
  - rewrite lookup_insert_ne by (intros E; apply N, H2; now rewrite E).
    apply lookup_insert_ne. exact H3.
Qed.

Lemma sensor_values_lookup ids distance kc tc i :
  In i [1; 2; 3; 4]%Z ->
  (forall j, In j ids -> In j [1; 2; 3; 4]%Z) ->
  sensor_values ids distance kc tc !! ProximityDetector.distance_key i
  = (if bool_decide (i ∈ ids) then Some (Py.VNum (distance i)) else None)
  /\ sensor_values ids distance kc tc !! ProximityDetector.confidence_key i
     = (if bool_decide (i ∈ ids)
        then Some (Py.VNum (UltrasonicStreamingService.generated_confidence
                              (distance i) (kc i)))
        else None).
Proof.
  intros Hi. unfold sensor_values.
  assert (H : forall vals,
             (forall j, In j ids -> In j [1; 2; 3; 4]%Z) ->
             let out :=
               fold_left
                 (fun vals sensor_id =>
                    UltrasonicStreamingService.sensor_entries sensor_id
                      (distance sensor_id)
                      (UltrasonicStreamingService.generated_confidence
                         (distance sensor_id) (kc sensor_id)) tc vals) ids vals in
             out !! ProximityDetector.distance_key i
             = (if bool_decide (i ∈ ids) then Some (Py.VNum (distance i))
                else vals !! ProximityDetector.distance_key i)
             /\ out !! ProximityDetector.confidence_key i
                = (if bool_decide (i ∈ ids)
                   then Some (Py.VNum (UltrasonicStreamingService.generated_confidence
                                         (distance i) (kc i)))
                   else vals !! ProximityDetector.confidence_key i)).
  { induction ids as [|j ids IH]; intros vals Hids; [split; reflexivity|].
    cbn [fold_left]. cbv zeta.
    destruct (IH (UltrasonicStreamingService.sensor_entries j (distance j)
                    (UltrasonicStreamingService.generated_confidence
                       (distance j) (kc j)) tc vals)
                (fun k Hk => Hids k (or_intror Hk))) as [H1 H2].
    cbv zeta in H1, H2. rewrite H1, H2.
    rewrite (sensor_entries_distance i j) by (auto; apply Hids; now left).
    rewrite (sensor_entries_confidence i j) by (auto; apply Hids; now left).
    destruct (bool_decide (i ∈ ids)) eqn:E1.
    - apply bool_decide_eq_true in E1.
      rewrite (bool_decide_eq_true_2 (i ∈ j :: ids)) by (rewrite elem_of_cons; now right).
      auto.
    - apply bool_decide_eq_false in E1.
      destruct (decide (i = j)) as [->|N].
      + rewrite (bool_decide_eq_true_2 (j ∈ j :: ids)) by (rewrite elem_of_cons; now left).
        auto.
      + rewrite (bool_decide_eq_false_2 (i ∈ j :: ids))
          by (rewrite elem_of_cons; intros [E|E]; [now apply N | contradiction]).
        auto. }
  intros Hids. destruct (H ∅ Hids) as [H1 H2]. cbv zeta in H1, H2.
  rewrite H1, H2, !lookup_empty. split; reflexivity.
Qed.

Lemma generated_confidence_bounds (distance : Q) (k : Z) :
  let confidence := UltrasonicStreamingService.generated_confidence distance k in
  0.8 <= confidence /\ confidence <= 0.99
  /\ (distance < 50 -> 0.95 <= confidence)
  /\ (distance < 150 -> 0.9 <= confidence)
  /\ (distance < 300 -> 0.85 <= confidence).
Proof.
  cbv zeta. unfold UltrasonicStreamingService.generated_confidence.
  destruct (uniform_round2 (95 # 100) (99 # 100) 95 99 k ltac:(lra)
              ltac:(change (inject_Z 95) with 95; lra)
              ltac:(change (inject_Z 99) with 99; lra)) as [Ha1 Ha2].
  destruct (uniform_round2 (90 # 100) (97 # 100) 90 97 k ltac:(lra)
              ltac:(change (inject_Z 90) with 90; lra)
              ltac:(change (inject_Z 97) with 97; lra)) as [Hb1 Hb2].
  destruct (uniform_round2 (85 # 100) (94 # 100) 85 94 k ltac:(lra)
              ltac:(change (inject_Z 85) with 85; lra)
              ltac:(change (inject_Z 94) with 94; lra)) as [Hc1 Hc2].
  destruct (uniform_round2 (80 # 100) (91 # 100) 80 91 k ltac:(lra)
              ltac:(change (inject_Z 80) with 80; lra)
              ltac:(change (inject_Z 91) with 91; lra)) as [Hd1 Hd2].
  destruct (Py.ltb distance 50) eqn:E1;
    [|destruct (Py.ltb distance 150) eqn:E2;
      [|destruct (Py.ltb distance 300) eqn:E3]];
    try (apply ltb_ge in E1); try (apply ltb_ge in E2); try (apply ltb_ge in E3);
    repeat split; intros; lra.
Qed.

Lemma update_sensor_config_keeps s cfg :
  sensors_configured (UltrasonicStreamingService._sensors_config s) ->
  sensors_configured
    (UltrasonicStreamingService._sensors_config
       (UltrasonicStreamingService.update_sensor_config s cfg)).
Proof.
  intros (H1 & H2 & H3). unfold UltrasonicStreamingService.update_sensor_config.
  cbn [UltrasonicStreamingService.set_sensors_config
         UltrasonicStreamingService._sensors_config].
  set (c0 := UltrasonicStreamingService._sensors_config s) in *.
  cbv zeta.
  set (c1 := match UltrasonicStreamingService.u_sensors_enabled cfg with
             | Some v => _ | None => c0 end).
  assert (Hc1 : sensors_configured c1).
  { subst c1. destruct (UltrasonicStreamingService.u_sensors_enabled cfg) as [v|];
      [|repeat split; tauto].
    destruct (Z.leb 1 (Py.int v)) eqn:E1; cbn [andb]; [|repeat split; tauto].
    destruct (Z.leb (Py.int v) 4) eqn:E2; cbn [andb]; [|repeat split; tauto].
    apply Z.leb_le in E1, E2. split; [cbn; lia|]. split; assumption. }
  clearbody c1.
  set (c2 := match UltrasonicStreamingService.u_max_range_cm cfg with
             | Some v => _ | None => c1 end).
  assert (Hc2 : sensors_configured c2).
  { subst c2. destruct (UltrasonicStreamingService.u_max_range_cm cfg) as [v|];
      [|exact Hc1].
    destruct (Py.leb 10 v) eqn:E1; cbn [andb]; [|exact Hc1].
    destruct (Py.leb v 500) eqn:E2; cbn [andb]; [|exact Hc1].
    apply leb_le in E1, E2. destruct Hc1 as (A & B & C).
    split; [exact A|]. split; [cbn; split; assumption | exact C]. }
  clearbody c2.
  set (c3 := match UltrasonicStreamingService.u_min_range_cm cfg with
             | Some v => _ | None => c2 end).
  assert (Hc3 : sensors_configured c3).
  { subst c3. destruct (UltrasonicStreamingService.u_min_range_cm cfg) as [v|];
      [|exact Hc2].
    destruct (Py.leb 1 v) eqn:E1; cbn [andb]; [|exact Hc2].
    destruct (Py.leb v 50) eqn:E2; cbn [andb]; [|exact Hc2].
    apply leb_le in E1, E2. destruct Hc2 as (A & B & C).
    split; [exact A|]. split; [exact B | cbn; split; assumption]. }
  clearbody c3.
  destruct (UltrasonicStreamingService.u_temperature_compensation cfg),
    (UltrasonicStreamingService.u_noise_filtering cfg); exact Hc3.
Qed.

Lemma streaming_step_keeps s ev :
  sensors_configured (UltrasonicStreamingService._sensors_config s) ->
  sensors_configured (UltrasonicStreamingService._sensors_config (streaming_step s ev)).
Proof.
  intros H. destruct ev as [interval now| |cfg|d|kd kc r now later];
    cbn [streaming_step].
  - unfold UltrasonicStreamingService.start_streaming.
    destruct (UltrasonicStreamingService._streaming s); exact H.
  - unfold UltrasonicStreamingService.stop_streaming.
    destruct (negb _); exact H.
  - apply update_sensor_config_keeps, H.
  - exact H.
  - unfold UltrasonicStreamingService.streaming_loop_iteration.
    destruct (negb _); [exact H|].
    destruct (UltrasonicStreamingService._telemetry_callback s); [|exact H].
    destruct (UltrasonicStreamingService._proximity_detector s); exact H.
Qed.

Lemma streaming_run_keeps cb events :
  sensors_configured
    (UltrasonicStreamingService._sensors_config (streaming_run cb events)).
Proof.
  unfold streaming_run.
  assert (H0 : sensors_configured
                 (UltrasonicStreamingService._sensors_config
                    (UltrasonicStreamingService.init cb)))
    by (unfold sensors_configured; cbn; repeat split; (lia || lra)).
  revert H0. generalize (UltrasonicStreamingService.init cb).
  induction events as [|ev events IH]; intros s H; [exact H|].
  cbn [fold_left]. apply IH, streaming_step_keeps, H.
Qed.

Lemma streamed_distance_bounds s kd i :
  sensors_configured (UltrasonicStreamingService._sensors_config s) ->
  1 <= streamed_distance s kd i /\ streamed_distance s kd i <= 500.
Proof.
  intros (_ & [H1 H2] & [H3 H4]). unfold streamed_distance. cbv zeta.
  set (a := UltrasonicStreamingService.min_range_cm _) in *.
  set (b := UltrasonicStreamingService.max_range_cm _) in *.
  destruct (random_bounds (kd i)) as [Hu0 Hu1].
  assert (Hx : 1 <= Py.uniform a b (kd i) /\ Py.uniform a b (kd i) <= 500).
  { unfold Py.uniform. set (u := Py.random (kd i)) in *. split; nra. }
  destruct Hx as [Hx1 Hx2].
  destruct (round1_bounds (Py.uniform a b (kd i)) 10 5000
              ltac:(change (inject_Z 10) with 10; lra)
              ltac:(change (inject_Z 5000) with 5000; lra)) as [Hr1 Hr2].
  split.
  - eapply Qle_trans; [|exact Hr1]. unfold Qle. cbn. lia.
  - eapply Qle_trans; [exact Hr2|]. unfold Qle. cbn. lia.
Qed.

Lemma seqZ_sensors n :
  (1 <= n <= 4)%Z -> forall j, In j (seqZ 1 n) -> In j [1; 2; 3; 4]%Z.
Proof.
  intros Hn j Hj. apply list_elem_of_In, elem_of_seqZ in Hj.
  assert (j = 1 \/ j = 2 \/ j = 3 \/ j = 4)%Z as [->|[->|[->| ->]]] by lia;
    cbn; auto.
Qed.

Lemma seqZ_enabled n i :
  In i [1; 2; 3; 4]%Z -> bool_decide (i ∈ seqZ 1 n) = (i <=? n)%Z.
Proof.
  intros Hi. assert (1 <= i)%Z by (cbn in Hi; lia).
  destruct (i <=? n)%Z eqn:E.
  - apply Z.leb_le in E. apply bool_decide_eq_true_2, elem_of_seqZ. lia.
  - apply Z.leb_gt in E. apply bool_decide_eq_false_2. rewrite elem_of_seqZ. lia.
Qed.

(** X20. The samples of the ultrasonic streaming service, whatever was
    called on the service before.  [update_sensor_config] passes over
    every value out of its bounds, so the service always has 1 to 4
    sensors enabled, a max range from 10 to 500 cm and a min range from
    1 to 50 cm.  A sample carries a distance and a confidence for the
    enabled sensors and for no other sensor; every distance lies from 1
    to 500 cm and every confidence from 0.80 to 0.99, at least 0.95 for
    a distance under 50 cm. *)
Theorem streamed_sample_readings :
  forall telemetry_callback events kd kc now,
    let s := streaming_run telemetry_callback events in
    let cfg := UltrasonicStreamingService._sensors_config s in
    sensors_configured cfg
    /\ exists vals,
        UltrasonicStreamingService._generate_ultrasonic_telemetry s kd kc now
        = Py.Telemetry (Some (Py.millis now)) (Some vals)
        /\ forall i,
            In i [1; 2; 3; 4]%Z ->
            if (i <=? UltrasonicStreamingService.sensors_enabled cfg)%Z
            then exists confidence,
                vals !! ProximityDetector.distance_key i
                = Some (Py.VNum (streamed_distance s kd i))
                /\ vals !! ProximityDetector.confidence_key i
                   = Some (Py.VNum confidence)
                /\ 1 <= streamed_distance s kd i
                /\ streamed_distance s kd i <= 500
                /\ 0.8 <= confidence /\ confidence <= 0.99
                /\ (streamed_distance s kd i < 50 -> 0.95 <= confidence)
            else vals !! ProximityDetector.distance_key i = None
                 /\ vals !! ProximityDetector.confidence_key i = None.
Proof.
  intros cb events kd kc now s cfg.
  pose proof (streaming_run_keeps cb events) as Hcfg. fold s in Hcfg. fold cfg in Hcfg.
  split; [exact Hcfg|].
  exists (sensor_values (seqZ 1 (UltrasonicStreamingService.sensors_enabled cfg))
            (streamed_distance s kd) kc
            (UltrasonicStreamingService.temperature_compensation cfg)).
  split; [reflexivity|].
  intros i Hi.
  destruct (sensor_values_lookup
              (seqZ 1 (UltrasonicStreamingService.sensors_enabled cfg))
              (streamed_distance s kd) kc
              (UltrasonicStreamingService.temperature_compensation cfg) i Hi
              (seqZ_sensors _ (proj1 Hcfg))) as [H1 H2].
  rewrite (seqZ_enabled _ i Hi) in H1, H2.
  destruct (i <=? _)%Z; [|split; assumption].
  eexists. split; [exact H1|]. split; [exact H2|].
  destruct (streamed_distance_bounds s kd i Hcfg) as [Hd1 Hd2].
  destruct (generated_confidence_bounds (streamed_distance s kd i) (kc i))
    as (Hc1 & Hc2 & Hc3 & _).
  auto 10.
Qed.

(** ** Generated samples and the proximity detector *)

Lemma proximity_numeric_result d tel vals r now :
  ProximityDetector._detecting d = true ->
  Py.values tel = Some vals ->
  numeric_sample vals ->
  match ProximityDetector.result
          (ProximityDetector.process_telemetry_data d tel r now) with
  | None => forall i, In i [1; 2; 3; 4]%Z -> alerting d vals i = false
  | Some res =>
      exists a,
        res = ProximityDetector.proximity_result
                (default (Py.millis now) (Py.ts tel)) a
        /\ In (ProximityDetector.sensor_id a) [1; 2; 3; 4]%Z
        /\ alerting d vals (ProximityDetector.sensor_id a) = true
        /\ ProximityDetector.distance_cm a
           = distance_number vals (ProximityDetector.sensor_id a)
        /\ (forall i, In i [1; 2; 3; 4]%Z -> alerting d vals i = true ->
              ProximityDetector.distance_cm a <= distance_number vals i)
        /\ reports_channel res (default (Py.millis now) (Py.ts tel))
             (ProximityDetector.sensor_id a)
             (distance_number vals (ProximityDetector.sensor_id a))
             (threshold_of d (ProximityDetector.sensor_id a))
  end.
Proof.
  intros Hdet Hvals Hnum.
  unfold ProximityDetector.process_telemetry_data. rewrite Hdet, Hvals.
  cbn [negb].
  destruct (analyze_sensors_numeric [1; 2; 3; 4]%Z vals r now [] d Hnum)
    as (new & Hres & Hids & Hall).
  destruct (analyze_sensors_thresholds [1; 2; 3; 4]%Z vals r now [] d Hnum)
    as (new' & Hres' & Hthr).
  destruct (ProximityDetector.analyze_sensors _ vals r now [] d) as [d' res].
  cbn [snd app] in Hres, Hres'. subst res.
  injection Hres' as <-.
  destruct new as [|a rest]; cbn [ProximityDetector.result].
  - intros i Hi. cbn [map] in Hids.
    destruct (alerting d vals i) eqn:E; [|reflexivity].
    assert (Hin : In i (List.filter (alerting d vals) [1; 2; 3; 4]%Z))
      by (apply filter_In; auto).
    rewrite <- Hids in Hin. destruct Hin.
  - destruct (closest_least a rest) as [Hin Hle].
    set (c := ProximityDetector.closest a rest) in *.
    exists c. split; [reflexivity|].
    assert (Hc : In (ProximityDetector.sensor_id c)
                   (List.filter (alerting d vals) [1; 2; 3; 4]%Z)).
    { rewrite <- Hids. now apply in_map. }
    apply filter_In in Hc. destruct Hc as [Hc1 Hc2].
    rewrite List.Forall_forall in Hall, Hthr.
    split; [exact Hc1|]. split; [exact Hc2|].
    split; [now apply Hall|]. split.
    + intros i Hi Ha.
      assert (Hi' : In i (map ProximityDetector.sensor_id (a :: rest))).
      { rewrite Hids. apply filter_In. auto. }
      apply in_map_iff in Hi'. destruct Hi' as (x & <- & Hx).
      rewrite <- (Hall x Hx). now apply Hle.
    + rewrite <- (Hall c Hin), <- (Hthr c Hin).
      apply proximity_result_entries.
Qed.

Lemma sensor_values_alerting d ids dist kc tc :
  proximity_configured d ->
  ProximityDetector._confidence_threshold d <= 0.8 ->
  (forall j, In j ids -> In j [1; 2; 3; 4]%Z) ->
  let vals := sensor_values ids dist kc tc in
  numeric_sample vals
  /\ forall i, In i [1; 2; 3; 4]%Z ->
       distance_number vals i = (if bool_decide (i ∈ ids) then dist i else 999)
       /\ alerting d vals i
          = (bool_decide (i ∈ ids) && Py.leb (dist i) (threshold_of d i))%bool.
Proof.
  intros (_ & Hthr & _ & _) Hconf Hids vals.
  assert (H : forall i, In i [1; 2; 3; 4]%Z ->
             ProximityDetector.distance_of vals i
             = (if bool_decide (i ∈ ids) then Py.VNum (dist i) else Py.VNum 999)
             /\ ProximityDetector.confidence_of vals i
                = (if bool_decide (i ∈ ids)
                   then Py.VNum (UltrasonicStreamingService.generated_confidence
                                   (dist i) (kc i))
                   else Py.VNum 0)).
  { intros i Hi. destruct (sensor_values_lookup ids dist kc tc i Hi Hids) as [H1 H2].
    unfold ProximityDetector.distance_of, ProximityDetector.confidence_of.
    fold vals in H1, H2. rewrite H1, H2.
    destruct (bool_decide (i ∈ ids)); split; reflexivity. }
  split.
  - intros i Hi. destruct (H i Hi) as [-> ->].
    destruct (bool_decide (i ∈ ids)); split; cbn; eauto.
  - intros i Hi. destruct (H i Hi) as [H1 H2].
    unfold alerting, distance_number, confidence_number. rewrite H1, H2.
    destruct (bool_decide (i ∈ ids)); cbn [Py.as_num from_option id andb].
    + split; [reflexivity|].
      destruct (generated_confidence_bounds (dist i) (kc i)) as (Hc & _).
      assert (Hle : Py.leb (ProximityDetector._confidence_threshold d)
                      (UltrasonicStreamingService.generated_confidence (dist i) (kc i))
                    = true) by (apply leb_le; lra).
      rewrite Hle. apply andb_true_r.
    + split; [reflexivity|].
      destruct (Hthr i) as [_ Hup].
      assert (Hgt : Py.leb 999 (threshold_of d i) = false) by (apply leb_gt; lra).
      rewrite Hgt. reflexivity.
Qed.

Lemma proximity_on_generated d ids dist kc tc ts r now :
  proximity_configured d ->
  ProximityDetector._detecting d = true ->
  ProximityDetector._confidence_threshold d <= 0.8 ->
  (forall j, In j ids -> In j [1; 2; 3; 4]%Z) ->
  let po :=
    ProximityDetector.process_telemetry_data d
      (Py.Telemetry (Some ts) (Some (sensor_values ids dist kc tc))) r now in
  (is_Some (ProximityDetector.result po)
   <-> exists i, In i ids /\ dist i <= threshold_of d i)
  /\ match ProximityDetector.result po with
     | None => True
     | Some res =>
         exists a,
           res = ProximityDetector.proximity_result ts a
           /\ In (ProximityDetector.sensor_id a) ids
           /\ ProximityDetector.distance_cm a = dist (ProximityDetector.sensor_id a)
           /\ ProximityDetector.distance_cm a
              <= threshold_of d (ProximityDetector.sensor_id a)
           /\ (forall i, In i ids -> dist i <= threshold_of d i ->
                 ProximityDetector.distance_cm a <= dist i)
           /\ reports_channel res ts (ProximityDetector.sensor_id a)
                (dist (ProximityDetector.sensor_id a))
                (threshold_of d (ProximityDetector.sensor_id a))
     end.
Proof.
  intros Hcfg Hdet Hconf Hids po.
  destruct (sensor_values_alerting d ids dist kc tc Hcfg Hconf Hids) as [Hnum Hal].
  cbv zeta in Hnum, Hal.
  pose proof (proximity_numeric_result d
                (Py.Telemetry (Some ts) (Some (sensor_values ids dist kc tc)))
                _ r now Hdet eq_refl Hnum) as Hres.
  fold po in Hres. cbn [Py.ts from_option id] in Hres.
  assert (Hin : forall i, In i ids ->
             In i [1; 2; 3; 4]%Z /\ bool_decide (i ∈ ids) = true).
  { intros i Hi. split; [now apply Hids|].
    apply bool_decide_eq_true_2, list_elem_of_In, Hi. }
  destruct (ProximityDetector.result po) as [res|].
  - destruct Hres as (a & Hr & Ha1 & Ha2 & Ha3 & Ha4 & Ha5).
    destruct (Hal _ Ha1) as [Hd Hb]. rewrite Hb in Ha2.
    apply andb_true_iff in Ha2 as [Hm Hle].
    apply bool_decide_eq_true, list_elem_of_In in Hm. apply leb_le in Hle.
    assert (Hda : ProximityDetector.distance_cm a
                  = dist (ProximityDetector.sensor_id a)).
    { rewrite Ha3, Hd. destruct (Hin _ Hm) as [_ ->]. reflexivity. }
    split.
    + split; [intros _; eauto|eauto].
    + exists a. split; [exact Hr|]. split; [exact Hm|]. split; [exact Hda|].
      split; [now rewrite Hda|]. split.
      * intros i Hi Hle'. destruct (Hin i Hi) as [Hi4 Hb'].
        destruct (Hal i Hi4) as [Hdi Hai]. rewrite Hb' in Hdi, Hai.
        cbn [andb] in Hai.
        specialize (Ha4 i Hi4). rewrite Hai, Hdi in Ha4. apply Ha4.
        now apply leb_le.
      * rewrite <- Hda, Ha3. exact Ha5.
  - split; [|exact I]. split.
    + intros [x Hx]. discriminate.
    + intros (i & Hi & Hle). exfalso. destruct (Hin i Hi) as [Hi4 Hb].
      destruct (Hal i Hi4) as [_ Hai]. rewrite Hb, (Hres i Hi4) in Hai.
      cbn [andb] in Hai. symmetry in Hai. apply leb_gt in Hai.
      exact (Qlt_not_le _ _ Hai Hle).
Qed.

(** X21. One round of the loop of a streaming ultrasonic service that
    has a callback and a running proximity detector: the sample is
    handed to the callback of the service and counted, and it is
    analysed by the detector in the same round.  With a confidence
    threshold of at most 0.8 (0.8 is the default) the generated
    confidences never hold an alert back: the detector returns a result
    exactly when an enabled sensor drew a distance at or below its
    threshold, the result is for the least such distance (it carries
    the sample's timestamp, that sensor's number, distance and
    threshold, and no other sensor), and sensors that are not enabled
    never alert. *)
Theorem streaming_round_alerts :
  forall telemetry_callback events d kd kc r now later,
    let s := streaming_run telemetry_callback events in
    let sensors :=
      UltrasonicStreamingService.sensors_enabled
        (UltrasonicStreamingService._sensors_config s) in
    UltrasonicStreamingService._streaming s = true ->
    UltrasonicStreamingService._telemetry_callback s = true ->
    UltrasonicStreamingService._proximity_detector s = Some d ->
    proximity_configured d ->
    ProximityDetector._detecting d = true ->
    ProximityDetector._confidence_threshold d <= 0.8 ->
    let sample := UltrasonicStreamingService._generate_ultrasonic_telemetry s kd kc now in
    let o := UltrasonicStreamingService.streaming_loop_iteration s kd kc r now later in
    let po := ProximityDetector.process_telemetry_data d sample r later in
    UltrasonicStreamingService.streamed o = [sample]
    /\ UltrasonicStreamingService._stream_count (UltrasonicStreamingService.service o)
       = (UltrasonicStreamingService._stream_count s + 1)%Z
    /\ UltrasonicStreamingService._proximity_detector
         (UltrasonicStreamingService.service o)
       = Some (ProximityDetector.detector po)
    /\ UltrasonicStreamingService.alerts o = ProximityDetector.published po
    /\ (is_Some (ProximityDetector.result po)
        <-> exists i, (1 <= i <= sensors)%Z
                      /\ streamed_distance s kd i <= threshold_of d i)
    /\ match ProximityDetector.result po with
       | None => True
       | Some res =>
           exists a,
             res = ProximityDetector.proximity_result (Py.millis now) a
             /\ (1 <= ProximityDetector.sensor_id a <= sensors)%Z
             /\ ProximityDetector.distance_cm a
                = streamed_distance s kd (ProximityDetector.sensor_id a)
             /\ ProximityDetector.distance_cm a
                <= threshold_of d (ProximityDetector.sensor_id a)
             /\ (forall i, (1 <= i <= sensors)%Z ->
                   streamed_distance s kd i <= threshold_of d i ->
                   ProximityDetector.distance_cm a <= streamed_distance s kd i)
             /\ reports_channel res (Py.millis now) (ProximityDetector.sensor_id a)
                  (streamed_distance s kd (ProximityDetector.sensor_id a))
                  (threshold_of d (ProximityDetector.sensor_id a))
       end.
Proof.
  intros cb events d kd kc r now later s sensors Hst Hcb Hpd Hcfg Hdet Hconf
    sample o po.
  pose proof (streaming_run_keeps cb events) as (Hn & _). fold s in Hn.
  fold sensors in Hn.
  assert (Ho : o = UltrasonicStreamingService.Outcome
                     (UltrasonicStreamingService.Service
                        (UltrasonicStreamingService._streaming s)
                        (UltrasonicStreamingService._telemetry_callback s)
                        (UltrasonicStreamingService._streaming_thread s)
                        (UltrasonicStreamingService._stream_count s + 1)%Z
                        (UltrasonicStreamingService._start_time s)
                        (Some (ProximityDetector.detector po))
                        (UltrasonicStreamingService._streaming_interval s)
                        (UltrasonicStreamingService._sensors_config s))
                     [sample] (ProximityDetector.published po)).
  { subst o. unfold UltrasonicStreamingService.streaming_loop_iteration.
    rewrite Hst, Hcb, Hpd. reflexivity. }
  clearbody o. subst o.
  split; [reflexivity|]. split; [reflexivity|]. split; [reflexivity|].
  split; [reflexivity|].
  destruct (proximity_on_generated d (seqZ 1 sensors) (streamed_distance s kd) kc
              (UltrasonicStreamingService.temperature_compensation
                 (UltrasonicStreamingService._sensors_config s))
              (Py.millis now) r later Hcfg Hdet Hconf (seqZ_sensors sensors Hn))
    as [H1 H2].
  change (ProximityDetector.process_telemetry_data d _ r later) with po in H1, H2.
  assert (Hseq : forall i, In i (seqZ 1 sensors) <-> (1 <= i <= sensors)%Z).
  { intros i. rewrite <- list_elem_of_In, elem_of_seqZ. lia. }
  split.
  - rewrite H1. split; intros (i & Hi & Hle); exists i; (split; [apply Hseq, Hi | exact Hle]).
  - destruct (ProximityDetector.result po) as [res|]; [|exact I].
    destruct H2 as (a & Ha0 & Ha1 & Ha2 & Ha3 & Ha4 & Ha5).
    exists a. split; [exact Ha0|]. split; [apply Hseq, Ha1|].
    split; [exact Ha2|]. split; [exact Ha3|]. split; [|exact Ha5].
    intros i Hi. apply Ha4, Hseq, Hi.
Qed.

Lemma streaming_round_alerts_witness :
  let d := proximity_run true [Start_detection 0] in
  let events := [Streaming_set_proximity_detector d; Streaming_start 2 0] in
  let s := streaming_run true events in
  let kd := fun _ : Z => 0%Z in
  let po :=
    ProximityDetector.process_telemetry_data d
      (UltrasonicStreamingService._generate_ultrasonic_telemetry s kd kd 1)
      kd 1.5 in
  is_Some (ProximityDetector.result po)
  <-> exists i, (1 <= i <= 4)%Z /\ streamed_distance s kd i <= threshold_of d i.
Proof.
  intros d events s kd po.
  pose proof (streaming_round_alerts true events d kd kd kd 1 1.5 eq_refl eq_refl
                eq_refl (proximity_configured_fold [Start_detection 0] _
                           (proximity_configured_init true))
                eq_refl ltac:(cbn; lra)) as H.
  cbv zeta in H. destruct H as (_ & _ & _ & _ & H & _). exact H.
Defined.

Lemma package_sample_values k_temp kd kc now :
  Ultrasonic.get_ultrasonic_telemetry_data k_temp kd kc now
  = Py.Telemetry (Some (Py.millis now))
      (Some (sensor_values [1; 2; 3; 4]%Z
               (fun i => Py.round (Py.uniform 5 400 (kd i)) 1) kc
               (Py.choice false [true; true; true; false] k_temp))).
Proof. reflexivity. Qed.

(** X22. One round of the polling loop of a running proximity detector,
    which draws its own sample with [get_ultrasonic_telemetry_data]:
    every sensor reads a distance from 5 to 400 cm, and with a
    confidence threshold of at most 0.8 the round returns a result, and
    counts a detection, exactly when one of the four distances is at or
    below the threshold of its sensor; the result is for the least such
    distance, and carries the sample's timestamp, that sensor's number,
    distance and threshold, and no other sensor. *)
Theorem proximity_polling_round :
  forall d k_temp kd kc r now later,
    proximity_configured d ->
    ProximityDetector._detecting d = true ->
    ProximityDetector._confidence_threshold d <= 0.8 ->
    let distance := fun i => Py.round (Py.uniform 5 400 (kd i)) 1 in
    let po := Ultrasonic.detection_loop_iteration d k_temp kd kc r now later in
    (forall i, 5 <= distance i /\ distance i <= 400)
    /\ (is_Some (ProximityDetector.result po)
        <-> exists i, In i [1; 2; 3; 4]%Z /\ distance i <= threshold_of d i)
    /\ ProximityDetector._detection_count (ProximityDetector.detector po)
       = (ProximityDetector._detection_count d
          + if bool_decide (is_Some (ProximityDetector.result po)) then 1 else 0)%Z
    /\ match ProximityDetector.result po with
       | None => True
       | Some res =>
           exists a,
             res = ProximityDetector.proximity_result (Py.millis now) a
             /\ In (ProximityDetector.sensor_id a) [1; 2; 3; 4]%Z
             /\ ProximityDetector.distance_cm a = distance (ProximityDetector.sensor_id a)
             /\ (forall i, In i [1; 2; 3; 4]%Z ->
                   distance i <= threshold_of d i ->
                   ProximityDetector.distance_cm a <= distance i)
             /\ reports_channel res (Py.millis now) (ProximityDetector.sensor_id a)
                  (distance (ProximityDetector.sensor_id a))
                  (threshold_of d (ProximityDetector.sensor_id a))
       end.
Proof.
  intros d k_temp kd kc r now later Hcfg Hdet Hconf distance po.
  assert (Hpo : po = ProximityDetector.process_telemetry_data d
                       (Py.Telemetry (Some (Py.millis now))
                          (Some (sensor_values [1; 2; 3; 4]%Z distance kc
                                   (Py.choice false [true; true; true; false] k_temp))))
                       r later).
  { subst po. unfold Ultrasonic.detection_loop_iteration. rewrite Hdet. cbn [negb].
    now rewrite package_sample_values. }
  split.
  { intros i. subst distance. cbv beta.
    destruct (uniform_round1 5 400 50 4000 (kd i) ltac:(lra)
                ltac:(change (inject_Z 50) with 50; lra)
                ltac:(change (inject_Z 4000) with 4000; lra)) as [H1 H2].
    split.
    - eapply Qle_trans; [|exact H1]. unfold Qle. cbn. lia.
    - eapply Qle_trans; [exact H2|]. unfold Qle. cbn. lia. }
  destruct (proximity_on_generated d [1; 2; 3; 4]%Z distance kc
              (Py.choice false [true; true; true; false] k_temp)
              (Py.millis now) r later Hcfg Hdet Hconf (fun j Hj => Hj)) as [H1 H2].
  rewrite <- Hpo in H1, H2.
  split; [exact H1|]. split.
  - pose proof (proximity_process_count d
                  (Py.Telemetry (Some (Py.millis now))
                     (Some (sensor_values [1; 2; 3; 4]%Z distance kc
                              (Py.choice false [true; true; true; false] k_temp))))
                  r later) as Hc.
    cbv zeta in Hc. rewrite <- Hpo in Hc. rewrite Hc.
    unfold results_returned. destruct (ProximityDetector.result po); reflexivity.
  - destruct (ProximityDetector.result po) as [res|]; [|exact I].
    destruct H2 as (a & Ha0 & Ha1 & Ha2 & _ & Ha4 & Ha5).
    exists a. auto 10.
Qed.

Lemma proximity_polling_round_witness :
  let d := proximity_run true [Start_detection 0] in
  let kd := fun _ : Z => 0%Z in
  let po := Ultrasonic.detection_loop_iteration d 0 kd kd kd 1 1.5 in
  is_Some (ProximityDetector.result po)
  /\ ProximityDetector._detection_count (ProximityDetector.detector po) = 1%Z.
Proof.
  intros d kd po.
  pose proof (proximity_polling_round d 0 kd kd kd 1 1.5
                (proximity_configured_fold [Start_detection 0] _
                   (proximity_configured_init true))
                eq_refl ltac:(cbn; lra)) as H.
  cbv zeta in H. fold po in H. destruct H as (_ & H1 & H2 & _).
  assert (Hs : is_Some (ProximityDetector.result po)).
  { apply H1. exists 1%Z. split; [now left|]. vm_compute. discriminate. }
  split; [exact Hs|]. rewrite H2.
  rewrite (bool_decide_eq_true_2 _ Hs). reflexivity.
Defined.

(** ** The LiDAR streaming service and the collector *)

Lemma lidar_streaming_step_callback s ev :
  (LidarTelemetryStreamingService._streaming s = true ->
   LidarTelemetryStreamingService._telemetry_callback s = true) ->
  LidarTelemetryStreamingService._streaming (lidar_streaming_step s ev) = true ->
  LidarTelemetryStreamingService._telemetry_callback (lidar_streaming_step s ev) = true.
Proof.
  set (P := fun s : LidarTelemetryStreamingService.t =>
              LidarTelemetryStreamingService._streaming s = true ->
              LidarTelemetryStreamingService._telemetry_callback s = true).
  change (P s -> P (lidar_streaming_step s ev)). intros H.
  destruct ev as [interval now| |interval|c]; cbn [lidar_streaming_step].
  - unfold LidarTelemetryStreamingService.start_streaming.
    destruct (LidarTelemetryStreamingService._streaming s); [exact H|].
    destruct (LidarTelemetryStreamingService._telemetry_callback s) eqn:E;
      cbn [negb fst]; [|exact H].
    subst P. cbn. auto.
  - unfold LidarTelemetryStreamingService.stop_streaming.
    destruct (negb _); [exact H|]. subst P. cbn. discriminate.
  - unfold LidarTelemetryStreamingService.update_streaming_interval.
    destruct (_ && _)%bool; exact H.
  - unfold LidarTelemetryStreamingService.streaming_loop_iteration.
    destruct (negb _); [exact H|]. destruct c as [c|]; [|exact H].
    destruct (LidarDataCollector.get_current_telemetry c); [|exact H].
    destruct (LidarTelemetryStreamingService._telemetry_callback s) eqn:E;
      cbn [fst]; [|exact H].
    subst P. cbn. auto.
Qed.

Lemma lidar_streaming_run_callback cb events :
  LidarTelemetryStreamingService._streaming (lidar_streaming_run cb events) = true ->
  LidarTelemetryStreamingService._telemetry_callback (lidar_streaming_run cb events)
  = true.
Proof.
  unfold lidar_streaming_run.
  assert (H0 : LidarTelemetryStreamingService._streaming
                 (LidarTelemetryStreamingService.init cb) = true ->
               LidarTelemetryStreamingService._telemetry_callback
                 (LidarTelemetryStreamingService.init cb) = true)
    by discriminate.
  revert H0. generalize (LidarTelemetryStreamingService.init cb).
  induction events as [|ev events IH]; intros s H; [exact H|].
  cbn [fold_left]. apply IH, lidar_streaming_step_callback, H.
Qed.

(** X23. One round of the loop of the LiDAR streaming service against a
    collector.  A service that streams has a callback ([start_streaming]
    refuses to start without one), so the round publishes exactly while
    the service streams and the collector collects and has generated a
    sample; what it publishes is the sample the collector generated
    last, once, and it counts the transmission.  In every other case,
    and without a collector, the round changes nothing. *)
Theorem lidar_streaming_round_publishes_latest :
  forall telemetry_callback stream_events events,
    let s := lidar_streaming_run telemetry_callback stream_events in
    let c := collector_run events in
    let out := LidarTelemetryStreamingService.streaming_loop_iteration s (Some c) in
    snd out
    = (if (LidarTelemetryStreamingService._streaming s
           && LidarDataCollector._collecting c)%bool
       then match last (LidarDataCollector._telemetry_entries c) with
            | Some telemetry_data => [telemetry_data]
            | None => []
            end
       else [])
    /\ LidarTelemetryStreamingService._stream_count (fst out)
       = (LidarTelemetryStreamingService._stream_count s
          + Z.of_nat (length (snd out)))%Z
    /\ (snd out = [] -> fst out = s)
    /\ LidarTelemetryStreamingService._streaming (fst out)
       = LidarTelemetryStreamingService._streaming s
    /\ LidarTelemetryStreamingService.streaming_loop_iteration s None = (s, []).
Proof.
  intros cb sevents events s c out.
  pose proof (lidar_streaming_run_callback cb sevents) as Hcb. fold s in Hcb.
  pose proof (collector_run_cache events) as Hcache. fold c in Hcache.
  assert (Hget : LidarDataCollector.get_current_telemetry c
                 = if LidarDataCollector._collecting c
                   then last (LidarDataCollector._telemetry_entries c) else None).
  { unfold LidarDataCollector.get_current_telemetry. rewrite Hcache.
    destruct (LidarDataCollector._collecting c); cbn [negb orb]; [|reflexivity].
    destruct (last _); reflexivity. }
  assert (Hnone : LidarTelemetryStreamingService.streaming_loop_iteration s None
                  = (s, [])).
  { unfold LidarTelemetryStreamingService.streaming_loop_iteration.
    destruct (negb _); reflexivity. }
  subst out. unfold LidarTelemetryStreamingService.streaming_loop_iteration.
  rewrite Hget.
  destruct (LidarTelemetryStreamingService._streaming s) eqn:Es; cbn [negb andb].
  - rewrite (Hcb eq_refl).
    destruct (LidarDataCollector._collecting c);
      [destruct (last _)|]; cbn; rewrite ?Es; repeat split; auto; try lia;
      discriminate.
  - cbn. rewrite Es. repeat split; auto. lia.
Qed.

(** ** The estimates of a capture session *)

Lemma int_of_product (duration : Z) (rate : Q) :
  (0 <= duration)%Z -> 0 < rate ->
  let n := Py.int (inject_Z duration * rate) in
  (0 <= n)%Z
  /\ inject_Z n * (1 / rate) <= inject_Z duration
  /\ inject_Z duration < inject_Z (n + 1) * (1 / rate).
Proof.
  intros Hd Hr n.
  assert (Hd' : 0 <= inject_Z duration) by (rewrite <- (Zle_Qle 0); exact Hd).
  assert (H0 : 0 <= inject_Z duration * rate) by nra.
  subst n. rewrite (int_nonneg _ H0).
  pose proof (Qfloor_le (inject_Z duration * rate)) as H1.
  pose proof (Qlt_floor (inject_Z duration * rate)) as H2.
  set (f := Qfloor (inject_Z duration * rate)) in *.
  assert (Hinv : 0 < 1 / rate) by (apply Qlt_shift_div_l; lra).
  assert (Hone : rate * (1 / rate) == 1) by (field; lra).
  split; [|split].
  - assert (Hf : inject_Z 0 <= inject_Z duration * rate) by exact H0.
    apply Qfloor_resp_le in Hf. now rewrite Qfloor_Z in Hf.
  - set (x := 1 / rate) in *. set (D := inject_Z duration) in *.
    set (F := inject_Z f) in *. nra.
  - set (x := 1 / rate) in *. set (D := inject_Z duration) in *.
    set (F := inject_Z (f + 1)) in *. nra.
Qed.

(** X24. The estimates of a capture session fit the duration.  For a
    duration that is not negative, the number of scans the LiDAR service
    estimates at the scan rate of its state (no override, or an
    override of 0, which the code treats as none) is the largest number
    of scan intervals that fit into the duration; it lies between the
    duration and fifty times the duration, and the estimate never
    divides by zero.  The ultrasonic service turns down exactly the
    sample rates outside 0.1 to 100 Hz; otherwise the samples it
    estimates are the largest number of sample intervals that fit, and
    the distance readings are that number times the sensors enabled, at
    most four times as many. *)
Theorem capture_estimates_fit_duration :
  forall capture_duration_seconds,
    (0 <= capture_duration_seconds)%Z ->
    (forall events scan_rate_hz,
        scan_rate_hz = None \/ scan_rate_hz = Some 0 ->
        let svc := lidar_run events in
        exists e,
          LidarControlService.estimate_lidar_capture_session svc
            capture_duration_seconds scan_rate_hz = Some e
          /\ LidarControlService.e_scan_rate_hz e
             = LidarControlService.scan_rate_hz (LidarControlService._state svc)
          /\ inject_Z (LidarControlService.estimated_scans e)
             * LidarControlService.scan_interval_seconds e
             <= inject_Z capture_duration_seconds
          /\ inject_Z capture_duration_seconds
             < inject_Z (LidarControlService.estimated_scans e + 1)
               * LidarControlService.scan_interval_seconds e
          /\ (capture_duration_seconds <= LidarControlService.estimated_scans e
              <= 50 * capture_duration_seconds)%Z
          /\ LidarControlService.estimated_total_points e
             = (LidarControlService.estimated_scans e * 275000)%Z
          /\ LidarControlService.estimated_telemetry_files e
             = LidarControlService.estimated_scans e)
    /\ (forall events sample_rate_hz,
        let svc := ultrasonic_run events in
        match UltrasonicControlService.estimate_ultrasonic_capture_session svc
                sample_rate_hz capture_duration_seconds with
        | UltrasonicControlService.Estimate_error _ =>
            ~ (0.1 <= sample_rate_hz /\ sample_rate_hz <= 100)
        | UltrasonicControlService.Estimated e =>
            (0.1 <= sample_rate_hz /\ sample_rate_hz <= 100)
            /\ inject_Z (UltrasonicControlService.estimated_samples e)
               * UltrasonicControlService.sample_interval_seconds e
               <= inject_Z capture_duration_seconds
            /\ inject_Z capture_duration_seconds
               < inject_Z (UltrasonicControlService.estimated_samples e + 1)
                 * UltrasonicControlService.sample_interval_seconds e
            /\ UltrasonicControlService.estimated_distance_readings e
               = (UltrasonicControlService.estimated_samples e
                  * UltrasonicControlService.sensors_enabled
                      (UltrasonicControlService._config svc))%Z
            /\ (UltrasonicControlService.estimated_samples e
                <= UltrasonicControlService.estimated_distance_readings e
                <= 4 * UltrasonicControlService.estimated_samples e)%Z
        end).
Proof.
  intros duration Hd. split.
  - intros events override Ho svc.
    destruct (lidar_run_keeps events) as [([H1 H2] & _) _]. fold svc in H1, H2.
    set (rate := LidarControlService.scan_rate_hz (LidarControlService._state svc)) in *.
    assert (Hr : 0 < rate) by lra.
    assert (Hz : Qeq_bool rate 0 = false).
    { destruct (Qeq_bool rate 0) eqn:E; [|reflexivity].
      apply Qeq_bool_iff in E. lra. }
    assert (He : LidarControlService.estimate_lidar_capture_session svc duration override
                 = LidarControlService.estimate_lidar_capture_session svc duration None).
    { destruct Ho as [-> | ->]; reflexivity. }
    rewrite He. unfold LidarControlService.estimate_lidar_capture_session.
    fold rate. cbv zeta. rewrite Hz.
    eexists. split; [reflexivity|].
    cbn [LidarControlService.e_scan_rate_hz LidarControlService.estimated_scans
           LidarControlService.scan_interval_seconds
           LidarControlService.estimated_total_points
           LidarControlService.estimated_telemetry_files].
    destruct (int_of_product duration rate Hd Hr) as (Hn0 & Hn1 & Hn2).
    cbv zeta in Hn0, Hn1, Hn2.
    split; [reflexivity|]. split; [exact Hn1|]. split; [exact Hn2|].
    split; [|split; reflexivity].
    assert (Hd' : 0 <= inject_Z duration) by (rewrite <- (Zle_Qle 0); exact Hd).
    split.
    + apply int_lower; [exact Hd | nra].
    + apply int_upper; [nra|]. rewrite inject_Z_mult.
      change (inject_Z 50) with 50. nra.
  - intros events rate svc.
    unfold UltrasonicControlService.estimate_ultrasonic_capture_session.
    destruct (Py.leb (1 # 10) rate) eqn:E1; cbn [andb negb].
    2:{ apply leb_gt in E1. intros [H _]. lra. }
    destruct (Py.leb rate 100) eqn:E2; cbn [andb negb].
    2:{ apply leb_gt in E2. intros [_ H]. lra. }
    apply leb_le in E1, E2. cbv zeta.
    cbn [UltrasonicControlService.estimated_samples
           UltrasonicControlService.sample_interval_seconds
           UltrasonicControlService.estimated_distance_readings].
    destruct (int_of_product duration rate Hd ltac:(lra)) as (Hn0 & Hn1 & Hn2).
    cbv zeta in Hn0, Hn1, Hn2.
    split; [split; lra|]. split; [exact Hn1|]. split; [exact Hn2|].
    split; [reflexivity|].
    destruct (ultrasonic_run_keeps events) as (Hs & _). fold svc in Hs.
    nia.
Qed.

Lemma capture_estimates_fit_duration_witness :
  exists e,
    LidarControlService.estimate_lidar_capture_session
      (lidar_run [Lidar_apply_config (Some 2.5) None None]) 3 (Some 0) = Some e
    /\ LidarControlService.estimated_scans e = 7%Z
    /\ (3 <= LidarControlService.estimated_scans e <= 50 * 3)%Z.
Proof.
  destruct (proj1 (capture_estimates_fit_duration 3 ltac:(lia))
              [Lidar_apply_config (Some 2.5) None None] (Some 0)
              ltac:(now right)) as (e & He & _ & _ & _ & Hb & _).
  exists e. split; [exact He|]. split; [|exact Hb].
  vm_compute in He. injection He as <-. reflexivity.
Defined.
